(** * LumiSpy demo notebooks: syntax of the code cells and behaviour of
      the cells that carry logic of their own.

    The repository consists of Jupyter notebooks.  Part I embeds the code
    cells of the six notebooks as Python syntax trees and states the
    structural properties of the notebooks as decidable predicates over
    them.  Part II embeds, as functions over an explicit interpreter state,
    the cells whose behaviour depends on control flow: the navigator cell
    of AttolightSEM_HYP, the background-path cell of
    AttolightSEM_sur_to_hspy and the advanced fitting cell of the 2023
    workshop introduction; and, over the real numbers, the Jacobian
    transformation as the text of the 2023 workshop introduction states
    it.  Part III covers further cells and analyses. *)

From Stdlib Require Import ZArith Lia Bool Ascii String.
From stdpp Require Import base list strings sorting.
From Stdlib Require Reals Lra.

Local Set Warnings "-register-all".
Local Open Scope string_scope.
Local Open Scope list_scope.

(** ** Part I.  Syntax of the code cells *)

Module Py.

(** Binary and comparison operators that occur in the notebooks. *)
Inductive binop := OAdd | OSub | OMult | ODiv.
Inductive cmpop := CLt | CGt | CEq | CIsNot.

(** Python expressions.  A float literal keeps its source text. *)
Inductive expr : Type :=
| Name (id : string)
| Attr (e : expr) (attr : string)
| Call (f : expr) (args : list expr) (kwargs : list (string * expr))
| Index (e : expr) (i : expr)
| Slice (lo hi step : option expr)
| Tuple (es : list expr)
| ListE (es : list expr)
| DictE (kvs : list (expr * expr))
| Int (n : Z)
| Float (lit : string)
| Str (s : string)
| Const (k : string)
| BinOp (op : binop) (a b : expr)
| Neg (e : expr)
| Compare (op : cmpop) (a b : expr)
| Lambda (params : list string) (body : expr)
| Star (e : expr).

(** [Dot "os" ["path"; "join"]] is the attribute chain [os.path.join]. *)
Definition Dot (root : string) (attrs : list string) : expr :=
  fold_left Attr attrs (Name root).

(** Statements.  [Magic] and [Help] are the IPython line forms [%name ...]
    and [e?].  [If] carries its [elif]/[else] part as the second block.
    A handler of [Try] is the caught class ([None] for a bare [except:])
    with its block. *)
Inductive stmt : Type :=
| Expr (e : expr)
| Assign (targets : list expr) (value : expr)
| PyImport (modules : list (string * option string))
| Magic (line : string)
| Help (e : expr)
| FunctionDef (name : string) (params : list string) (body : list stmt)
| ClassDef (name : string) (bases : list expr) (body : list stmt)
| For (target iter : expr) (body : list stmt)
| While (cond : expr) (body : list stmt)
| If (cond : expr) (body orelse : list stmt)
| Try (body : list stmt) (handlers : list (option expr * list stmt))
| Raise (e : expr)
| Return (e : expr).

(** A notebook is its sequence of cells; the prose of a markdown cell is
    not code and is not kept. *)
Inductive cell : Type :=
| Markdown
| Code (src : list stmt).

Record notebook := {
  nb_name : string;
  nb_file : string;
  nb_title : string;
  nb_cells : list cell
}.

End Py.
Import Py.

(** ** The notebooks

    Each code cell is given with its position in the notebook and the
    lines of the file under src/ that hold its source. *)

(** *** AttolightSEM_HYP.ipynb *)

Definition AttolightSEM_HYP : notebook :=
  {| nb_name := "AttolightSEM_HYP";
     nb_file := "AttolightSEM_HYP.ipynb";
     nb_title := "Demo for LumiSpy package working with AttoLight SEM CL data";
     nb_cells :=
       [ Markdown
       ; Markdown
       (* cell 2: AttolightSEM_HYP.ipynb, lines 30-32 *)
       ; Code
           [ Magic "%matplotlib qt"
           ; PyImport [("lumispy", Some "lum")] ]
       ; Markdown
       ; Markdown
       (* cell 5: AttolightSEM_HYP.ipynb, lines 66-68 *)
       ; Code
           [ Assign [Name "path"] (Str "demo-files/load_from_AttoLightSEM/HYPCard.bin")
           ; Assign [Name "cl_sem"] (Call (Attr (Name "lum") "load") [Name "path"] [])
           ; Expr (Name "cl_sem") ]
       (* cell 6: AttolightSEM_HYP.ipynb, lines 77-77 *)
       ; Code
           [ Expr (Call (Attr (Name "cl_sem") "plot") [] []) ]
       ; Markdown
       ; Markdown
       (* cell 9: AttolightSEM_HYP.ipynb, lines 115-115 *)
       ; Code
           [ Expr
               (Compare CIsNot (Dot "cl_sem" ["metadata"; "Signal"; "background"])
                  (Const "None")) ]
       ; Markdown
       (* cell 11: AttolightSEM_HYP.ipynb, lines 146-147 *)
       ; Code
           [ Assign [Name "cl_sem_bkg"] (Name "cl_sem")
           ; Assign [Name "cl_sem_bkg"]
               (Call (Attr (Name "cl_sem") "background_subtraction") [] []) ]
       ; Markdown
       (* cell 13: AttolightSEM_HYP.ipynb, lines 178-178 *)
       ; Code
           [ Expr (Call (Attr (Name "cl_sem_bkg") "correct_grating_shift") [] []) ]
       ; Markdown
       (* cell 15: AttolightSEM_HYP.ipynb, lines 195-195 *)
       ; Code
           [ Assign [Name "cl_sem_bkg"]
               (Call (Attr (Name "cl_sem_bkg") "crop_edges") [] [("crop_px", Int 5)]) ]
       ; Markdown
       (* cell 17: AttolightSEM_HYP.ipynb, lines 224-224 *)
       ; Code
           [ Assign [Name "cl_sem_bkg_spikes"]
               (Call (Attr (Name "cl_sem_bkg") "cosmic_rays_subtraction") []
                  [("extra_percent", Int 50)]) ]
       ; Markdown
       (* cell 19: AttolightSEM_HYP.ipynb, lines 241-241 *)
       ; Code
           [ Expr (Call (Attr (Name "cl_sem_bkg_spikes") "plot") [] []) ]
       ; Markdown
       (* cell 21: AttolightSEM_HYP.ipynb, lines 263-263 *)
       ; Code
           [ Expr
               (Call (Attr (Call (Dot "cl_sem_bkg_spikes" ["T"; "mean"]) [] []) "plot") []
                  [("cmap", Str "viridis")]) ]
       ; Markdown
       (* cell 23: AttolightSEM_HYP.ipynb, lines 279-279 *)
       ; Code
           [ Expr
               (Call (Attr (Call (Attr (Name "cl_sem_bkg_spikes") "mean") [] []) "plot") []
                  []) ]
       ; Markdown
       ; Markdown
       (* cell 26: AttolightSEM_HYP.ipynb, lines 304-307 *)
       ; Code
           [ PyImport [("os", None)]
           ; Assign [Name "se_path"]
               (Call (Dot "os" ["path"; "join"])
                  [ Index (Call (Dot "os" ["path"; "split"]) [Name "path"] []) (Int 0)
                  ; Str "SE_Scan*.png" ]
                  [])
           ; Assign [Name "SE"]
               (Call (Attr (Name "lum") "hyperspyload") [Name "se_path"] []) ]
       (* cell 27: AttolightSEM_HYP.ipynb, lines 316-325 *)
       ; Code
           [ Try
               [ Assign [Name "crop"]
                   (Dot "cl_sem_bkg_spikes" ["metadata"; "Signal"; "cropped_edges"])
               ; Assign [Name "size_x"]
                   (Dot "cl_sem_bkg_spikes"
                      ["metadata"; "Acquisition_instrument"; "SEM"; "resolution_x"])
               ; Assign [Name "size_y"]
                   (Dot "cl_sem_bkg_spikes"
                      ["metadata"; "Acquisition_instrument"; "SEM"; "resolution_x"])
               ; Assign [Name "SE"]
                   (Index (Attr (Name "SE") "isig")
                      (Tuple
                         [ Slice (Some (Name "crop"))
                             (Some (BinOp OSub (Name "size_x") (Name "crop")))
                             None
                         ; Slice (Some (Name "crop"))
                             (Some (BinOp OSub (Name "size_y") (Name "crop")))
                             None ]))
               ; Expr
                   (Call (Attr (Name "cl_sem_bkg_spikes") "plot") []
                      [("navigator", Name "SE")]) ]
               [ (None,
                  [ Expr
                      (Call (Attr (Name "cl_sem_bkg_spikes") "plot") []
                         [("navigator", Name "SE")]) ]) ] ]
       ; Markdown
       (* cell 29: AttolightSEM_HYP.ipynb, lines 343-343 *)
       ; Code
           [ Expr (Attr (Name "cl_sem_bkg_spikes") "metadata") ]
       (* cell 30: AttolightSEM_HYP.ipynb, empty *)
       ; Code []
       ] |}.

(** *** AttolightSEM_sur_to_hspy.ipynb *)

Definition AttolightSEM_sur_to_hspy : notebook :=
  {| nb_name := "AttolightSEM_sur_to_hspy";
     nb_file := "AttolightSEM_sur_to_hspy.ipynb";
     nb_title := "Demo for LumiSpy package working with AttoLight SEM CL data";
     nb_cells :=
       [ Markdown
       ; Markdown
       (* cell 2: AttolightSEM_sur_to_hspy.ipynb, lines 32-37 *)
       ; Code
           [ Magic "%matplotlib widget"
           ; PyImport [("hyperspy.api", Some "hs")]
           ; PyImport [("lumispy", Some "lum")]
           ; PyImport [("os", None); ("glob", None)] ]
       ; Markdown
       ; Markdown
       (* cell 5: AttolightSEM_sur_to_hspy.ipynb, lines 72-76 *)
       ; Code
           [ Assign [Name "root_folder"] (Str "demo-files/load_from_AttoLightSEM/")
           ; Assign [Name "path"]
               (Call (Dot "os" ["path"; "join"]) [Name "root_folder"; Str "HYPCard.sur"] [])
           ; Assign [Name "cl"]
               (Call (Attr (Name "hs") "load") [Name "path"]
                  [("signal_type", Str "CL_SEM")])
           ; Expr (Name "cl") ]
       (* cell 6: AttolightSEM_sur_to_hspy.ipynb, lines 90-90 *)
       ; Code
           [ Expr (Call (Attr (Name "cl") "plot") [] []) ]
       ; Markdown
       (* cell 8: AttolightSEM_sur_to_hspy.ipynb, lines 118-118 *)
       ; Code
           [ Expr (Attr (Name "cl") "metadata") ]
       (* cell 9: AttolightSEM_sur_to_hspy.ipynb, lines 132-132 *)
       ; Code
           [ Expr (Dot "cl" ["original_metadata"; "Object_0_Channel_0"; "Parsed"]) ]
       ; Markdown
       ; Markdown
       (* cell 12: AttolightSEM_sur_to_hspy.ipynb, lines 163-168 *)
       ; Code
           [ Try
               [ Assign [Name "bkg_path"]
                   (Call (Dot "os" ["path"; "join"]) [Name "root_folder"; Str "*.txt"] [])
               ; Assign [Name "bkg_path"]
                   (Index (Call (Attr (Name "glob") "glob") [Name "bkg_path"] []) (Int 0)) ]
               [ (Some (Name "IndexError"),
                  [ Expr
                      (Call (Name "print")
                         [Str "Please, specify a `background.txt` file path below:"]
                         [])
                  ; Assign [Name "bkg_path"] (Str "") ]) ] ]
       (* cell 13: AttolightSEM_sur_to_hspy.ipynb, lines 182-187 *)
       ; Code
           [ PyImport [("numpy", Some "np")]
           ; Assign [Name "cl_bkg"]
               (Index (Call (Attr (Name "np") "loadtxt") [Name "bkg_path"] []) (Int 1))
           ; Expr (Call (Name "print") [Attr (Name "cl_bkg") "shape"] [])
           ; Assign [Name "cl"] (BinOp OSub (Name "cl") (Name "cl_bkg")) ]
       ; Markdown
       (* cell 15: AttolightSEM_sur_to_hspy.ipynb, lines 207-223 *)
       ; Code
           [ Assign [Name "calibration_factor"] (Int 131072)
           ; Assign [Name "grating"]
               (Call (Name "int")
                  [ Dot "cl"
                      [ "original_metadata"
                      ; "Object_0_Channel_0"
                      ; "Parsed"
                      ; "SPECTROMETER"
                      ; "Grating__Groove_Density" ] ]
                  [])
           ; If (Compare CEq (Name "grating") (Int 150))
               [ Assign [Name "correction_factor_grating"] (Float "2.73E-04") ]
               [ If (Compare CEq (Name "grating") (Int 600))
                   [ Assign [Name "correction_factor_grating"]
                       (Float "6.693659836087227e-05") ]
                   [ Raise
                       (Call (Name "ImportError") [Str "Grating correction not available"]
                          []) ] ]
           ; Assign [Name "fov"]
               (BinOp OMult
                  (Dot "cl"
                     [ "original_metadata"
                     ; "Object_0_Channel_0"
                     ; "Parsed"
                     ; "SITE_IMAGE"
                     ; "Field_of_view" ])
                  (Float "1e6"))
           ; Assign [Name "grating_calibrations"]
               (DictE
                  [ (Str "cal_factor", Name "calibration_factor")
                  ; (Str "corr_factor_grating", Name "correction_factor_grating")
                  ; (Str "field_of_view_um", Name "fov") ]) ]
       (* cell 16: AttolightSEM_sur_to_hspy.ipynb, lines 237-237 *)
       ; Code
           [ Expr
               (Call (Attr (Name "cl") "correct_grating_shift")
                  [Star (Call (Attr (Name "grating_calibrations") "values") [] [])]
                  []) ]
       ; Markdown
       (* cell 18: AttolightSEM_sur_to_hspy.ipynb, lines 256-256 *)
       ; Code
           [ Assign [Name "cl"]
               (Call (Attr (Name "cl") "crop_edges") [] [("crop_px", Int 5)]) ]
       ; Markdown
       (* cell 20: AttolightSEM_sur_to_hspy.ipynb, lines 274-274 *)
       ; Code
           [ Expr (Call (Attr (Name "cl") "remove_spikes") [] [("inplace", Const "True")]) ]
       ; Markdown
       ; Markdown
       (* cell 23: AttolightSEM_sur_to_hspy.ipynb, lines 308-309 *)
       ; Code
           [ Expr (Call (Attr (Name "cl") "plot") [] [])
           ; Expr (Call (Attr (Call (Attr (Name "cl") "mean") [] []) "plot") [] []) ]
       ; Markdown
       (* cell 25: AttolightSEM_sur_to_hspy.ipynb, lines 340-341 *)
       ; Code []
       ] |}.

(** *** GatanSEM_dm.ipynb *)

Definition GatanSEM_dm : notebook :=
  {| nb_name := "GatanSEM_dm";
     nb_file := "GatanSEM_dm.ipynb";
     nb_title := "Demo for LumiSpy package working with Gatan SEM CL data";
     nb_cells :=
       [ Markdown
       ; Markdown
       (* cell 2: GatanSEM_dm.ipynb, lines 31-35 *)
       ; Code
           [ Magic "%matplotlib widget"
           ; PyImport [("lumispy", Some "lum")]
           ; PyImport [("hyperspy.api", Some "hs")] ]
       ; Markdown
       (* cell 4: GatanSEM_dm.ipynb, lines 56-57 *)
       ; Code
           [ Assign [Name "cl_spec"]
               (Call (Attr (Name "hs") "load")
                  [Str "demo-files/load_from_GatanFiles/Test-spectrum_ZnO-NWs.dm4"]
                  []) ]
       ; Markdown
       (* cell 6: GatanSEM_dm.ipynb, lines 75-75 *)
       ; Code
           [ Expr (Name "cl_spec") ]
       ; Markdown
       (* cell 8: GatanSEM_dm.ipynb, lines 93-93 *)
       ; Code
           [ Expr (Call (Attr (Name "cl_spec") "set_signal_type") [Str "CL_SEM"] []) ]
       (* cell 9: GatanSEM_dm.ipynb, lines 104-104 *)
       ; Code
           [ Expr (Name "cl_spec") ]
       (* cell 10: GatanSEM_dm.ipynb, lines 115-115 *)
       ; Code
           [ Expr (Call (Attr (Name "cl_spec") "plot") [] []) ]
       ; Markdown
       (* cell 12: GatanSEM_dm.ipynb, lines 139-139 *)
       ; Code
           [ Assign [Name "cl_spec_eV"]
               (Call (Attr (Name "cl_spec") "to_eV") [] [("inplace", Const "False")]) ]
       (* cell 13: GatanSEM_dm.ipynb, lines 150-150 *)
       ; Code
           [ Expr (Call (Attr (Name "cl_spec_eV") "plot") [] []) ]
       ; Markdown
       (* cell 15: GatanSEM_dm.ipynb, lines 170-170 *)
       ; Code
           [ Assign [Name "cl_linescan"]
               (Call (Attr (Name "hs") "load")
                  [Str "demo-files/load_from_GatanFiles/Test-linescan_InGaAs-NWs.dm4"]
                  []) ]
       ; Markdown
       (* cell 17: GatanSEM_dm.ipynb, lines 188-188 *)
       ; Code
           [ Expr (Call (Attr (Name "cl_linescan") "plot") [] []) ]
       ; Markdown
       (* cell 19: GatanSEM_dm.ipynb, lines 213-213 *)
       ; Code
           [ Expr
               (Call (Attr (Name "cl_linescan") "remove_background") []
                  [("background_type", Str "Offset")]) ]
       ; Markdown
       (* cell 21: GatanSEM_dm.ipynb, lines 235-236 *)
       ; Code
           [ Assign [Name "cl_linescan"]
               (Index (Attr (Name "cl_linescan") "isig")
                  (Slice None (Some (Neg (Int 3))) None))
           ; Expr (Call (Attr (Name "cl_linescan") "plot") [] []) ]
       ; Markdown
       (* cell 23: GatanSEM_dm.ipynb, lines 266-266 *)
       ; Code
           [ Expr (Call (Attr (Name "cl_linescan") "spikes_removal_tool") [] []) ]
       ; Markdown
       (* cell 25: GatanSEM_dm.ipynb, lines 288-288 *)
       ; Code
           [ Expr (Attr (Name "cl_spec") "metadata") ]
       ; Markdown
       (* cell 27: GatanSEM_dm.ipynb, lines 306-306 *)
       ; Code
           [ Expr (Attr (Name "cl_spec") "original_metadata") ]
       ; Markdown
       (* cell 29: GatanSEM_dm.ipynb, lines 326-327 *)
       ; Code
           [ Expr
               (Call (Dot "cl_spec" ["metadata"; "set_item"])
                  [Str "General.title"; Str "demo spectrum"]
                  [])
           ; Expr
               (Call (Dot "cl_spec" ["metadata"; "set_item"])
                  [Str "General.comment"; Str "I love using LumiSpy"]
                  []) ]
       (* cell 30: GatanSEM_dm.ipynb, lines 338-338 *)
       ; Code
           [ Expr (Attr (Name "cl_spec") "metadata") ]
       ; Markdown
       (* cell 32: GatanSEM_dm.ipynb, lines 358-358 *)
       ; Code
           [ Expr (Call (Attr (Name "cl_spec") "save") [Str "cl_test_spectrum.hspy"] []) ]
       ; Markdown
       (* cell 34: GatanSEM_dm.ipynb, empty *)
       ; Code []
       ] |}.

(** *** First notebook of unnamed/part_001 (lines 1-764): the 2025 workshop demo *)

Definition workshop_2025 : notebook :=
  {| nb_name := "workshop_2025";
     nb_file := "unnamed/part_001";
     nb_title := "2025 Update of HyperSpy/LumiSpy";
     nb_cells :=
       [ Markdown
       ; Markdown
       (* cell 2: unnamed/part_001, lines 42-52 *)
       ; Code
           [ PyImport [("numpy", Some "np")]
           ; PyImport [("matplotlib.pyplot", Some "plt")]
           ; PyImport [("hyperspy.api", Some "hs")]
           ; PyImport [("lumispy", Some "lum")]
           ; Magic "%matplotlib qt5" ]
       ; Markdown
       ; Markdown
       (* cell 5: unnamed/part_001, lines 81-81 *)
       ; Code
           [ Assign [Name "spectra_map"]
               (Call (Attr (Name "hs") "load")
                  [Str "../demo-files/CLEBIC2025/InGaN_hyperspectral.dm4"]
                  []) ]
       ; Markdown
       (* cell 7: unnamed/part_001, lines 109-109 *)
       ; Code
           [ Expr (Name "spectra_map") ]
       ; Markdown
       (* cell 9: unnamed/part_001, lines 127-127 *)
       ; Code
           [ Expr (Attr (Name "spectra_map") "axes_manager") ]
       ; Markdown
       (* cell 11: unnamed/part_001, lines 145-145 *)
       ; Code
           [ Expr (Call (Attr (Name "spectra_map") "plot") [] []) ]
       ; Markdown
       (* cell 13: unnamed/part_001, lines 163-163 *)
       ; Code
           [ Expr (Attr (Name "spectra_map") "metadata") ]
       ; Markdown
       (* cell 15: unnamed/part_001, lines 183-183 *)
       ; Code
           [ Expr (Attr (Name "spectra_map") "data") ]
       ; Markdown
       (* cell 17: unnamed/part_001, lines 201-201 *)
       ; Code
           [ Expr
               (Call
                  (Attr
                     (Index (Attr (Name "spectra_map") "inav")
                        (Tuple
                           [ Slice (Some (Int 0)) (Some (Int 25)) None
                           ; Slice (Some (Int 0)) (Some (Int 25)) None ]))
                     "plot")
                  []
                  []) ]
       ; Markdown
       (* cell 19: unnamed/part_001, lines 219-220 *)
       ; Code
           [ Expr
               (Call (Dot "hs" ["plot"; "plot_roi_map"]) [Name "spectra_map"]
                  [("rois", Int 2); ("single_figure", Const "True")]) ]
       ; Markdown
       ; Markdown
       (* cell 22: unnamed/part_001, lines 246-247 *)
       ; Code
           [ Assign [Name "transient_map"]
               (Call (Attr (Name "hs") "load")
                  [Str "../demo-files/CLEBIC2025/InGaN_transient_map.hspy"]
                  [])
           ; Expr (Call (Attr (Name "transient_map") "plot") [] []) ]
       ; Markdown
       (* cell 24: unnamed/part_001, lines 267-267 *)
       ; Code
           [ Expr (Call (Name "dir") [Dot "hs" ["model"; "components1D"]] []) ]
       ; Markdown
       (* cell 26: unnamed/part_001, lines 285-294 *)
       ; Code
           [ Assign [Name "Decay1Exp"]
               (Call (Dot "hs" ["model"; "components1D"; "Expression"]) []
                  [ ("expression",
                     Str
                       "1/2*height*exp(-1*((x-t0) - sigma**2/(2*tau))/tau)*                    (1 + erf(((x-t0) - sigma**2/tau)/(sqrt(2)*sigma)))")
                  ; ("name", Str "Decay1Exp")
                  ; ("height", Int 400)
                  ; ("t0", Float "0.0")
                  ; ("tau", Int 250)
                  ; ("sigma", Int 25)
                  ; ("position", Str "t0")
                  ; ("module", ListE [Str "numpy"; Str "scipy"]) ]) ]
       ; Markdown
       (* cell 28: unnamed/part_001, lines 312-323 *)
       ; Code
           [ Assign [Name "t"] (Name "Decay1Exp")
           ; Assign [Name "transient_fit"]
               (Call (Attr (Name "transient_map") "create_model") [] [])
           ; Expr (Call (Attr (Name "transient_fit") "append") [Name "t"] [])
           ; Assign [Dot "t" ["height"; "value"]] (Int 300)
           ; Assign [Dot "t" ["t0"; "value"]] (Float "2.69")
           ; Assign [Dot "t" ["tau"; "value"]] (Float "0.07660186751369041")
           ; Assign [Dot "t" ["sigma"; "value"]] (Float "0.114")
           ; Expr (Call (Attr (Name "transient_fit") "multifit") [] []) ]
       ; Markdown
       (* cell 30: unnamed/part_001, lines 341-341 *)
       ; Code
           [ Expr
               (Call (Attr (Name "transient_fit") "plot") []
                  [("plot_components", Const "True")]) ]
       ; Markdown
       (* cell 32: unnamed/part_001, lines 359-360 *)
       ; Code
           [ Assign [Name "tau_fitted"] (Call (Dot "t" ["tau"; "as_signal"]) [] [])
           ; Expr
               (Call (Attr (Name "tau_fitted") "plot") []
                  [("cmap", Str "plasma"); ("title", Str "tau (ns)")]) ]
       ; Markdown
       (* cell 34: unnamed/part_001, lines 378-381 *)
       ; Code
           [ Assign [Name "transient_map_norm"]
               (Call (Attr (Name "transient_map") "map")
                  [ Lambda ["I"]
                      (BinOp ODiv (Name "I") (Call (Attr (Name "I") "max") [] [])) ]
                  [("inplace", Const "False")])
           ; Assign [Name "tau_integrated"]
               (Call (Attr (Name "transient_map_norm") "integrate1D") [] [("axis", Int 2)]) ]
       ; Markdown
       (* cell 36: unnamed/part_001, lines 399-404 *)
       ; Code
           [ Expr
               (Call (Dot "hs" ["plot"; "plot_images"])
                  [ListE [Name "tau_integrated"; Name "tau_fitted"]]
                  [ ("cmap", Str "plasma")
                  ; ("axes_decor", Const "None")
                  ; ("label", ListE [Str "$τ$ integrated (ns)"; Str "$τ$ fit (ns)"])
                  ; ("scalebar", Str "all") ]) ]
       ; Markdown
       ; Markdown
       ; Markdown
       (* cell 40: unnamed/part_001, lines 438-439 *)
       ; Code
           [ Assign [Name "streak01"]
               (Call (Attr (Name "hs") "load")
                  [Str "../demo-files/CLEBIC2025/AlN_HR_streak_image.hspy"]
                  [])
           ; Expr (Name "streak01") ]
       (* cell 41: unnamed/part_001, lines 449-449 *)
       ; Code
           [ Expr (Call (Attr (Name "streak01") "plot") [] [("cmap", Str "turbo")]) ]
       ; Markdown
       (* cell 43: unnamed/part_001, lines 467-498 *)
       ; Code
           [ Assign [Name "fig"]
               (Call (Attr (Name "plt") "figure") []
                  [("figsize", ListE [Int 8; Float "3.8"])])
           ; Assign [Name "subfigs"]
               (Call (Attr (Name "fig") "subfigures") [Int 1; Int 2]
                  [("wspace", Float "0.07")])
           ; Assign [Name "roi1"]
               (Call (Dot "hs" ["roi"; "SpanROI"]) []
                  [("left", Float "204.8"); ("right", Float "204.9")])
           ; Assign [Name "roi2"]
               (Call (Dot "hs" ["roi"; "SpanROI"]) []
                  [("left", Int 205); ("right", Float "205.1")])
           ; Expr
               (Call (Attr (Name "streak01") "plot") []
                  [ ("fig", Index (Name "subfigs") (Int 0))
                  ; ("colorbar", Const "False")
                  ; ("title", Str "Streak image")
                  ; ("cmap", Str "turbo") ])
           ; Assign [Name "sliced_signal1"]
               (Call (Attr (Name "roi1") "interactive") [Name "streak01"]
                  [ ("axes", Index (Attr (Name "streak01") "axes_manager") (Int 0))
                  ; ("color", Str "blue") ])
           ; Assign [Name "sliced_signal2"]
               (Call (Attr (Name "roi2") "interactive") [Name "streak01"]
                  [ ("axes", Index (Attr (Name "streak01") "axes_manager") (Int 0))
                  ; ("color", Str "red") ])
           ; Assign [Name "integrated_sliced_signal1"]
               (Call (Attr (Name "hs") "interactive") [Attr (Name "sliced_signal1") "sum"]
                  [ ("axis", Index (Attr (Name "sliced_signal1") "axes_manager") (Int 0))
                  ; ("event", Dot "roi1" ["events"; "changed"])
                  ; ("recompute_out_event", Const "None") ])
           ; Assign [Name "integrated_sliced_signal2"]
               (Call (Attr (Name "hs") "interactive") [Attr (Name "sliced_signal2") "sum"]
                  [ ("axis", Index (Attr (Name "sliced_signal2") "axes_manager") (Int 0))
                  ; ("event", Dot "roi2" ["events"; "changed"])
                  ; ("recompute_out_event", Const "None") ])
           ; Expr
               (Call (Dot "hs" ["plot"; "plot_spectra"])
                  [ ListE
                      [Name "integrated_sliced_signal1"; Name "integrated_sliced_signal2"] ]
                  [ ("color", ListE [Str "blue"; Str "red"])
                  ; ("normalise", Const "True")
                  ; ("fig", Index (Name "subfigs") (Int 1)) ]) ]
       ; Markdown
       (* cell 45: unnamed/part_001, lines 516-516 *)
       ; Code
           [ Expr (Name "integrated_sliced_signal1") ]
       ; Markdown
       ; Markdown
       (* cell 48: unnamed/part_001, lines 544-545 *)
       ; Code
           [ Assign [Name "streak02"]
               (Call (Attr (Name "hs") "load")
                  [Str "../demo-files/CLEBIC2025/GaAsSb_streak_image.hspy"]
                  [])
           ; Expr (Attr (Name "streak02") "axes_manager") ]
       ; Markdown
       (* cell 50: unnamed/part_001, lines 563-564 *)
       ; Code
           [ Expr (Call (Attr (Name "streak02") "to_eV") [] [("inplace", Const "True")])
           ; Expr (Attr (Name "streak02") "axes_manager") ]
       (* cell 51: unnamed/part_001, lines 574-574 *)
       ; Code
           [ Expr (Call (Attr (Name "streak02") "plot") [] [("cmap", Str "turbo")]) ]
       ; Markdown
       (* cell 53: unnamed/part_001, lines 592-592 *)
       ; Code
           [ Expr
               (Call
                  (Attr (Call (Attr (Name "streak02") "sum") [] [("axis", Str "Time")])
                     "plot")
                  []
                  []) ]
       ; Markdown
       (* cell 55: unnamed/part_001, lines 615-631 *)
       ; Code
           [ Assign [Name "spectral_fit"]
               (Call (Attr (Call (Attr (Name "streak02") "time2nav") [] []) "create_model")
                  []
                  [])
           ; Assign [Tuple [Name "g1"; Name "g2"]]
               (Tuple
                  [ Call (Dot "hs" ["model"; "components1D"; "Gaussian"]) [] []
                  ; Call (Dot "hs" ["model"; "components1D"; "Gaussian"]) [] [] ])
           ; Expr
               (Call (Attr (Name "spectral_fit") "extend") [Tuple [Name "g1"; Name "g2"]]
                  [])
           ; Assign [Dot "g1" ["centre"; "bmax"]] (Float "1.40")
           ; Assign [Dot "g1" ["centre"; "bmin"]] (Float "1.39")
           ; Assign [Dot "g1" ["sigma"; "bmax"]] (Float "0.04")
           ; Assign [Dot "g2" ["centre"; "bmin"]] (Float "1.41")
           ; Assign [Dot "g2" ["sigma"; "bmax"]] (Float "0.04")
           ; Expr
               (Call (Attr (Name "spectral_fit") "multifit") [] [("bounded", Const "True")]) ]
       ; Markdown
       (* cell 57: unnamed/part_001, lines 649-649 *)
       ; Code
           [ Expr
               (Call (Attr (Name "spectral_fit") "plot") []
                  [("plot_components", Const "True")]) ]
       ; Markdown
       (* cell 59: unnamed/part_001, lines 669-670 *)
       ; Code
           [ Assign [Name "transient1"] (Call (Dot "g1" ["A"; "as_signal"]) [] [])
           ; Assign [Name "transient2"] (Call (Dot "g2" ["A"; "as_signal"]) [] []) ]
       ; Markdown
       (* cell 61: unnamed/part_001, lines 688-731 *)
       ; Code
           [ Assign [Name "fig"]
               (Call (Attr (Name "plt") "figure") []
                  [("figsize", ListE [Int 13; Float "3.6"])])
           ; Assign [Name "subfigs"]
               (Call (Attr (Name "fig") "subfigures") [Int 1; Int 3] [])
           ; Assign [Name "ax1"]
               (Call (Attr (Index (Name "subfigs") (Int 1)) "add_subplot")
                  [Int 1; Int 1; Int 1]
                  [])
           ; Assign [Name "ax2"]
               (Call (Attr (Index (Name "subfigs") (Int 2)) "add_subplot")
                  [Int 1; Int 1; Int 1]
                  [])
           ; Expr
               (Call (Attr (Name "streak02") "plot") []
                  [ ("cmap", Str "turbo")
                  ; ("fig", Index (Name "subfigs") (Int 0))
                  ; ("title", Str "") ])
           ; Assign [Name "m"]
               (Call (Dot "hs" ["plot"; "markers"; "VerticalLines"]) []
                  [ ("offsets", ListE [Float "1.394"; Float "1.423"])
                  ; ("colors", ListE [Str "m"; Str "g"]) ])
           ; Expr (Call (Attr (Name "streak02") "add_marker") [Name "m"] [])
           ; Assign [Name "fit"] (Call (Attr (Name "spectral_fit") "as_signal") [] [])
           ; Assign [Name "gaussian1"]
               (Call (Attr (Name "spectral_fit") "as_signal") []
                  [("component_list", ListE [Str "Gaussian"])])
           ; Assign [Name "gaussian2"]
               (Call (Attr (Name "spectral_fit") "as_signal") []
                  [("component_list", ListE [Str "Gaussian_0"])])
           ; Assign [Name "t"] (Int 35)
           ; Expr
               (Call (Dot "hs" ["plot"; "plot_spectra"])
                  [ ListE
                      [ Index (Attr (Name "streak02") "isig")
                          (Tuple [Slice None None None; Name "t"])
                      ; Index (Attr (Name "fit") "inav") (Name "t")
                      ; Index (Attr (Name "gaussian1") "inav") (Name "t")
                      ; Index (Attr (Name "gaussian2") "inav") (Name "t") ] ]
                  [ ("ax", Name "ax1")
                  ; ("color", ListE [Str "grey"; Str "k"; Str "m"; Str "green"])
                  ; ("alphas", Float "0.5") ])
           ; Expr (Call (Attr (Name "ax1") "set_xlabel") [Str "Energy (eV)"] [])
           ; Expr
               (Call (Attr (Name "ax1") "set_ylabel") [Str "CL Intensity (arb. units)"] [])
           ; Expr (Call (Attr (Name "ax1") "set_yticks") [ListE []] [])
           ; Expr
               (Call (Dot "hs" ["plot"; "plot_spectra"])
                  [ListE [Name "transient1"; Name "transient2"]]
                  [ ("normalise", Const "True")
                  ; ("ax", Name "ax2")
                  ; ("color", ListE [Str "m"; Str "green"])
                  ; ("alphas", Float "0.5") ])
           ; Expr (Call (Attr (Name "ax2") "set_yscale") [Str "log"] [])
           ; Expr (Call (Attr (Name "ax2") "set_ylim") [Float "0.01"; Int 1] [])
           ; Expr (Call (Attr (Name "ax2") "set_xlim") [Int 0; Int 250] [])
           ; Expr (Call (Attr (Name "ax2") "set_xlabel") [Str "Time (ps)"] [])
           ; Expr (Call (Attr (Name "ax2") "set_ylabel") [Str "CL Intensity (norm.)"] [])
           ; Expr (Call (Attr (Name "ax2") "set_yticks") [ListE []] []) ]
       (* cell 62: unnamed/part_001, empty *)
       ; Code []
       ] |}.

(** *** Second notebook of unnamed/part_001 (lines 765-2004): the 2023 workshop
        introduction *)

Definition workshop_intro_2023 : notebook :=
  {| nb_name := "workshop_intro_2023";
     nb_file := "unnamed/part_001";
     nb_title := "Introduction to HyperSpy and LumiSpy";
     nb_cells :=
       [ Markdown
       ; Markdown
       (* cell 2: unnamed/part_001, lines 811-817 *)
       ; Code
           [ Magic "%matplotlib widget"
           ; PyImport [("hyperspy.api", Some "hs")]
           ; PyImport [("lumispy", Some "lum")]
           ; PyImport [("matplotlib.pyplot", Some "plt")]
           ; PyImport [("numpy", Some "np")] ]
       ; Markdown
       (* cell 4: unnamed/part_001, lines 855-857 *)
       ; Code
           [ Assign [Name "cl1"]
               (Call (Attr (Name "hs") "load") [Str "../demo-files/01/01_demo.hspy"] [])
           ; Assign [Name "cl2"]
               (Call (Attr (Name "hs") "load")
                  [Str "../demo-files/load_from_GatanFiles/asymmetric-peak_map.dm4"]
                  [])
           ; Assign [Name "cl3"]
               (Call (Attr (Name "hs") "load")
                  [Str "../demo-files/load_from_GatanFiles/quantum-emitters_map.dm4"]
                  []) ]
       ; Markdown
       (* cell 6: unnamed/part_001, lines 875-875 *)
       ; Code
           [ Help (Attr (Name "hs") "load") ]
       ; Markdown
       (* cell 8: unnamed/part_001, lines 903-903 *)
       ; Code
           [ Expr (Name "cl2") ]
       ; Markdown
       (* cell 10: unnamed/part_001, lines 921-921 *)
       ; Code
           [ Expr (Attr (Name "cl2") "axes_manager") ]
       ; Markdown
       (* cell 12: unnamed/part_001, lines 939-939 *)
       ; Code
           [ Expr (Attr (Name "cl2") "data") ]
       ; Markdown
       (* cell 14: unnamed/part_001, lines 960-960 *)
       ; Code
           [ Expr (Attr (Name "cl2") "metadata") ]
       ; Markdown
       (* cell 16: unnamed/part_001, lines 978-978 *)
       ; Code
           [ Expr (Attr (Name "cl2") "original_metadata") ]
       ; Markdown
       (* cell 18: unnamed/part_001, lines 1006-1006 *)
       ; Code
           [ Expr (Call (Attr (Name "cl1") "plot") [] []) ]
       ; Markdown
       (* cell 20: unnamed/part_001, lines 1022-1022 *)
       ; Code
           [ Expr (Call (Attr (Call (Attr (Name "cl1") "mean") [] []) "plot") [] []) ]
       ; Markdown
       (* cell 22: unnamed/part_001, lines 1051-1051 *)
       ; Code
           [ Expr
               (Call
                  (Attr
                     (Index (Attr (Name "cl1") "inav")
                        (Tuple
                           [ Slice (Some (Int 2)) (Some (Int 23)) None
                           ; Slice (Some (Int 0)) (Some (Int 20)) None ]))
                     "plot")
                  []
                  []) ]
       ; Markdown
       (* cell 24: unnamed/part_001, lines 1069-1069 *)
       ; Code
           [ Expr
               (Call
                  (Attr
                     (Call
                        (Attr
                           (Index (Attr (Name "cl1") "isig")
                              (Slice (Some (Float "440.")) (Some (Float "600.")) None))
                           "mean")
                        []
                        [])
                     "plot")
                  []
                  []) ]
       ; Markdown
       (* cell 26: unnamed/part_001, lines 1095-1095 *)
       ; Code
           [ Expr
               (Call (Attr (Call (Dot "cl1" ["T"; "mean"]) [] []) "plot") []
                  [("cmap", Str "viridis")]) ]
       ; Markdown
       (* cell 28: unnamed/part_001, lines 1113-1113 *)
       ; Code
           [ Expr
               (Call
                  (Attr
                     (Call
                        (Attr
                           (Attr
                              (Index (Attr (Name "cl1") "isig")
                                 (Slice (Some (Float "480.")) (Some (Float "550.")) None))
                              "T")
                           "mean")
                        []
                        [])
                     "plot")
                  []
                  [("cmap", Str "viridis")]) ]
       ; Markdown
       (* cell 30: unnamed/part_001, lines 1141-1148 *)
       ; Code
           [ Assign [Name "im"] (Attr (Name "cl1") "T")
           ; Expr (Call (Attr (Name "im") "plot") [] [])
           ; Assign [Name "roi1"]
               (Call (Dot "hs" ["roi"; "SpanROI"]) []
                  [("left", Int 455); ("right", Int 485)])
           ; Assign [Name "im_roi1"]
               (Call (Attr (Name "roi1") "interactive") [Name "im"] [("color", Str "red")])
           ; Assign [Name "im_roi1_mean"]
               (Call (Attr (Name "hs") "interactive") [Attr (Name "im_roi1") "mean"]
                  [ ("event", Dot "roi1" ["events"; "changed"])
                  ; ("recompute_out_event", Const "None") ])
           ; Expr (Call (Attr (Name "im_roi1_mean") "plot") [] [("cmap", Str "viridis")]) ]
       ; Markdown
       (* cell 32: unnamed/part_001, lines 1177-1177 *)
       ; Code
           [ Expr (Attr (Name "cl1") "axes_manager") ]
       ; Markdown
       (* cell 34: unnamed/part_001, lines 1203-1203 *)
       ; Code
           [ Assign [Name "cl1_eV"]
               (Call (Attr (Name "cl1") "to_eV") [] [("inplace", Const "False")]) ]
       ; Markdown
       (* cell 36: unnamed/part_001, lines 1221-1221 *)
       ; Code
           [ Expr (Attr (Name "cl1_eV") "axes_manager") ]
       ; Markdown
       (* cell 38: unnamed/part_001, lines 1239-1239 *)
       ; Code
           [ Expr (Call (Attr (Name "cl1_eV") "plot") [] []) ]
       ; Markdown
       (* cell 40: unnamed/part_001, lines 1270-1274 *)
       ; Code
           [ Assign [Name "axis"]
               (DictE
                  [ (Str "offset", Int 300)
                  ; (Str "scale", Int 4)
                  ; (Str "units", Str "nm")
                  ; (Str "size", Int 101)
                  ; (Str "name", Str "Wavelength") ])
           ; Assign [Name "s"]
               (Call (Dot "hs" ["signals"; "Signal1D"])
                  [Call (Attr (Name "np") "ones") [Int 101] []]
                  [("axes", ListE [Name "axis"])])
           ; Expr (Call (Attr (Name "s") "set_signal_type") [Str "Luminescence"] [])
           ; Assign [Name "s2"]
               (Call (Attr (Name "s") "to_eV") [] [("inplace", Const "False")]) ]
       (* cell 41: unnamed/part_001, lines 1285-1290 *)
       ; Code
           [ Assign [Name "x"]
               (BinOp OAdd
                  (BinOp OMult (Call (Attr (Name "np") "arange") [Int 9] []) (Int 50))
                  (Int 300))
           ; Assign [Name "x2"] (Call (Attr (Name "lum") "nm2eV") [Name "x"] [])
           ; Assign [Name "y2"]
               (Call (Dot "hs" ["signals"; "Signal1D"])
                  [Call (Attr (Name "np") "ones") [Int 9] []]
                  [ ("axes",
                     ListE
                       [ DictE
                           [ (Str "offset", Int 300)
                           ; (Str "scale", Int 50)
                           ; (Str "size", Int 9) ] ]) ])
           ; Expr (Call (Attr (Name "y2") "set_signal_type") [Str "Luminescence"] [])
           ; Expr (Call (Attr (Name "y2") "to_eV") [] []) ]
       (* cell 42: unnamed/part_001, lines 1301-1314 *)
       ; Code
           [ Assign [Name "fig1"]
               (Call (Attr (Name "plt") "figure") [] [("figsize", Tuple [Int 10; Int 4])])
           ; Assign [Name "ax0"] (Call (Attr (Name "plt") "subplot") [Int 121] [])
           ; Expr (Call (Attr (Name "plt") "ylim") [Int 0; Float "1.3"] [])
           ; Expr (Call (Attr (Name "plt") "xlabel") [Str "Wavelength (nm)"] [])
           ; Expr
               (Call (Attr (Name "ax0") "plot")
                  [ Attr (Index (Attr (Name "s") "axes_manager") (Int 0)) "axis"
                  ; Attr (Name "s") "data" ]
                  [("color", Str "orange")])
           ; Expr
               (Call (Attr (Name "ax0") "vlines") [Name "x"; Int 0; Int 1]
                  [("color", Str "orange")])
           ; Expr
               (Call (Attr (Name "ax0") "fill_between")
                  [ Attr (Index (Attr (Name "s") "axes_manager") (Int 0)) "axis"
                  ; Int 0
                  ; Attr (Name "s") "data" ]
                  [("facecolor", Str "orange"); ("alpha", Float "0.3")])
           ; Assign [Name "ax1"] (Call (Attr (Name "plt") "subplot") [Int 122] [])
           ; Expr (Call (Attr (Name "plt") "ylim") [Int 0; Float "0.43"] [])
           ; Expr (Call (Attr (Name "plt") "xlabel") [Str "Energy (eV)"] [])
           ; Expr
               (Call (Attr (Name "ax1") "plot")
                  [ Attr (Index (Attr (Name "s2") "axes_manager") (Int 0)) "axis"
                  ; Attr (Name "s2") "data" ]
                  [("color", Str "orange")])
           ; Expr
               (Call (Attr (Name "ax1") "vlines")
                  [ Name "x2"
                  ; Int 0
                  ; Index (Attr (Name "y2") "data") (Slice None None (Some (Neg (Int 1)))) ]
                  [("color", Str "orange")])
           ; Expr
               (Call (Attr (Name "ax1") "fill_between")
                  [ Attr (Index (Attr (Name "s2") "axes_manager") (Int 0)) "axis"
                  ; Int 0
                  ; Attr (Name "s2") "data" ]
                  [("facecolor", Str "orange"); ("alpha", Float "0.3")]) ]
       ; Markdown
       (* cell 44: unnamed/part_001, lines 1344-1344 *)
       ; Code
           [ Assign [Name "m"] (Call (Attr (Name "cl1_eV") "create_model") [] []) ]
       ; Markdown
       (* cell 46: unnamed/part_001, lines 1370-1370 *)
       ; Code
           [ Expr (Attr (Name "m") "components") ]
       ; Markdown
       (* cell 48: unnamed/part_001, lines 1400-1403 *)
       ; Code
           [ Assign [Name "bkg"] (Call (Dot "hs" ["model"; "components1D"; "Offset"]) [] [])
           ; Assign [Name "g1"]
               (Call (Dot "hs" ["model"; "components1D"; "GaussianHF"]) [] [])
           ; Expr (Call (Attr (Name "m") "extend") [ListE [Name "g1"; Name "bkg"]] [])
           ; Expr (Attr (Name "m") "components") ]
       ; Markdown
       (* cell 50: unnamed/part_001, lines 1427-1427 *)
       ; Code
           [ Expr (Call (Attr (Name "m") "print_current_values") [] []) ]
       ; Markdown
       (* cell 52: unnamed/part_001, lines 1461-1466 *)
       ; Code
           [ Assign [Dot "cl1" ["axes_manager"; "indices"]] (Tuple [Int 7; Int 7])
           ; Assign [Dot "g1" ["centre"; "value"]] (Float "2.4")
           ; Assign [Dot "g1" ["fwhm"; "value"]] (Float "0.1")
           ; Assign [Dot "g1" ["height"; "value"]] (Int 5)
           ; Assign [Dot "bkg" ["offset"; "value"]] (Float "0.1") ]
       ; Markdown
       (* cell 54: unnamed/part_001, lines 1484-1486 *)
       ; Code
           [ Assign [Dot "g1" ["centre"; "bmax"]]
               (BinOp OAdd (Dot "g1" ["centre"; "value"]) (Float "0.2"))
           ; Assign [Dot "g1" ["centre"; "bmin"]]
               (BinOp OSub (Dot "g1" ["centre"; "value"]) (Float "0.2"))
           ; Assign [Dot "g1" ["fwhm"; "bmin"]] (Float "0.01") ]
       ; Markdown
       (* cell 56: unnamed/part_001, lines 1506-1508 *)
       ; Code
           [ Expr (Call (Attr (Name "m") "fit") [] [("bounded", Const "True")])
           ; Expr (Call (Attr (Name "m") "assign_current_values_to_all") [] [])
           ; Expr (Call (Attr (Name "m") "plot") [] []) ]
       ; Markdown
       (* cell 58: unnamed/part_001, lines 1528-1528 *)
       ; Code
           [ Expr (Call (Attr (Name "m") "print_current_values") [] []) ]
       ; Markdown
       (* cell 60: unnamed/part_001, lines 1546-1547 *)
       ; Code
           [ Expr
               (Call (Attr (Name "m") "multifit") []
                  [("bounded", Const "True"); ("show_progressbar", Const "True")])
           ; Expr (Call (Attr (Name "m") "plot") [] [("plot_components", Const "True")]) ]
       ; Markdown
       (* cell 62: unnamed/part_001, lines 1565-1568 *)
       ; Code
           [ Assign [Name "m_centre"] (Call (Dot "g1" ["centre"; "as_signal"]) [] [])
           ; Expr
               (Call (Attr (Name "m_centre") "plot") []
                  [("cmap", Str "bwr_r"); ("centre_colormap", Const "False")])
           ; Assign [Name "m_intensity"] (Call (Dot "g1" ["height"; "as_signal"]) [] [])
           ; Expr (Call (Attr (Name "m_intensity") "plot") [] [("cmap", Str "viridis")]) ]
       ; Markdown
       (* cell 64: unnamed/part_001, lines 1594-1597 *)
       ; Code
           [ Assign [Name "mask_treshold"] (Call (Dot "m_intensity" ["data"; "mean"]) [] [])
           ; Assign [Name "mask"]
               (Compare CGt (Attr (Name "m_intensity") "data") (Name "mask_treshold"))
           ; Expr (Call (Attr (Name "plt") "figure") [] [])
           ; Expr (Call (Attr (Name "plt") "imshow") [Name "mask"] []) ]
       ; Markdown
       (* cell 66: unnamed/part_001, lines 1615-1615 *)
       ; Code
           [ Expr
               (Call (Attr (BinOp OMult (Name "m_centre") (Name "mask")) "plot") []
                  [ ("cmap", Str "bwr_r")
                  ; ("vmin", Float "2.3")
                  ; ("centre_colormap", Const "False") ]) ]
       ; Markdown
       (* cell 68: unnamed/part_001, lines 1642-1643 *)
       ; Code
           [ Expr (Call (Attr (Name "cl2") "plot") [] [])
           ; Expr
               (Call (Attr (Name "cl2") "remove_background") []
                  [("background_type", Str "Offset")]) ]
       ; Markdown
       (* cell 70: unnamed/part_001, lines 1663-1664 *)
       ; Code
           [ Assign [Name "cl2"]
               (Index (Attr (Name "cl2") "isig") (Slice None (Some (Neg (Int 3))) None))
           ; Expr (Call (Attr (Name "cl2") "plot") [] []) ]
       ; Markdown
       (* cell 72: unnamed/part_001, lines 1692-1692 *)
       ; Code
           [ Expr
               (Call (Attr (Name "cl2") "spikes_removal_tool") []
                  [("interactive", Const "False")]) ]
       ; Markdown
       (* cell 74: unnamed/part_001, lines 1714-1715 *)
       ; Code
           [ Assign [Name "cl2"]
               (Call (Attr (Name "cl2") "rebin") []
                  [("scale", ListE [Int 1; Int 1; Int 2])])
           ; Expr (Call (Attr (Name "cl2") "plot") [] []) ]
       ; Markdown
       (* cell 76: unnamed/part_001, lines 1741-1742 *)
       ; Code
           [ Expr (Call (Attr (Name "cl2") "plot") [] [])
           ; Expr
               (Call (Attr (Name "cl2") "smooth_lowess") []
                  [("number_of_iterations", Int 2)]) ]
       (* cell 77: unnamed/part_001, lines 1753-1753 *)
       ; Code
           [ Expr (Call (Attr (Name "cl2") "plot") [] []) ]
       ; Markdown
       (* cell 79: unnamed/part_001, lines 1777-1777 *)
       ; Code
           [ Assign [Name "peaks"]
               (Call
                  (Attr
                     (Index (Attr (Name "cl2") "isig")
                        (Slice (Some (Float "600.")) None None))
                     "find_peaks1D_ohaver")
                  []
                  [("maxpeakn", Int 1)]) ]
       ; Markdown
       (* cell 81: unnamed/part_001, lines 1795-1795 *)
       ; Code
           [ Expr (Index (Name "peaks") (Tuple [Int 0; Int 0])) ]
       ; Markdown
       (* cell 83: unnamed/part_001, lines 1817-1818 *)
       ; Code
           [ Assign [Name "width"]
               (Call
                  (Attr
                     (Index (Attr (Name "cl2") "isig")
                        (Slice (Some (Float "600.")) None None))
                     "estimate_peak_width")
                  []
                  [("return_interval", Const "True")])
           ; Expr
               (Call (Attr (Index (Name "width") (Int 0)) "plot") []
                  [("cmap", Str "viridis")]) ]
       ; Markdown
       (* cell 85: unnamed/part_001, lines 1840-1841 *)
       ; Code
           [ Assign [Name "com"]
               (Call
                  (Attr
                     (Index (Attr (Name "cl2") "isig")
                        (Slice (Some (Float "600.")) None None))
                     "centroid")
                  []
                  [])
           ; Expr (Call (Attr (Name "com") "plot") [] [("cmap", Str "viridis")]) ]
       ; Markdown
       (* cell 87: unnamed/part_001, lines 1861-1865 *)
       ; Code
           [ Assign [Name "mrk"]
               (Call (Dot "hs" ["plot"; "markers"; "vertical_line"])
                  [Attr (Name "com") "data"]
                  [("color", Str "black")])
           ; Assign [Name "mrkl"]
               (Call (Dot "hs" ["plot"; "markers"; "vertical_line"])
                  [Attr (Index (Name "width") (Int 1)) "data"]
                  [("color", Str "grey")])
           ; Assign [Name "mrkr"]
               (Call (Dot "hs" ["plot"; "markers"; "vertical_line"])
                  [Attr (Index (Name "width") (Int 2)) "data"]
                  [("color", Str "grey")])
           ; Expr
               (Call (Attr (Name "cl2") "add_marker")
                  [ListE [Name "mrk"; Name "mrkl"; Name "mrkr"]]
                  [("permanent", Const "True")])
           ; Expr (Call (Attr (Name "cl2") "plot") [] []) ]
       ; Markdown
       (* cell 89: unnamed/part_001, lines 1893-1909 *)
       ; Code
           [ Assign [Name "cl3"] (Index (Attr (Name "cl3") "inav") (Tuple [Int 10; Int 8]))
           ; Assign [Name "m"] (Call (Attr (Name "cl3") "create_model") [] [])
           ; Assign [Name "g1"]
               (Call (Dot "hs" ["model"; "components1D"; "SkewNormal"]) [] [])
           ; Assign [Name "g2"]
               (Call (Dot "hs" ["model"; "components1D"; "GaussianHF"]) [] [])
           ; Expr (Call (Attr (Name "m") "extend") [Tuple [Name "g1"; Name "g2"]] [])
           ; Assign [Dot "g1" ["x0"; "value"]] (Int 655)
           ; Assign [Dot "g1" ["scale"; "value"]] (Int 50)
           ; Assign [Dot "g1" ["shape"; "value"]] (Int 2)
           ; Assign [Dot "g1" ["A"; "value"]] (Int 220)
           ; Assign [Dot "g1" ["x0"; "bmin"]] (Int 635)
           ; Assign [Dot "g1" ["x0"; "bmax"]] (Int 675)
           ; Assign [Dot "g1" ["x0"; "bounded"]] (Const "True")
           ; Assign [Dot "g2" ["centre"; "value"]] (Int 580)
           ; Assign [Dot "g2" ["fwhm"; "value"]] (Int 180)
           ; Assign [Dot "g2" ["height"; "value"]] (Int 20)
           ; Expr (Call (Attr (Name "m") "fit") [] [])
           ; Expr (Call (Attr (Name "m") "plot") [] []) ]
       (* cell 90: unnamed/part_001, lines 1918-1922 *)
       ; Code
           [ FunctionDef "getPeaks" ["S2"]
               [ Assign [Name "S2"]
                   (Call (Attr (Name "S2") "rebin") [] [("new_shape", ListE [Int 334])])
               ; Expr
                   (Call (Attr (Name "S2") "smooth_savitzky_golay") []
                      [("window_length", Int 15); ("polynomial_order", Int 2)])
               ; Assign [Name "peaks"]
                   (Index
                      (Call (Attr (Name "S2") "find_peaks1D_ohaver") []
                         [ ("amp_thresh",
                            BinOp OMult (Float "0.2")
                              (Call (Attr (Name "np") "max") [Attr (Name "S2") "data"] []))
                         ; ("maxpeakn", Int 10) ])
                      (Int 0))
               ; Return (Name "peaks") ] ]
       (* cell 91: unnamed/part_001, lines 1933-1960 *)
       ; Code
           [ Assign [Name "ng"] (Int 10)
           ; Assign [Name "S2"] (Call (Attr (Name "cl3") "deepcopy") [] [])
           ; Assign [Name "g"] (Call (Name "list") [] [])
           ; For (Name "i") (Call (Attr (Name "np") "arange") [Name "ng"] [])
               [ Expr
                   (Call (Attr (Name "g") "append")
                      [Call (Dot "hs" ["model"; "components1D"; "GaussianHF"]) [] []]
                      []) ]
           ; Expr (Call (Attr (Name "m") "extend") [Name "g"] [])
           ; For (Name "i") (Call (Attr (Name "np") "arange") [Name "ng"] [])
               [ Assign [Attr (Index (Name "g") (Name "i")) "active_is_multidimensional"]
                   (Const "True") ]
           ; Assign [Name "peaks"]
               (Call (Name "getPeaks")
                  [Index (Attr (Name "S2") "inav") (Dot "cl3" ["axes_manager"; "indices"])]
                  [])
           ; For (Name "i")
               (Call (Attr (Name "np") "arange")
                  [Call (Attr (Name "np") "size") [Name "peaks"] []]
                  [])
               [ Assign [Attr (Attr (Index (Name "g") (Name "i")) "centre") "value"]
                   (Index (Index (Name "peaks") (Str "position")) (Name "i"))
               ; Assign [Attr (Attr (Index (Name "g") (Name "i")) "centre") "bmin"]
                   (BinOp OSub (Index (Index (Name "peaks") (Str "position")) (Name "i"))
                      (Int 3))
               ; Assign [Attr (Attr (Index (Name "g") (Name "i")) "centre") "bmax"]
                   (BinOp OAdd (Index (Index (Name "peaks") (Str "position")) (Name "i"))
                      (Int 3))
               ; Assign [Attr (Attr (Index (Name "g") (Name "i")) "centre") "bounded"]
                   (Const "True")
               ; Assign [Attr (Attr (Index (Name "g") (Name "i")) "fwhm") "value"] (Int 5)
               ; Assign [Attr (Attr (Index (Name "g") (Name "i")) "fwhm") "bmax"] (Int 10)
               ; Assign [Attr (Attr (Index (Name "g") (Name "i")) "fwhm") "bmin"] (Int 1)
               ; Assign [Attr (Attr (Index (Name "g") (Name "i")) "fwhm") "bounded"]
                   (Const "True")
               ; Assign [Attr (Attr (Index (Name "g") (Name "i")) "height") "value"]
                   (Int 20)
               ; Assign [Attr (Attr (Index (Name "g") (Name "i")) "height") "bmin"] (Int 1)
               ; Assign [Attr (Attr (Index (Name "g") (Name "i")) "height") "bounded"]
                   (Const "True") ]
           ; If (Compare CLt (Call (Attr (Name "np") "size") [Name "peaks"] []) (Name "ng"))
               [ For (Name "i")
                   (Call (Attr (Name "np") "arange")
                      [Call (Attr (Name "np") "size") [Name "peaks"] []; Name "ng"]
                      [])
                   [ Assign [Attr (Index (Name "g") (Name "i")) "active"] (Const "False") ] ]
               []
           ; Expr (Call (Attr (Name "m") "fit") [] [("bounded", Const "True")])
           ; Expr (Call (Attr (Name "m") "plot") [] []) ]
       ; Markdown
       (* cell 93: unnamed/part_001, empty *)
       ; Code []
       ] |}.

(** *** Third notebook of unnamed/part_001 (lines 2005-2789): the 2023 atelier
        introduction *)

Definition atelier_2023 : notebook :=
  {| nb_name := "atelier_2023";
     nb_file := "unnamed/part_001";
     nb_title := "Introduction to LumiSpy";
     nb_cells :=
       [ Markdown
       ; Markdown
       ; Markdown
       ; Markdown
       (* cell 4: unnamed/part_001, lines 2068-2076 *)
       ; Code
           [ PyImport [("warnings", None)]
           ; Expr (Call (Attr (Name "warnings") "simplefilter") [Str "ignore"] [])
           ; Magic "%matplotlib qt"
           ; PyImport [("hyperspy.api", Some "hs")]
           ; PyImport [("lumispy", Some "lum")] ]
       ; Markdown
       (* cell 6: unnamed/part_001, lines 2102-2102 *)
       ; Code
           [ Expr (Call (Attr (Name "hs") "print_known_signal_types") [] []) ]
       ; Markdown
       (* cell 8: unnamed/part_001, lines 2142-2142 *)
       ; Code
           [ Assign [Name "cl2"]
               (Call (Attr (Name "hs") "load")
                  [Str "../demo-files/load_from_GatanFiles/asymmetric-peak_map.dm4"]
                  []) ]
       ; Markdown
       (* cell 10: unnamed/part_001, lines 2162-2162 *)
       ; Code
           [ Expr (Name "cl2") ]
       ; Markdown
       (* cell 12: unnamed/part_001, lines 2182-2182 *)
       ; Code
           [ Expr (Attr (Name "cl2") "metadata") ]
       ; Markdown
       (* cell 14: unnamed/part_001, lines 2204-2204 *)
       ; Code
           [ Expr (Call (Attr (Name "cl2") "plot") [] []) ]
       ; Markdown
       (* cell 16: unnamed/part_001, lines 2235-2235 *)
       ; Code
           [ Expr (Call (Attr (Name "cl2") "remove_background") [] []) ]
       ; Markdown
       (* cell 18: unnamed/part_001, lines 2259-2259 *)
       ; Code
           [ Assign [Name "cl2"]
               (Index (Attr (Name "cl2") "isig") (Slice None (Some (Neg (Int 3))) None)) ]
       (* cell 19: unnamed/part_001, lines 2271-2271 *)
       ; Code
           [ Expr (Call (Attr (Name "cl2") "plot") [] []) ]
       ; Markdown
       (* cell 21: unnamed/part_001, lines 2301-2301 *)
       ; Code
           [ Expr (Call (Attr (Name "cl2") "spikes_removal_tool") [] []) ]
       ; Markdown
       (* cell 23: unnamed/part_001, lines 2323-2324 *)
       ; Code
           [ Assign [Name "cl2"]
               (Call (Attr (Name "cl2") "rebin") []
                  [("scale", ListE [Int 1; Int 1; Int 2])])
           ; Expr (Call (Attr (Name "cl2") "plot") [] []) ]
       ; Markdown
       (* cell 25: unnamed/part_001, lines 2352-2353 *)
       ; Code
           [ Assign [Name "cl2a"] (Call (Attr (Name "cl2") "deepcopy") [] [])
           ; Expr
               (Call (Attr (Name "cl2") "smooth_lowess") []
                  [("number_of_iterations", Int 2)]) ]
       ; Markdown
       (* cell 27: unnamed/part_001, lines 2379-2379 *)
       ; Code
           [ Assign [Name "peaks"]
               (Call
                  (Attr
                     (Index (Attr (Name "cl2") "isig")
                        (Slice (Some (Float "600.")) None None))
                     "find_peaks1D_ohaver")
                  []
                  [("maxpeakn", Int 1)]) ]
       ; Markdown
       (* cell 29: unnamed/part_001, lines 2399-2399 *)
       ; Code
           [ Expr (Index (Name "peaks") (Tuple [Int 0; Int 0])) ]
       ; Markdown
       (* cell 31: unnamed/part_001, lines 2423-2423 *)
       ; Code
           [ Assign [Name "com"]
               (Call
                  (Attr
                     (Index (Attr (Name "cl2") "isig")
                        (Slice (Some (Float "600.")) None None))
                     "centroid")
                  []
                  []) ]
       ; Markdown
       (* cell 33: unnamed/part_001, lines 2441-2441 *)
       ; Code
           [ Expr (Call (Attr (Name "com") "plot") [] [("cmap", Str "viridis")]) ]
       ; Markdown
       (* cell 35: unnamed/part_001, lines 2463-2463 *)
       ; Code
           [ Assign [Name "width"]
               (Call
                  (Attr
                     (Index (Attr (Name "cl2") "isig")
                        (Slice (Some (Float "600.")) None None))
                     "estimate_peak_width")
                  []
                  [("return_interval", Const "True")]) ]
       (* cell 36: unnamed/part_001, lines 2473-2473 *)
       ; Code
           [ Expr
               (Call (Attr (Index (Name "width") (Int 0)) "plot") []
                  [("cmap", Str "viridis")]) ]
       ; Markdown
       (* cell 38: unnamed/part_001, lines 2495-2499 *)
       ; Code
           [ Assign [Name "mrk"]
               (Call (Dot "hs" ["plot"; "markers"; "vertical_line"])
                  [Attr (Name "com") "data"]
                  [("color", Str "black")])
           ; Assign [Name "mrkl"]
               (Call (Dot "hs" ["plot"; "markers"; "vertical_line"])
                  [Attr (Index (Name "width") (Int 1)) "data"]
                  [("color", Str "grey")])
           ; Assign [Name "mrkr"]
               (Call (Dot "hs" ["plot"; "markers"; "vertical_line"])
                  [Attr (Index (Name "width") (Int 2)) "data"]
                  [("color", Str "grey")])
           ; Expr
               (Call (Attr (Name "cl2") "add_marker")
                  [ListE [Name "mrk"; Name "mrkl"; Name "mrkr"]]
                  [("permanent", Const "True")])
           ; Expr (Call (Attr (Name "cl2") "plot") [] []) ]
       ; Markdown
       (* cell 40: unnamed/part_001, lines 2526-2526 *)
       ; Code
           [ Expr (Attr (Name "cl2a") "axes_manager") ]
       ; Markdown
       (* cell 42: unnamed/part_001, lines 2550-2550 *)
       ; Code
           [ Assign [Name "cl2_eV"]
               (Call (Attr (Name "cl2a") "to_eV") [] [("inplace", Const "False")]) ]
       ; Markdown
       (* cell 44: unnamed/part_001, lines 2570-2570 *)
       ; Code
           [ Expr (Attr (Name "cl2_eV") "axes_manager") ]
       ; Markdown
       (* cell 46: unnamed/part_001, lines 2590-2590 *)
       ; Code
           [ Expr (Attr (Index (Attr (Name "cl2_eV") "axes_manager") (Neg (Int 1))) "axis") ]
       (* cell 47: unnamed/part_001, lines 2602-2602 *)
       ; Code
           [ Expr (Call (Attr (Name "cl2_eV") "plot") [] []) ]
       ; Markdown
       (* cell 49: unnamed/part_001, lines 2628-2628 *)
       ; Code
           [ Assign [Name "m"] (Call (Attr (Name "cl2_eV") "create_model") [] []) ]
       ; Markdown
       (* cell 51: unnamed/part_001, lines 2648-2648 *)
       ; Code
           [ Expr (Attr (Name "m") "components") ]
       ; Markdown
       (* cell 53: unnamed/part_001, lines 2670-2672 *)
       ; Code
           [ Assign [Name "g1"]
               (Call (Dot "hs" ["model"; "components1D"; "SkewNormal"]) [] [])
           ; Expr (Call (Attr (Name "m") "append") [Name "g1"] [])
           ; Expr (Attr (Name "m") "components") ]
       ; Markdown
       (* cell 55: unnamed/part_001, lines 2692-2692 *)
       ; Code
           [ Expr (Call (Attr (Name "m") "print_current_values") [] []) ]
       ; Markdown
       (* cell 57: unnamed/part_001, lines 2714-2714 *)
       ; Code
           [ Expr (Call (Attr (Name "m") "multifit") [] []) ]
       ; Markdown
       (* cell 59: unnamed/part_001, lines 2734-2734 *)
       ; Code
           [ Expr (Call (Attr (Name "m") "plot") [] []) ]
       ; Markdown
       (* cell 61: unnamed/part_001, lines 2756-2756 *)
       ; Code
           [ Expr (Call (Attr (Name "m") "print_current_values") [] []) ]
       ; Markdown
       ] |}.

(** The six notebooks of the repository. *)
Definition notebooks : list notebook :=
  [ AttolightSEM_HYP; AttolightSEM_sur_to_hspy; GatanSEM_dm;
    workshop_2025; workshop_intro_2023; atelier_2023 ].

(** ** Traversals *)

Module Syntax.

Definition opt_list {A B} (f : A -> list B) (o : option A) : list B :=
  match o with Some a => f a | None => [] end.

(** All sub-expressions of an expression, the expression itself first. *)
Fixpoint subexprs (e : expr) : list expr :=
  e ::
  match e with
  | Name _ | Int _ | Float _ | Str _ | Const _ => []
  | Attr e' _ | Neg e' | Star e' | Lambda _ e' => subexprs e'
  | Call f args kwargs =>
      subexprs f ++ flat_map subexprs args
        ++ flat_map (fun kv => subexprs (snd kv)) kwargs
  | Index a b | BinOp _ a b | Compare _ a b => subexprs a ++ subexprs b
  | Slice lo hi step =>
      opt_list subexprs lo ++ opt_list subexprs hi ++ opt_list subexprs step
  | Tuple es | ListE es => flat_map subexprs es
  | DictE kvs => flat_map (fun kv => subexprs (fst kv) ++ subexprs (snd kv)) kvs
  end.

(** The expressions a statement evaluates, those of nested blocks included. *)
Fixpoint stmt_exprs (s : stmt) : list expr :=
  match s with
  | Expr e | Help e | Raise e | Return e => [e]
  | Assign ts v => ts ++ [v]
  | PyImport _ | Magic _ => []
  | FunctionDef _ _ b => flat_map stmt_exprs b
  | ClassDef _ bases b => bases ++ flat_map stmt_exprs b
  | For t i b => t :: i :: flat_map stmt_exprs b
  | While c b => c :: flat_map stmt_exprs b
  | If c b1 b2 => c :: flat_map stmt_exprs b1 ++ flat_map stmt_exprs b2
  | Try b hs =>
      flat_map stmt_exprs b
        ++ flat_map (fun h => opt_list (fun e => [e]) (fst h)
                                ++ flat_map stmt_exprs (snd h)) hs
  end.

Definition cell_stmts (c : cell) : list stmt :=
  match c with Markdown => [] | Code src => src end.

Definition cell_exprs (c : cell) : list expr :=
  flat_map subexprs (flat_map stmt_exprs (cell_stmts c)).

(** The three kinds of control flow: loops, conditional branches and
    exception handlers. *)
Inductive flow := Loop | Branch | Handler.

#[global] Instance flow_eq_dec : EqDecision flow.
Proof. solve_decision. Defined.

Fixpoint stmt_flow (s : stmt) : list flow :=
  match s with
  | Expr _ | Assign _ _ | PyImport _ | Magic _ | Help _ | Raise _ | Return _ => []
  | FunctionDef _ _ b | ClassDef _ _ b => flat_map stmt_flow b
  | For _ _ b | While _ b => Loop :: flat_map stmt_flow b
  | If _ b1 b2 => Branch :: flat_map stmt_flow b1 ++ flat_map stmt_flow b2
  | Try b hs =>
      Handler :: flat_map stmt_flow b
        ++ flat_map (fun h => flat_map stmt_flow (snd h)) hs
  end.

Definition cell_flow (c : cell) : list flow :=
  flat_map stmt_flow (cell_stmts c).

(** A cell is straight-line when it has no loop, branch or handler at
    any depth. *)
Definition straight_line (c : cell) : bool :=
  match cell_flow c with [] => true | _ => false end.

(** Names of the functions and of the classes a statement defines. *)
Fixpoint stmt_defs (s : stmt) : list string :=
  match s with
  | Expr _ | Assign _ _ | PyImport _ | Magic _ | Help _ | Raise _ | Return _ => []
  | FunctionDef f _ b => f :: flat_map stmt_defs b
  | ClassDef _ _ b | For _ _ b | While _ b => flat_map stmt_defs b
  | If _ b1 b2 => flat_map stmt_defs b1 ++ flat_map stmt_defs b2
  | Try b hs =>
      flat_map stmt_defs b ++ flat_map (fun h => flat_map stmt_defs (snd h)) hs
  end.

Fixpoint stmt_classes (s : stmt) : list string :=
  match s with
  | Expr _ | Assign _ _ | PyImport _ | Magic _ | Help _ | Raise _ | Return _ => []
  | ClassDef k _ b => k :: flat_map stmt_classes b
  | FunctionDef _ _ b | For _ _ b | While _ b => flat_map stmt_classes b
  | If _ b1 b2 => flat_map stmt_classes b1 ++ flat_map stmt_classes b2
  | Try b hs =>
      flat_map stmt_classes b
        ++ flat_map (fun h => flat_map stmt_classes (snd h)) hs
  end.

(** The values a statement assigns to the variable [x], at any depth. *)
Fixpoint stmt_assigns (x : string) (s : stmt) : list expr :=
  match s with
  | Assign [Name y] v => if bool_decide (y = x) then [v] else []
  | Expr _ | Assign _ _ | PyImport _ | Magic _ | Help _ | Raise _ | Return _ => []
  | FunctionDef _ _ b | ClassDef _ _ b | For _ _ b | While _ b =>
      flat_map (stmt_assigns x) b
  | If _ b1 b2 => flat_map (stmt_assigns x) b1 ++ flat_map (stmt_assigns x) b2
  | Try b hs =>
      flat_map (stmt_assigns x) b
        ++ flat_map (fun h => flat_map (stmt_assigns x) (snd h)) hs
  end.

Definition cell_assigns (x : string) (c : cell) : list expr :=
  flat_map (stmt_assigns x) (cell_stmts c).


Definition cell_defs (c : cell) : list string :=
  flat_map stmt_defs (cell_stmts c).

Definition cell_classes (c : cell) : list string :=
  flat_map stmt_classes (cell_stmts c).

(** [attr_path e] is [Some [x; a1; ...; an]] when [e] is the chain
    [x.a1.....an] rooted at a name. *)
Fixpoint attr_path (e : expr) : option (list string) :=
  match e with
  | Name x => Some [x]
  | Attr e' a => option_map (fun p => p ++ [a]) (attr_path e')
  | _ => None
  end.

(** Attribute names along the callee of a call, outermost last:
    [cl.metadata.set_item(...)] gives [metadata; set_item] and
    [cl.T.mean().plot()] gives [T; mean; plot]. *)
Fixpoint members (e : expr) : list string :=
  match e with
  | Attr e' a => members e' ++ [a]
  | Call f _ _ => members f
  | Index e' _ => members e'
  | _ => []
  end.

(** The calls of a cell, as (callee, positional arguments, keywords). *)
Definition calls_of (es : list expr) :
    list (expr * list expr * list (string * expr)) :=
  flat_map (fun e => match e with
                     | Call f args kw => [(f, args, kw)]
                     | _ => []
                     end) es.

Definition cell_calls (c : cell) := calls_of (cell_exprs c).

(** Calls whose callee is a bare name: builtins and functions of the
    notebook itself. *)
Definition bare_callees (c : cell) : list string :=
  flat_map (fun call => match call with
                        | (Name f, _, _) => [f]
                        | _ => []
                        end) (cell_calls c).

(** Calls whose callee is neither a bare name nor an attribute. *)
Definition other_callees (c : cell) : list expr :=
  flat_map (fun call => match call with
                        | (Name _, _, _) | (Attr _ _, _, _) => []
                        | (f, _, _) => [f]
                        end) (cell_calls c).

(** Anonymous functions written in a cell. *)
Definition cell_lambdas (c : cell) : list expr :=
  flat_map (fun e => match e with Lambda _ _ => [e] | _ => [] end) (cell_exprs c).

(** Method names called in a cell: the last attribute of each callee. *)
Definition method_calls (c : cell) : list string :=
  flat_map (fun call => match call with
                        | (Attr _ m, _, _) => [m]
                        | _ => []
                        end) (cell_calls c).

(** Code cells of a notebook with their position. *)
Definition indexed_cells (nb : notebook) : list (nat * cell) :=
  imap (fun i c => (i, c)) (nb_cells nb).

(** [collect f] lists (notebook name, cell position, [x]) for every [x]
    that [f] finds in a cell, in source order. *)
Definition collect {A} (f : cell -> list A) (nbs : list notebook) :
    list (string * nat * A) :=
  flat_map (fun nb =>
    flat_map (fun ic => map (fun a => (nb_name nb, fst ic, a)) (f (snd ic)))
             (indexed_cells nb)) nbs.

Definition cell_at (nb : notebook) (i : nat) : cell :=
  nth i (nb_cells nb) Markdown.

End Syntax.
Import Syntax.


(** ** Operation classes of the library (section 1 of the specification) *)

Inductive op_class :=
| Loading | Plotting | BackgroundRemoval | SpikeRemoval
| AxisConversion | PeakFitting | MetadataInspection.

Definition op_classes : list op_class :=
  [ Loading; Plotting; BackgroundRemoval; SpikeRemoval;
    AxisConversion; PeakFitting; MetadataInspection ].

(** Library members that belong to each class, as the notebooks name
    them. *)
Definition class_members (k : op_class) : list string :=
  match k with
  | Loading => ["load"]
  | Plotting => ["plot"]
  | BackgroundRemoval => ["remove_background"; "background_subtraction"]
  | SpikeRemoval =>
      ["spikes_removal_tool"; "remove_spikes"; "cosmic_rays_subtraction"]
  | AxisConversion => ["to_eV"]
  | PeakFitting => ["fit"; "multifit"]
  | MetadataInspection => ["metadata"; "original_metadata"]
  end.

Definition mentions (names : list string) (e : expr) : bool :=
  existsb (fun m => bool_decide (m ∈ names)) (members e).

(** A cell exercises a class when one of its calls goes through a member
    of the class. *)
Definition exercises (k : op_class) (c : cell) : bool :=
  existsb (fun call => mentions (class_members k) (fst (fst call)))
          (cell_calls c).

(** A cell displays a class when one of its statements is a bare
    expression that reads a member of the class (the notebook prints its
    value). *)
Definition displays (k : op_class) (c : cell) : bool :=
  existsb (fun s => match s with
                    | Expr (Attr _ _ as e) => mentions (class_members k) e
                    | _ => false
                    end) (cell_stmts c).

(** File names given literally to a [load] call. *)
Definition loaded_files (c : cell) : list string :=
  flat_map (fun call => match call with
                        | (Attr _ "load", Str file :: _, _) => [file]
                        | _ => []
                        end) (cell_calls c).

(** ** Model components *)

(** Constructors of the library's one-dimensional model components that a
    cell calls: [hs.model.components1D.K(...)] gives [K]. *)
Definition component_ctor (f : expr) : option string :=
  match attr_path f with
  | Some [a; b; c; k] =>
      if bool_decide ([a; b; c] = ["hs"; "model"; "components1D"])
      then Some k else None
  | _ => None
  end.

Definition component_ctors (c : cell) : list string :=
  flat_map (fun call => opt_list (fun k => [k]) (component_ctor (fst (fst call))))
           (cell_calls c).

Definition kwarg (kw : list (string * expr)) (key : string) : option expr :=
  snd <$> find (fun p => bool_decide (fst p = key)) kw.


(** Components that a cell defines from a formula of its own, through the
    library's [Expression] constructor; the result is the [name] given to
    the component. *)
Definition custom_components (c : cell) : list string :=
  flat_map (fun call =>
    match call with
    | (f, _, kw) =>
        match component_ctor f, kwarg kw "expression", kwarg kw "name" with
        | Some "Expression", Some (Str _), Some (Str n) => [n]
        | _, _, _ => []
        end
    end) (cell_calls c).

(** ** Code of the notebooks' own *)

(** Arithmetic and comparisons written in a cell. *)
Definition cell_operators (c : cell) : list expr :=
  flat_map (fun e => match e with
                     | BinOp _ _ _ | Compare _ _ _ => [e]
                     | _ => []
                     end) (cell_exprs c).

Definition is_lambda (e : expr) : bool :=
  match e with Lambda _ _ => true | _ => false end.

(** Anonymous functions given as argument to a method, with the name of
    the method. *)
Definition lambda_uses (c : cell) : list (string * expr) :=
  flat_map (fun call =>
    match call with
    | (Attr _ m, args, kw) =>
        map (fun l => (m, l)) (List.filter is_lambda (args ++ map snd kw))
    | _ => []
    end) (cell_calls c).

(** Methods of an operation class that a cell calls. *)
Definition class_calls (k : op_class) (c : cell) : list string :=
  List.filter (fun m => bool_decide (m ∈ class_members k)) (method_calls c).


(** ** Part II.  Behaviour of the cells with control flow *)

(** *** Running a cell: state, exceptions, try/except *)

Module Run.

(** Python exceptions, by class. *)
Inductive exn :=
| AttributeError | IndexError | KeyError | TypeError | ValueError
| OtherError (class : string).

#[global] Instance exn_eq_dec : EqDecision exn.
Proof. solve_decision. Defined.

Inductive outcome (A : Type) : Type :=
| Ok (a : A)
| Raise (e : exn).
Arguments Ok {A} a.
Arguments Raise {A} e.

(** A computation over an interpreter state [S].  The state reached when
    an exception is raised is kept: what a cell assigned before it failed
    stays assigned. *)
Definition M (S A : Type) : Type := S -> outcome A * S.

Definition ret {S A} (a : A) : M S A := fun s => (Ok a, s).

Definition bind {S A B} (m : M S A) (k : A -> M S B) : M S B :=
  fun s => match m s with
           | (Ok a, s') => k a s'
           | (Raise e, s') => (Raise e, s')
           end.

Definition raise {S A} (e : exn) : M S A := fun s => (Raise e, s).

(** The result of a library call that changes nothing of the state. *)
Definition lift {S A} (r : outcome A) : M S A := fun s => (r, s).

Definition get {S} : M S S := fun s => (Ok s, s).
Definition modify {S} (f : S -> S) : M S unit := fun s => (Ok tt, f s).

(** [try: body except C: handler], where [catches e] tells whether [e] is
    an instance of [C]; a bare [except:] catches everything. *)
Definition try_except {S A} (body : M S A) (catches : exn -> bool)
    (handler : M S A) : M S A :=
  fun s => match body s with
           | (Ok a, s') => (Ok a, s')
           | (Raise e, s') => if catches e then handler s' else (Raise e, s')
           end.

Definition bare_except : exn -> bool := fun _ => true.
Definition except_class (c : exn) : exn -> bool := fun e => bool_decide (e = c).

(** [for x in xs: body]. *)
Fixpoint for_each {S A} (xs : list A) (body : A -> M S unit) : M S unit :=
  match xs with
  | [] => ret tt
  | x :: xs' => bind (body x) (fun _ => for_each xs' body)
  end.

(** [np.arange(a, b)] on non-negative integers; empty when [b <= a]. *)
Definition arange (a b : nat) : list nat := seq a (b - a).

(** [l[i]] for a non-negative index. *)
Definition subscript {S A} (l : list A) (i : nat) : M S A :=
  match l !! i with
  | Some x => ret x
  | None => raise IndexError
  end.

End Run.
Import Run.

Declare Scope py_scope.
Delimit Scope py_scope with py.
Notation "'let*' x ':=' m 'in' k" := (bind m (fun x => k))
  (at level 10, x name, m at level 100, k at level 200) : py_scope.
Notation "m1 >> m2" := (bind m1 (fun _ => m2))
  (at level 100, m2 at level 200, right associativity) : py_scope.
Local Open Scope py_scope.

(** *** The navigator cell of AttolightSEM_HYP (cell 27, lines 316-325)

<<
try:
    crop = cl_sem_bkg_spikes.metadata.Signal.cropped_edges
    size_x = cl_sem_bkg_spikes.metadata.Acquisition_instrument.SEM.resolution_x
    size_y = cl_sem_bkg_spikes.metadata.Acquisition_instrument.SEM.resolution_x
    SE = SE.isig[crop:size_x-crop, crop:size_y-crop]
    cl_sem_bkg_spikes.plot(navigator=SE)
except:
    cl_sem_bkg_spikes.plot(navigator=SE)
>> *)

Module Navigator.

(** What the cell asks of the library: reading a node of the metadata
    tree of [cl_sem_bkg_spikes] (which raises when the node is absent),
    slicing the signal axes of an image, and plotting with a navigator.
    Each may return or raise. *)
Record library := {
  Image : Type;
  metadata : list string -> outcome Z;
  isig : Image -> Z * Z -> Z * Z -> outcome Image;
  plot : Image -> outcome unit
}.

(** Library calls the cell reaches, in order. *)
Inductive event (L : library) :=
| Sliced (image : Image L) (xs ys : Z * Z)
| Plotted (navigator : Image L).
Arguments Sliced {L} image xs ys.
Arguments Plotted {L} navigator.

(** The notebook variable [SE] and the calls made so far. *)
Record state (L : library) := {
  SE : Image L;
  calls : list (event L)
}.
Arguments SE {L} s.
Arguments calls {L} s.

(** Paths of the metadata tree. *)
Definition cropped_edges_path : list string := ["Signal"; "cropped_edges"].
Definition resolution_x_path : list string :=
  ["Acquisition_instrument"; "SEM"; "resolution_x"].
Definition resolution_y_path : list string :=
  ["Acquisition_instrument"; "SEM"; "resolution_y"].

Section Cell.
Context (L : library).

Definition record (e : event L) : M (state L) unit :=
  modify (fun s => {| SE := SE s; calls := calls s ++ [e] |}).

Definition assign_SE (img : Image L) : M (state L) unit :=
  modify (fun s => {| SE := img; calls := calls s |}).

Definition read_SE : M (state L) (Image L) :=
  let* s := get in ret (SE s).

Definition call_isig (img : Image L) (xs ys : Z * Z) : M (state L) (Image L) :=
  record (Sliced img xs ys) >> lift (isig L img xs ys).

Definition call_plot (navigator : Image L) : M (state L) unit :=
  record (Plotted navigator) >> lift (plot L navigator).

Definition try_body : M (state L) unit :=
  let* crop := lift (metadata L cropped_edges_path) in
  let* size_x := lift (metadata L resolution_x_path) in
  let* size_y := lift (metadata L resolution_x_path) in
  let* se := read_SE in
  let* cropped := call_isig se (crop, size_x - crop)%Z (crop, size_y - crop)%Z in
  assign_SE cropped >>
  let* se := read_SE in
  call_plot se.

Definition handler : M (state L) unit :=
  let* se := read_SE in
  call_plot se.

Definition navigator_cell : M (state L) unit :=
  try_except try_body bare_except handler.
End Cell.

(** A microscope whose metadata has no [Signal.cropped_edges] node and
    records a 64 by 48 scan; images are named by strings. *)
Definition uncropped_scan : library :=
  {| Image := string;
     metadata := fun path =>
       if bool_decide (path = resolution_x_path) then Ok 64%Z
       else if bool_decide (path = resolution_y_path) then Ok 48%Z
       else Raise AttributeError;
     isig := fun img _ _ => Ok (img +:+ "[cropped]");
     plot := fun _ => Ok tt |}.

(** The same microscope after [crop_edges(crop_px=5)]. *)
Definition cropped_scan : library :=
  {| Image := string;
     metadata := fun path =>
       if bool_decide (path = cropped_edges_path) then Ok 5%Z
       else if bool_decide (path = resolution_x_path) then Ok 64%Z
       else if bool_decide (path = resolution_y_path) then Ok 48%Z
       else Raise AttributeError;
     isig := fun img _ _ => Ok (img +:+ "[cropped]");
     plot := fun _ => Ok tt |}.

(** A cropped scan whose plot refuses a navigator that has been cropped. *)
Definition picky_plot : library :=
  {| Image := string;
     metadata := metadata cropped_scan;
     isig := fun img _ _ => Ok (img +:+ "[cropped]");
     plot := fun img =>
       if bool_decide (img = "SE_Scan") then Ok tt else Raise ValueError |}.

Definition before_cell (L : library) (img : Image L) : state L :=
  {| SE := img; calls := [] |}.

(** The number of elements of the Python slice [lo:hi] of an axis of
    [n] elements: a negative bound counts from the end, and a bound past
    an end is clipped to it. *)
Definition slice_bound (n i : Z) : Z :=
  if (i <? 0)%Z then Z.max (i + n) 0 else Z.min i n.

Definition slice_length (n : Z) (bounds : Z * Z) : Z :=
  Z.max (slice_bound n (snd bounds) - slice_bound n (fst bounds)) 0.

(** A microscope that scanned [res_x] by [res_y] pixels and whose map
    had its edges cropped by [crop] pixels.  An image is known by its
    width and height; a slice stops at the edge of the image, as a slice
    of a NumPy array does; and the plot raises ValueError unless the
    navigator has the navigation shape of the map, [res_x - 2 crop] by
    [res_y - 2 crop]. *)
Definition scan (crop res_x res_y : Z) : library :=
  {| Image := Z * Z;
     metadata := fun path =>
       if bool_decide (path = cropped_edges_path) then Ok crop
       else if bool_decide (path = resolution_x_path) then Ok res_x
       else if bool_decide (path = resolution_y_path) then Ok res_y
       else Raise AttributeError;
     isig := fun img xs ys =>
       Ok (slice_length (fst img) xs, slice_length (snd img) ys);
     plot := fun img =>
       if bool_decide (img = (res_x - 2 * crop, res_y - 2 * crop)%Z)
       then Ok tt else Raise ValueError |}.

End Navigator.

(** *** The background-path cell of AttolightSEM_sur_to_hspy
        (cell 12, lines 163-168)

<<
try:
    bkg_path = os.path.join(root_folder, '*.txt')
    bkg_path = glob.glob(bkg_path)[0]
except IndexError:
    print('Please, specify a `background.txt` file path below:')
    bkg_path = ''
>> *)

Module BkgPath.

(** [os.path.join] on two strings and [glob.glob], which lists the paths
    that match a pattern. *)
Record library := {
  os_path_join : string -> string -> string;
  glob : string -> outcome (list string)
}.

(** The notebook variable [bkg_path] ([None] while it is unbound) and the
    lines printed so far. *)
Record state := {
  bkg_path : option string;
  stdout : list string
}.

Definition prompt : string :=
  "Please, specify a `background.txt` file path below:".

Section Cell.
Context (L : library).

Definition assign_bkg_path (v : string) : M state unit :=
  modify (fun s => {| bkg_path := Some v; stdout := stdout s |}).

(** Reading a name that is not bound raises NameError. *)
Definition read_bkg_path : M state string :=
  let* s := get in
  match bkg_path s with
  | Some v => ret v
  | None => raise (OtherError "NameError")
  end.

Definition print (line : string) : M state unit :=
  modify (fun s => {| bkg_path := bkg_path s; stdout := stdout s ++ [line] |}).

Definition try_body (root_folder : string) : M state unit :=
  assign_bkg_path (os_path_join L root_folder "*.txt") >>
  let* pattern := read_bkg_path in
  let* matches := lift (glob L pattern) in
  let* first := subscript matches 0 in
  assign_bkg_path first.

Definition handler : M state unit :=
  print prompt >>
  assign_bkg_path "".

Definition bkg_path_cell (root_folder : string) : M state unit :=
  try_except (try_body root_folder) (except_class IndexError) handler.
End Cell.

(** [os.path.join] of two components on a POSIX system. *)
Definition ends_with_slash (a : string) : bool :=
  match last (String.list_ascii_of_string a) with
  | Some c => bool_decide (c = "/"%char)
  | None => false
  end.

Definition posix_join (a b : string) : string :=
  match b with
  | String "/" _ => b
  | _ => if bool_decide (a = "") || ends_with_slash a
         then a +:+ b else a +:+ "/" +:+ b
  end.

(** A root folder without any txt file, and the state of a kernel in
    which the cell has not run yet. *)
Definition empty_folder : library :=
  {| os_path_join := posix_join;
     glob := fun _ => Ok [] |}.

(** A root folder that holds one background file. *)
Definition one_background : library :=
  {| os_path_join := posix_join;
     glob := fun pattern =>
       if bool_decide (pattern = "demo-files/load_from_AttoLightSEM/*.txt")
       then Ok ["demo-files/load_from_AttoLightSEM/Background.txt"]
       else Ok [] |}.

Definition fresh_kernel : state := {| bkg_path := None; stdout := [] |}.

End BkgPath.

(** *** The advanced fitting cells of the 2023 workshop introduction
        (cell 90, lines 1918-1922, and cell 91, lines 1933-1960)

<<
def getPeaks(S2):
    S2=S2.rebin(new_shape=[334])
    S2.smooth_savitzky_golay(window_length=15,polynomial_order=2)
    peaks = S2.find_peaks1D_ohaver(amp_thresh=0.2*np.max(S2.data),maxpeakn=10)[0]
    return peaks

ng=10
S2 = cl3.deepcopy()
g = list()
for i in np.arange(ng):
    g.append(hs.model.components1D.GaussianHF())
m.extend(g)
for i in np.arange(ng):
    g[i].active_is_multidimensional = True
peaks = getPeaks(S2.inav[cl3.axes_manager.indices])
for i in np.arange(np.size(peaks)):
    g[i].centre.value=peaks['position'][i]
    g[i].centre.bmin=peaks['position'][i]-3
    g[i].centre.bmax=peaks['position'][i]+3
    g[i].centre.bounded=True
    g[i].fwhm.value=5
    g[i].fwhm.bmax=10
    g[i].fwhm.bmin=1
    g[i].fwhm.bounded=True
    g[i].height.value=20
    g[i].height.bmin=1
    g[i].height.bounded=True
if np.size(peaks)<ng:
    for i in np.arange(np.size(peaks),ng):
        g[i].active = False
m.fit(bounded=True)
m.plot()
>> *)

Module Fitting.

(** A parameter of a model component, a [GaussianHF] component and a row
    of the peak table, over the library's floating-point numbers [F]. *)
Record parameter (F : Type) := {
  value : F;
  bmin : option F;
  bmax : option F;
  bounded : bool
}.
Arguments value {F} _.
Arguments bmin {F} _.
Arguments bmax {F} _.
Arguments bounded {F} _.

Record GaussianHF (F : Type) := {
  centre : parameter F;
  fwhm : parameter F;
  height : parameter F;
  active : bool;
  active_is_multidimensional : bool
}.
Arguments centre {F} _.
Arguments fwhm {F} _.
Arguments height {F} _.
Arguments active {F} _.
Arguments active_is_multidimensional {F} _.

Record peak (F : Type) := {
  position : F;
  peak_height : F;
  width : F
}.
Arguments position {F} _.
Arguments peak_height {F} _.
Arguments width {F} _.

(** What the two cells ask of NumPy and HyperSpy.  [find_peaks1D_ohaver]
    returns one peak table per navigation position.  [fit] works on the
    components held by the model [m], which are the objects of the list
    [g], and returns them as it leaves them.  [navigation_size] is the
    number of navigation positions of the signal of the model [m], which
    the library consults when [active_is_multidimensional] is assigned.
    The calls are functions of their arguments: but for [fit] and [plot],
    an exception raised inside the library is not modelled, so that a
    statement about these cells speaks of the runs in which the calls of
    [getPeaks] return. *)
Record library := {
  float : Type;
  Signal : Type;
  navigation_size : Z;
  of_int : Z -> float;
  literal : string -> float;
  fadd : float -> float -> float;
  fsub : float -> float -> float;
  fmul : float -> float -> float;
  deepcopy : Signal -> Signal;
  inav_indices : Signal -> Signal -> Signal;
  rebin : Signal -> list Z -> Signal;
  smooth_savitzky_golay : Signal -> Z -> Z -> Signal;
  data_max : Signal -> float;
  find_peaks1D_ohaver : Signal -> float -> Z -> list (list (peak float));
  new_GaussianHF : GaussianHF float;
  fit : list (GaussianHF float) -> outcome unit * list (GaussianHF float);
  plot : outcome unit
}.

Section Cell.
Context (L : library).

Local Abbreviation F := (float L).
Local Abbreviation component := (GaussianHF (float L)).

(** The state is the list [g]; its elements are the component objects. *)
Local Abbreviation state := (list (GaussianHF (float L))).

Definition set_value (v : F) (p : parameter F) : parameter F :=
  {| value := v; bmin := bmin p; bmax := bmax p; bounded := bounded p |}.
Definition set_bmin (v : F) (p : parameter F) : parameter F :=
  {| value := value p; bmin := Some v; bmax := bmax p; bounded := bounded p |}.
Definition set_bmax (v : F) (p : parameter F) : parameter F :=
  {| value := value p; bmin := bmin p; bmax := Some v; bounded := bounded p |}.
Definition set_bounded (b : bool) (p : parameter F) : parameter F :=
  {| value := value p; bmin := bmin p; bmax := bmax p; bounded := b |}.

Definition on_centre (f : parameter F -> parameter F) (c : component) : component :=
  {| centre := f (centre c); fwhm := fwhm c; height := height c;
     active := active c;
     active_is_multidimensional := active_is_multidimensional c |}.
Definition on_fwhm (f : parameter F -> parameter F) (c : component) : component :=
  {| centre := centre c; fwhm := f (fwhm c); height := height c;
     active := active c;
     active_is_multidimensional := active_is_multidimensional c |}.
Definition on_height (f : parameter F -> parameter F) (c : component) : component :=
  {| centre := centre c; fwhm := fwhm c; height := f (height c);
     active := active c;
     active_is_multidimensional := active_is_multidimensional c |}.
Definition set_active (b : bool) (c : component) : component :=
  {| centre := centre c; fwhm := fwhm c; height := height c;
     active := b;
     active_is_multidimensional := active_is_multidimensional c |}.

(** [c.active_is_multidimensional = b] goes through the property setter
    of HyperSpy's [Component]: it returns at once when the flag already
    has the value [b]; asked to switch the flag on, it skips the
    assignment when the navigation size is below 2 (a single spectrum,
    as [cl3] is after [cl3 = cl3.inav[10,8]]); otherwise it stores [b]. *)
Definition set_active_is_multidimensional (b : bool) (c : component) : component :=
  if bool_decide (b = active_is_multidimensional c) then c
  else if b && (navigation_size L <? 2)%Z then c
  else {| centre := centre c; fwhm := fwhm c; height := height c;
          active := active c;
          active_is_multidimensional := b |}.

(** [g[i].attribute = ...]: IndexError when [i] is out of range. *)
Definition set_attr (i : nat) (f : component -> component) : M state unit :=
  let* g := get in
  let* c := subscript g i in
  modify (fun g => <[i := f c]> g).

Definition getPeaks (S2 : Signal L) : M state (list (peak F)) :=
  let S2 := rebin L S2 [334%Z] in
  let S2 := smooth_savitzky_golay L S2 15 2 in
  let* peaks :=
    subscript
      (find_peaks1D_ohaver L S2 (fmul L (literal L "0.2") (data_max L S2)) 10)
      0 in
  ret peaks.

(** [peaks['position'][i]]. *)
Definition peak_position (peaks : list (peak F)) (i : nat) : M state F :=
  let* p := subscript peaks i in ret (position p).

Definition configure_peak (peaks : list (peak F)) (i : nat) : M state unit :=
  (let* x := peak_position peaks i in set_attr i (on_centre (set_value x))) >>
  (let* x := peak_position peaks i in
   set_attr i (on_centre (set_bmin (fsub L x (of_int L 3))))) >>
  (let* x := peak_position peaks i in
   set_attr i (on_centre (set_bmax (fadd L x (of_int L 3))))) >>
  set_attr i (on_centre (set_bounded true)) >>
  set_attr i (on_fwhm (set_value (of_int L 5))) >>
  set_attr i (on_fwhm (set_bmax (of_int L 10))) >>
  set_attr i (on_fwhm (set_bmin (of_int L 1))) >>
  set_attr i (on_fwhm (set_bounded true)) >>
  set_attr i (on_height (set_value (of_int L 20))) >>
  set_attr i (on_height (set_bmin (of_int L 1))) >>
  set_attr i (on_height (set_bounded true)).

(** A component as it stands when the peak finder is called. *)
Definition fresh_component : component :=
  set_active_is_multidimensional true (new_GaussianHF L).

(** The component [c] after one pass of the loop body for a peak at [x]. *)
Definition configured (x : F) (c : component) : component :=
  on_height (set_bounded true)
    (on_height (set_bmin (of_int L 1))
       (on_height (set_value (of_int L 20))
          (on_fwhm (set_bounded true)
             (on_fwhm (set_bmin (of_int L 1))
                (on_fwhm (set_bmax (of_int L 10))
                   (on_fwhm (set_value (of_int L 5))
                      (on_centre (set_bounded true)
                         (on_centre (set_bmax (fadd L x (of_int L 3)))
                            (on_centre (set_bmin (fsub L x (of_int L 3)))
                               (on_centre (set_value x) c)))))))))).

(** The cell up to, and without, [m.fit(bounded=True)]; it returns the
    peak table it got. *)
Definition configure_components (cl3 : Signal L) : M state (list (peak F)) :=
  let ng := 10%nat in
  let S2 := deepcopy L cl3 in
  modify (fun _ => []) >>
  for_each (arange 0 ng) (fun _ => modify (fun g => g ++ [new_GaussianHF L])) >>
  (* m.extend(g): the model now holds the objects of g *)
  for_each (arange 0 ng) (fun i => set_attr i (set_active_is_multidimensional true)) >>
  let* peaks := getPeaks (inav_indices L S2 cl3) in
  for_each (arange 0 (length peaks)) (configure_peak peaks) >>
  (if (length peaks <? ng)%nat
   then for_each (arange (length peaks) ng) (fun i => set_attr i (set_active false))
   else ret tt) >>
  ret peaks.

Definition call_fit : M state unit := fun g => fit L g.

Definition advanced_fitting_cell (cl3 : Signal L) : M state (list (peak F)) :=
  let* peaks := configure_components cl3 in
  call_fit >>
  lift (plot L) >>
  ret peaks.
End Cell.



(** A library over integers that finds peaks at 580, 612 and 655, and
    whose fit moves every centre by one; the model is that of a single
    spectrum. *)
Definition peak_at (x : Z) : peak Z :=
  {| position := x; peak_height := 20%Z; width := 5%Z |}.

Definition free_parameter (v : Z) : parameter Z :=
  {| value := v; bmin := None; bmax := None; bounded := false |}.

Definition shift_centre (c : GaussianHF Z) : GaussianHF Z :=
  {| centre := {| value := (value (centre c) + 1)%Z; bmin := bmin (centre c);
                  bmax := bmax (centre c); bounded := bounded (centre c) |};
     fwhm := fwhm c; height := height c; active := active c;
     active_is_multidimensional := active_is_multidimensional c |}.

Definition three_peaks : library :=
  {| float := Z;
     Signal := list Z;
     navigation_size := 0%Z;
     of_int := fun n => n;
     literal := fun _ => 0%Z;
     fadd := Z.add;
     fsub := Z.sub;
     fmul := Z.mul;
     deepcopy := fun s => s;
     inav_indices := fun s _ => s;
     rebin := fun s _ => s;
     smooth_savitzky_golay := fun s _ _ => s;
     data_max := fun s => foldr Z.max 0%Z s;
     find_peaks1D_ohaver := fun _ _ maxpeakn =>
       [take (Z.to_nat maxpeakn) [peak_at 580%Z; peak_at 612%Z; peak_at 655%Z]];
     new_GaussianHF :=
       {| centre := free_parameter 0%Z; fwhm := free_parameter 1%Z;
          height := free_parameter 1%Z; active := true;
          active_is_multidimensional := false |};
     fit := fun g =>
       (Ok tt, map shift_centre g);
     plot := Ok tt |}.

(** The same library with a peak finder that ignores [maxpeakn] and
    reports eleven peaks. *)
Definition eleven_peaks : library :=
  {| float := Z;
     Signal := list Z;
     navigation_size := 0%Z;
     of_int := of_int three_peaks;
     literal := literal three_peaks;
     fadd := Z.add;
     fsub := Z.sub;
     fmul := Z.mul;
     deepcopy := fun s => s;
     inav_indices := fun s _ => s;
     rebin := fun s _ => s;
     smooth_savitzky_golay := fun s _ _ => s;
     data_max := data_max three_peaks;
     find_peaks1D_ohaver := fun _ _ _ =>
       [map (fun i => peak_at (500 + 10 * Z.of_nat i)%Z) (seq 0 11)];
     new_GaussianHF := new_GaussianHF three_peaks;
     fit := fit three_peaks;
     plot := Ok tt |}.

(** HyperSpy's peak finder ends by cutting its candidates down to
    [maxpeakn]: when there are more of them, it keeps those at least as
    high as the [maxpeakn]-th highest (it takes
    [minh = np.sort(P['height'])[-maxpeakn]] and keeps
    [P[P['height'] >= minh]]).  Candidates as high as that threshold are
    all kept, so the table can be longer than [maxpeakn]. *)
Definition keep_highest (maxpeakn : nat) (P : list (peak Z)) : list (peak Z) :=
  if (maxpeakn <? length P)%nat then
    match merge_sort Z.le (map peak_height P) !! (length P - maxpeakn)%nat with
    | Some minh => filter (fun p => (minh <= peak_height p)%Z) P
    | None => P
    end
  else P.


(** Twelve candidates of heights 20 to 31, and thirteen candidates of
    the same height. *)
Definition graded_candidates : list (peak Z) :=
  map (fun i => {| position := (500 + 10 * Z.of_nat i)%Z;
                   peak_height := (20 + Z.of_nat i)%Z;
                   width := 5%Z |}) (seq 0 12).

Definition tied_candidates : list (peak Z) :=
  map (fun i => peak_at (500 + 10 * Z.of_nat i)%Z) (seq 0 13).

End Fitting.

(** *** The Jacobian transformation (markdown cell of the 2023 workshop
        introduction, unnamed/part_001 lines 1246-1259)

    The notebooks call the library's [to_eV] and state in prose what it
    does to the intensity: as [I(E)dE = I(lambda)dlambda] is required,
    the scale transformation [E = hc/lambda] implies
    [I(E) = I(lambda) dlambda/dE = I(lambda) d/dE (hc/E)
          = - I(lambda) hc/E^2],
    where the minus sign reflects the different directions of
    integration in the wavelength and energy domains.  The definitions
    follow this text, over the real numbers: the intensity is a function
    of the wavelength, and the converted intensity is the intensity at
    [hc/E] times the factor [hc/E^2]. *)

Module Jacobian.
Import Reals.
Local Open Scope R_scope.

Section Conversion.
Variable hc : R.

(** [lambda = hc/E]. *)
Definition wavelength (E : R) : R := hc / E.

(** [d/dE (hc/E)], as the text gives it. *)
Definition dlambda_dE (E : R) : R := - (hc / E ^ 2).

(** The rescaling factor. *)
Definition jacobian (E : R) : R := hc / E ^ 2.

(** The intensity over the energy axis. *)
Definition to_eV (intensity : R -> R) (E : R) : R :=
  intensity (wavelength E) * jacobian E.

(** The text's expression with its sign, [I(lambda) dlambda/dE]. *)
Definition signed_to_eV (intensity : R -> R) (E : R) : R :=
  intensity (wavelength E) * dlambda_dE E.
End Conversion.

End Jacobian.

(** ** Part III.  Further cells and analyses *)

(** *** More microscopes and folders for the cells of Part II *)

Module Scenes.
Import Navigator.

(** A cropped scan whose [SE] image cannot be sliced. *)
Definition unsliceable : library :=
  {| Image := string;
     metadata := metadata cropped_scan;
     isig := fun _ _ _ => Raise IndexError;
     plot := fun _ => Ok tt |}.

(** A folder that cannot be listed. *)
Definition unreadable_folder : BkgPath.library :=
  {| BkgPath.os_path_join := BkgPath.posix_join;
     BkgPath.glob := fun _ => Raise (OtherError "PermissionError") |}.

Definition is_plot {L : library} (ev : event L) : bool :=
  match ev with Plotted _ => true | Sliced _ _ _ => false end.

End Scenes.

(** *** The grating cells of AttolightSEM_sur_to_hspy
        (cell 15, lines 207-223, and cell 16, line 237)

<<
calibration_factor = 131072
grating = int(cl.original_metadata.Object_0_Channel_0.Parsed.SPECTROMETER.Grating__Groove_Density)

if grating == 150:
    correction_factor_grating = 2.73E-04 # 150 gr/mm grating
elif grating == 600:
    correction_factor_grating = 6.693659836087227e-05 # 600 gr/mm grating
else:
    raise ImportError('Grating correction not available')

fov = cl.original_metadata.Object_0_Channel_0.Parsed.SITE_IMAGE.Field_of_view *1e6

grating_calibrations = {
    'cal_factor' : calibration_factor,
    'corr_factor_grating' : correction_factor_grating,
    'field_of_view_um' : fov,
}

cl.correct_grating_shift( *grating_calibrations.values())
>> *)

Module Grating.

(** What the cells ask of the library: the integer that [int] makes of
    the groove density recorded in the original metadata, the field of
    view, floating-point literals and product, and the correction itself,
    called with positional arguments.  The reads and the call may raise. *)
Record library := {
  float : Type;
  literal : string -> float;
  fmul : float -> float -> float;
  groove_density : outcome Z;
  field_of_view : outcome float;
  correct_grating_shift : list (Z + float) -> outcome unit
}.

(** The notebook variables of the two cells ([None] while unbound), and
    the argument lists [correct_grating_shift] has been called with.  A
    dict is kept as its items in insertion order. *)
Record state (L : library) := {
  calibration_factor : option Z;
  grating : option Z;
  correction_factor_grating : option (float L);
  fov : option (float L);
  grating_calibrations : option (list (string * (Z + float L)));
  corrections : list (list (Z + float L))
}.
Arguments calibration_factor {L} _.
Arguments grating {L} _.
Arguments correction_factor_grating {L} _.
Arguments fov {L} _.
Arguments grating_calibrations {L} _.
Arguments corrections {L} _.

Definition NameError : exn := OtherError "NameError".
Definition ImportError : exn := OtherError "ImportError".

Section Cell.
Context (L : library).

Definition set_calibration_factor (v : Z) : M (state L) unit :=
  modify (fun s =>
    {| calibration_factor := Some v; grating := grating s;
       correction_factor_grating := correction_factor_grating s; fov := fov s;
       grating_calibrations := grating_calibrations s;
       corrections := corrections s |}).

Definition set_grating (v : Z) : M (state L) unit :=
  modify (fun s =>
    {| calibration_factor := calibration_factor s; grating := Some v;
       correction_factor_grating := correction_factor_grating s; fov := fov s;
       grating_calibrations := grating_calibrations s;
       corrections := corrections s |}).

Definition set_correction_factor_grating (v : float L) : M (state L) unit :=
  modify (fun s =>
    {| calibration_factor := calibration_factor s; grating := grating s;
       correction_factor_grating := Some v; fov := fov s;
       grating_calibrations := grating_calibrations s;
       corrections := corrections s |}).

Definition set_fov (v : float L) : M (state L) unit :=
  modify (fun s =>
    {| calibration_factor := calibration_factor s; grating := grating s;
       correction_factor_grating := correction_factor_grating s; fov := Some v;
       grating_calibrations := grating_calibrations s;
       corrections := corrections s |}).

Definition set_grating_calibrations (v : list (string * (Z + float L))) :
    M (state L) unit :=
  modify (fun s =>
    {| calibration_factor := calibration_factor s; grating := grating s;
       correction_factor_grating := correction_factor_grating s; fov := fov s;
       grating_calibrations := Some v;
       corrections := corrections s |}).

(** Reading a variable: NameError while it is unbound. *)
Definition read {A} (var : state L -> option A) : M (state L) A :=
  let* s := get in
  match var s with
  | Some v => ret v
  | None => raise NameError
  end.

Definition call_correct_grating_shift (args : list (Z + float L)) :
    M (state L) unit :=
  modify (fun s =>
    {| calibration_factor := calibration_factor s; grating := grating s;
       correction_factor_grating := correction_factor_grating s; fov := fov s;
       grating_calibrations := grating_calibrations s;
       corrections := corrections s ++ [args] |}) >>
  lift (correct_grating_shift L args).

Definition choose_correction_factor : M (state L) unit :=
  let* g := read grating in
  if (g =? 150)%Z then set_correction_factor_grating (literal L "2.73E-04")
  else
    let* g := read grating in
    if (g =? 600)%Z
    then set_correction_factor_grating (literal L "6.693659836087227e-05")
    else raise ImportError.

Definition calibrations_cell : M (state L) unit :=
  set_calibration_factor 131072 >>
  (let* d := lift (groove_density L) in set_grating d) >>
  choose_correction_factor >>
  (let* f := lift (field_of_view L) in set_fov (fmul L f (literal L "1e6"))) >>
  let* a := read calibration_factor in
  let* b := read correction_factor_grating in
  let* c := read fov in
  set_grating_calibrations
    [ ("cal_factor", inl a);
      ("corr_factor_grating", inr b);
      ("field_of_view_um", inr c) ].

(** [d.values()] lists the values in insertion order; the star passes
    them as the positional arguments. *)
Definition correction_cell : M (state L) unit :=
  let* d := read grating_calibrations in
  call_correct_grating_shift (map snd d).
End Cell.

(** A kernel in which neither cell has run. *)
Definition fresh_kernel (L : library) : state L :=
  {| calibration_factor := None; grating := None;
     correction_factor_grating := None; fov := None;
     grating_calibrations := None; corrections := [] |}.

(** Spectrometers with a given grating and a field of view of 0.0001;
    numbers are kept as their decimal text, products as formulas. *)
Definition spectrometer (density : Z) : library :=
  {| float := string;
     literal := fun text => text;
     fmul := fun a b => a +:+ "*" +:+ b;
     groove_density := Ok density;
     field_of_view := Ok "1e-4";
     correct_grating_shift := fun _ => Ok tt |}.

(** A file whose metadata holds no groove density. *)
Definition no_density : library :=
  {| float := string;
     literal := fun text => text;
     fmul := fun a b => a +:+ "*" +:+ b;
     groove_density := Raise AttributeError;
     field_of_view := Ok "1e-4";
     correct_grating_shift := fun _ => Ok tt |}.

End Grating.

(** *** The advanced fitting cell with the components as shared objects

    The list [g] and the model [m] hold references to the same component
    objects: [m.extend(g)] copies the references, and the assignments
    [g[i].attribute = ...] that follow it change objects the model
    already holds.  Here the objects live in a store, addressed by
    position, and [g] and [m] are lists of addresses. *)

Module FittingHeap.
Import Fitting.

Record state (L : library) := {
  heap : list (GaussianHF (float L));
  g : list nat;
  m : list nat
}.
Arguments heap {L} _.
Arguments g {L} _.
Arguments m {L} _.

Section Cell.
Context (L : library).

Local Abbreviation F := (float L).
Local Abbreviation component := (GaussianHF (float L)).

(** [hs.model.components1D.GaussianHF()]: a new object, at a new address. *)
Definition new_component : M (state L) nat :=
  fun s => (Ok (length (heap s)),
            {| heap := heap s ++ [new_GaussianHF L]; g := g s; m := m s |}).

(** [g = list()]. *)
Definition g_reset : M (state L) unit :=
  modify (fun s => {| heap := heap s; g := []; m := m s |}).

(** [g.append(a)]. *)
Definition g_append (a : nat) : M (state L) unit :=
  modify (fun s => {| heap := heap s; g := g s ++ [a]; m := m s |}).

(** [m.extend(g)]. *)
Definition m_extend : M (state L) unit :=
  modify (fun s => {| heap := heap s; g := g s; m := m s ++ g s |}).

(** The object at an address; an address is never dangling in a run
    that starts from a store that holds every address of [g] and [m]. *)
Definition deref (a : nat) : M (state L) component :=
  let* s := get in
  match heap s !! a with
  | Some c => ret c
  | None => raise (OtherError "dangling reference")
  end.

(** [g[i].attribute = ...]: IndexError when [i] is out of range of [g];
    the object is changed in place. *)
Definition set_attr (i : nat) (f : component -> component) : M (state L) unit :=
  let* s := get in
  let* a := subscript (g s) i in
  let* c := deref a in
  modify (fun s => {| heap := <[a := f c]> (heap s); g := g s; m := m s |}).

(** [getPeaks] reads and writes no notebook variable: it is run as in
    Part II, on the side. *)
Definition getPeaks (S2 : Signal L) : M (state L) (list (peak F)) :=
  lift (fst (Fitting.getPeaks L S2 [])).

Definition peak_position (peaks : list (peak F)) (i : nat) : M (state L) F :=
  let* p := subscript peaks i in ret (position p).

Definition configure_peak (peaks : list (peak F)) (i : nat) : M (state L) unit :=
  (let* x := peak_position peaks i in set_attr i (on_centre L (set_value L x))) >>
  (let* x := peak_position peaks i in
   set_attr i (on_centre L (set_bmin L (fsub L x (of_int L 3))))) >>
  (let* x := peak_position peaks i in
   set_attr i (on_centre L (set_bmax L (fadd L x (of_int L 3))))) >>
  set_attr i (on_centre L (set_bounded L true)) >>
  set_attr i (on_fwhm L (set_value L (of_int L 5))) >>
  set_attr i (on_fwhm L (set_bmax L (of_int L 10))) >>
  set_attr i (on_fwhm L (set_bmin L (of_int L 1))) >>
  set_attr i (on_fwhm L (set_bounded L true)) >>
  set_attr i (on_height L (set_value L (of_int L 20))) >>
  set_attr i (on_height L (set_bmin L (of_int L 1))) >>
  set_attr i (on_height L (set_bounded L true)).

(** The cell up to, and without, [m.fit(bounded=True)]. *)
Definition configure_components (cl3 : Signal L) : M (state L) (list (peak F)) :=
  let ng := 10%nat in
  let S2 := deepcopy L cl3 in
  g_reset >>
  for_each (arange 0 ng) (fun _ => let* a := new_component in g_append a) >>
  m_extend >>
  for_each (arange 0 ng)
    (fun i => set_attr i (set_active_is_multidimensional L true)) >>
  let* peaks := getPeaks (inav_indices L S2 cl3) in
  for_each (arange 0 (length peaks)) (configure_peak peaks) >>
  (if (length peaks <? ng)%nat
   then for_each (arange (length peaks) ng)
          (fun i => set_attr i (set_active L false))
   else ret tt) >>
  ret peaks.

(** The objects at the addresses [addrs], in order. *)
Fixpoint deref_all (addrs : list nat) : M (state L) (list component) :=
  match addrs with
  | [] => ret []
  | a :: rest =>
      let* c := deref a in
      let* cs := deref_all rest in
      ret (c :: cs)
  end.

(** The store after the objects at [addrs] have been left as [values]. *)
Definition store_all (addrs : list nat) (values : list component)
    (h : list component) : list component :=
  foldl (fun h av => <[fst av := snd av]> h) h (zip addrs values).

(** [m.fit(bounded=True)]: the library works on every component the
    model holds, those of earlier runs of the cell included, and changes
    the objects in place. *)
Definition call_fit : M (state L) unit :=
  let* s := get in
  let* cs := deref_all (m s) in
  modify (fun s => {| heap := store_all (m s) (snd (fit L cs)) (heap s);
                      g := g s; m := m s |}) >>
  lift (fst (fit L cs)).

(** The whole cell. *)
Definition advanced_fitting_cell (cl3 : Signal L) : M (state L) (list (peak F)) :=
  let* peaks := configure_components cl3 in
  call_fit >>
  lift (plot L) >>
  ret peaks.
End Cell.

(** The state in which [g] holds the objects [objects], stored after the
    objects [older], and the model holds the addresses [model]. *)
Definition embed {L : library} (older : list (GaussianHF (float L)))
    (model : list nat) (objects : list (GaussianHF (float L))) : state L :=
  {| heap := older ++ objects;
     g := seq (length older) (length objects);
     m := model |}.

(** A computation on the shared store does what a computation on the
    list of component values does, to the objects of [g] and to nothing
    else. *)
Definition simulates {L : library} {A : Type}
    (older : list (GaussianHF (float L))) (model : list nat)
    (on_values : M (list (GaussianHF (float L))) A)
    (on_store : M (state L) A) : Prop :=
  forall objects,
    on_store (embed older model objects)
    = (fst (on_values objects), embed older model (snd (on_values objects))).

(** A computation on component values that neither adds nor drops one. *)
Definition keeps_length {L : library} {A : Type}
    (on_values : M (list (GaussianHF (float L))) A) : Prop :=
  forall objects, length (snd (on_values objects)) = length objects.

(** The components of the model, read through the store. *)
Definition model_components {L : library} (s : state L) :
    list (option (GaussianHF (float L))) :=
  map (fun a => heap s !! a) (m s).

(** A kernel in which no component has been created yet. *)
Definition no_components (L : library) : state L :=
  {| heap := []; g := []; m := [] |}.

End FittingHeap.

(** *** Names bound before they are read

    A definite-assignment analysis of the notebooks, cells taken in file
    order: which names are certainly bound when a statement starts, and
    which names a statement reads that are not. *)

Module Scope.
Import Syntax.

(** Names an expression reads when it is evaluated.  The body of a
    lambda is counted when the lambda is written, its parameters
    excepted. *)
Fixpoint reads (e : expr) : list string :=
  match e with
  | Name x => [x]
  | Int _ | Float _ | Str _ | Const _ => []
  | Attr e' _ | Neg e' | Star e' => reads e'
  | Lambda params body =>
      filter (fun x => negb (bool_decide (x ∈ params))) (reads body)
  | Call f args kwargs =>
      reads f ++ flat_map reads args ++ flat_map (fun kv => reads (snd kv)) kwargs
  | Index a b | BinOp _ a b | Compare _ a b => reads a ++ reads b
  | Slice lo hi step =>
      opt_list reads lo ++ opt_list reads hi ++ opt_list reads step
  | Tuple es | ListE es => flat_map reads es
  | DictE kvs => flat_map (fun kv => reads (fst kv) ++ reads (snd kv)) kvs
  end.

(** Names an assignment target binds, and names it reads: [x = ...]
    binds [x]; [g[i].centre.value = ...] binds nothing and reads [g] and
    [i]. *)
Fixpoint target_binds (t : expr) : list string :=
  match t with
  | Name x => [x]
  | Tuple es | ListE es => flat_map target_binds es
  | Star e => target_binds e
  | _ => []
  end.

Fixpoint target_reads (t : expr) : list string :=
  match t with
  | Name _ => []
  | Tuple es | ListE es => flat_map target_reads es
  | Star e => target_reads e
  | _ => reads t
  end.

(** The name an import binds: the alias if there is one, else the first
    component of the module path. *)
Fixpoint first_component (path : string) : string :=
  match path with
  | EmptyString => EmptyString
  | String c rest =>
      if bool_decide (c = "."%char) then EmptyString
      else String c (first_component rest)
  end.

Definition import_binds (module : string * option string) : string :=
  match snd module with
  | Some alias => alias
  | None => first_component (fst module)
  end.

(** The state of the analysis: the names certainly bound ([None] once
    control cannot reach the point, after a raise or a return), and the
    reads of unbound names found so far. *)
Record facts := {
  bound : option (list string);
  unbound_reads : list string
}.

Definition is_bound (f : facts) (x : string) : bool :=
  match bound f with
  | Some names => bool_decide (x ∈ names)
  | None => true
  end.

Definition read_names (xs : list string) (f : facts) : facts :=
  {| bound := bound f;
     unbound_reads :=
       unbound_reads f ++ filter (fun x => negb (is_bound f x)) xs |}.

Definition bind_names (xs : list string) (f : facts) : facts :=
  {| bound := option_map (fun names => names ++ xs) (bound f);
     unbound_reads := unbound_reads f |}.

Definition unreachable (f : facts) : facts :=
  {| bound := None; unbound_reads := unbound_reads f |}.

(** Where two paths meet, a name is bound if it is bound on both; a path
    that cannot reach the meeting point does not count. *)
Definition join (a b : option (list string)) : option (list string) :=
  match a, b with
  | None, other | other, None => other
  | Some xs, Some ys => Some (filter (fun x => bool_decide (x ∈ ys)) xs)
  end.

(** One statement.  A function body is checked where the function is
    defined, with the parameters bound; what it binds is local.  A loop
    body may run no time at all, so what it binds is not kept.  A branch
    keeps what both arms bind.  A handler starts from what was bound
    before the try block, since the block may fail at its first
    statement; after the try statement a name is bound if the block and
    every handler bind it. *)
Fixpoint check_stmt (s : stmt) (f : facts) : facts :=
  let check_block :=
    fix check_block (ss : list stmt) (f : facts) : facts :=
      match ss with
      | [] => f
      | s' :: rest => check_block rest (check_stmt s' f)
      end in
  match s with
  | Expr e | Help e => read_names (reads e) f
  | Assign targets value =>
      bind_names (flat_map target_binds targets)
        (read_names (reads value ++ flat_map target_reads targets) f)
  | PyImport modules => bind_names (map import_binds modules) f
  | Magic _ => f
  | FunctionDef name params body =>
      let inside := check_block body (bind_names (name :: params) f) in
      bind_names [name]
        {| bound := bound f; unbound_reads := unbound_reads inside |}
  | ClassDef name bases body =>
      let inside :=
        check_block body (read_names (flat_map reads bases) f) in
      bind_names [name]
        {| bound := bound f; unbound_reads := unbound_reads inside |}
  | For target iter body =>
      let start := read_names (reads iter ++ target_reads target) f in
      let inside := check_block body (bind_names (target_binds target) start) in
      {| bound := bound start; unbound_reads := unbound_reads inside |}
  | While cond body =>
      let start := read_names (reads cond) f in
      let inside := check_block body start in
      {| bound := bound start; unbound_reads := unbound_reads inside |}
  | If cond body orelse =>
      let start := read_names (reads cond) f in
      let yes := check_block body start in
      let no :=
        check_block orelse
          {| bound := bound start; unbound_reads := unbound_reads yes |} in
      {| bound := join (bound yes) (bound no);
         unbound_reads := unbound_reads no |}
  | Try body handlers =>
      let tried := check_block body f in
      fold_left
        (fun acc handler =>
           let caught :=
             check_block (snd handler)
               (read_names (opt_list reads (fst handler))
                  {| bound := bound f; unbound_reads := unbound_reads acc |}) in
           {| bound := join (bound acc) (bound caught);
              unbound_reads := unbound_reads caught |})
        handlers tried
  | Py.Raise e | Return e => unreachable (read_names (reads e) f)
  end.

Definition check_block (ss : list stmt) (f : facts) : facts :=
  fold_left (fun f s => check_stmt s f) ss f.

(** Cells in order.  A cell that ends in every path with a raise stops a
    run of the whole notebook; the cells after it are checked as if the
    names bound before it were. *)
Definition check_cell (c : cell) (f : facts) : facts :=
  let after := check_block (cell_stmts c) f in
  match bound after with
  | Some _ => after
  | None => {| bound := bound f; unbound_reads := unbound_reads after |}
  end.

Definition check_cells (cells : list cell) (f : facts) : facts :=
  fold_left (fun f c => check_cell c f) cells f.

(** The builtin names the notebooks use. *)
Definition builtins : list string :=
  ["print"; "int"; "list"; "dir"; "ImportError"; "IndexError"].

Definition fresh_kernel : facts :=
  {| bound := Some builtins; unbound_reads := [] |}.

(** Reads of names that are not certainly bound, in a run of the
    notebook from a fresh kernel, top to bottom. *)
Definition unbound_names (nb : notebook) : list string :=
  unbound_reads (check_cells (nb_cells nb) fresh_kernel).

(** The notebook without its cell [i]. *)
Definition without_cell (i : nat) (nb : notebook) : notebook :=
  {| nb_name := nb_name nb; nb_file := nb_file nb; nb_title := nb_title nb;
     nb_cells := take i (nb_cells nb) ++ drop (S i) (nb_cells nb) |}.

(** Names a cell may bind at top level. *)
Definition cell_binds (c : cell) : list string :=
  flat_map (fun s => match s with
                     | Assign targets _ => flat_map target_binds targets
                     | PyImport modules => map import_binds modules
                     | FunctionDef name _ _ | ClassDef name _ _ => [name]
                     | _ => []
                     end) (cell_stmts c).

(** Modules a cell imports, by full path, and the names by which a cell
    refers to a module or variable [x]. *)
Definition cell_imports (c : cell) : list string :=
  flat_map (fun s => match s with
                     | PyImport modules => map fst modules
                     | _ => []
                     end) (cell_stmts c).

Definition notebook_imports (nb : notebook) : list string :=
  flat_map cell_imports (nb_cells nb).

Definition notebook_reads (nb : notebook) : list string :=
  flat_map (fun c => flat_map reads (flat_map stmt_exprs (cell_stmts c)))
           (nb_cells nb).

End Scope.

(** ** Part I, theorems *)

(** *** Reading a collected list *)

Lemma lookup_indexed_cells (nb : notebook) (i : nat) (c : cell) :
  nb_cells nb !! i = Some c -> In (i, c) (indexed_cells nb).
Proof.
  intros H. apply list_elem_of_In, list_elem_of_lookup.
  exists i. unfold indexed_cells. rewrite list_lookup_imap, H. reflexivity.
Qed.

Lemma collect_intro {A} (f : cell -> list A) nbs nb i c a :
  In nb nbs -> nb_cells nb !! i = Some c -> In a (f c) ->
  In (nb_name nb, i, a) (collect f nbs).
Proof.
  intros Hnb Hc Ha. unfold collect.
  apply in_flat_map. exists nb. split; [assumption|].
  apply in_flat_map. exists (i, c). split.
  - now apply lookup_indexed_cells.
  - simpl. now apply (in_map (fun x => (nb_name nb, i, x))).
Qed.

Lemma collect_nil {A} (f : cell -> list A) nbs nb c :
  collect f nbs = [] -> In nb nbs -> In c (nb_cells nb) -> f c = [].
Proof.
  intros Hnil Hnb Hc.
  apply list_elem_of_In, list_elem_of_lookup in Hc as [i Hi].
  destruct (f c) as [|a l] eqn:E; [reflexivity|].
  assert (Hin : In (nb_name nb, i, a) (collect f nbs)).
  { eapply collect_intro; eauto. rewrite E. now left. }
  rewrite Hnil in Hin. destruct Hin.
Qed.

Lemma cell_at_In (nb : notebook) (i : nat) :
  (i <? length (nb_cells nb))%nat = true -> In (cell_at nb i) (nb_cells nb).
Proof. intros H. apply nth_In. now apply Nat.ltb_lt. Qed.

Lemma existsb_notebooks (p : cell -> bool) :
  existsb (fun nb => existsb p (nb_cells nb)) notebooks = true ->
  exists nb c, In nb notebooks /\ In c (nb_cells nb) /\ p c = true.
Proof.
  intros H. apply existsb_exists in H as (nb & Hnb & H).
  apply existsb_exists in H as (c & Hc & H). eauto.
Qed.

(** *** Functions defined by the notebooks (C1) *)

(** C1, as the specification states it, fails: it says that no
    peak-finding or fitting-setup routine is defined by repository code,
    that is, that no code cell of any notebook defines a function.  Cell
    90 of the 2023 workshop introduction defines [getPeaks]. *)
Lemma C1_counterexample_getPeaks :
  ~ (forall nb c, In nb notebooks -> In c (nb_cells nb) -> cell_defs c = []).
Proof.
  intros H.
  assert (E : cell_defs (cell_at workshop_intro_2023 90) = ["getPeaks"])
    by (vm_compute; reflexivity).
  rewrite (H workshop_intro_2023 (cell_at workshop_intro_2023 90)) in E.
  - discriminate E.
  - do 4 right; left; reflexivity.
  - apply cell_at_In. vm_compute; reflexivity.
Qed.

(** C1, amended.  Each hard operation is done by a method of the
    library: the cells that remove a background, remove spikes, convert
    the axis or fit are listed with the method they call; background is
    also removed once by signal arithmetic, [cl = cl - cl_bkg], in cell
    13 of AttolightSEM_sur_to_hspy.  Code of the notebooks' own is
    limited to the following.  The only function defined with [def] is
    [getPeaks], in cell 90 of the 2023 workshop introduction: its body is
    straight-line, calls no bare name and chains the library methods
    [rebin], [smooth_savitzky_golay] and [find_peaks1D_ohaver] (with
    [np.max] for the threshold).  The only anonymous function is
    [lambda I: I / I.max()], which is handed to the library's [map] in
    cell 34 of the 2025 workshop notebook.  The only cell with loops is
    the fitting set-up of cell 91 of the 2023 workshop introduction,
    which calls [getPeaks] and the listed methods; the other control flow
    is a try/except in two cells and an if/elif/else in one.  The
    arithmetic and the comparisons written in the notebooks are the
    eighteen listed expressions.  Every call of any code cell is either a call of an
    attribute of an object or module, or a call of one of the bare names
    [print], [int], [ImportError], [dir], [list] (Python builtins) and
    [getPeaks] itself. *)
Theorem C1_only_getPeaks_is_defined :
  collect cell_defs notebooks = [("workshop_intro_2023", 90, "getPeaks")]
  /\ collect cell_lambdas notebooks
     = [("workshop_2025", 34,
         Lambda ["I"] (BinOp ODiv (Name "I") (Call (Attr (Name "I") "max") [] [])))]
  /\ collect lambda_uses notebooks
     = [("workshop_2025", 34,
         ("map",
          Lambda ["I"] (BinOp ODiv (Name "I") (Call (Attr (Name "I") "max") [] []))))]
  /\ (let c := cell_at workshop_intro_2023 90 in
      straight_line c = true
      /\ bare_callees c = []
      /\ method_calls c =
           ["rebin"; "smooth_savitzky_golay"; "find_peaks1D_ohaver"; "max"])
  /\ collect (class_calls BackgroundRemoval) notebooks
     = [ ("AttolightSEM_HYP", 11, "background_subtraction");
         ("GatanSEM_dm", 19, "remove_background");
         ("workshop_intro_2023", 68, "remove_background");
         ("atelier_2023", 16, "remove_background") ]
  /\ collect (class_calls SpikeRemoval) notebooks
     = [ ("AttolightSEM_HYP", 17, "cosmic_rays_subtraction");
         ("AttolightSEM_sur_to_hspy", 20, "remove_spikes");
         ("GatanSEM_dm", 23, "spikes_removal_tool");
         ("workshop_intro_2023", 72, "spikes_removal_tool");
         ("atelier_2023", 21, "spikes_removal_tool") ]
  /\ collect (class_calls AxisConversion) notebooks
     = [ ("GatanSEM_dm", 12, "to_eV"); ("workshop_2025", 50, "to_eV");
         ("workshop_intro_2023", 34, "to_eV"); ("workshop_intro_2023", 40, "to_eV");
         ("workshop_intro_2023", 41, "to_eV"); ("atelier_2023", 42, "to_eV") ]
  /\ collect (class_calls PeakFitting) notebooks
     = [ ("workshop_2025", 28, "multifit"); ("workshop_2025", 55, "multifit");
         ("workshop_intro_2023", 56, "fit"); ("workshop_intro_2023", 60, "multifit");
         ("workshop_intro_2023", 89, "fit"); ("workshop_intro_2023", 91, "fit");
         ("atelier_2023", 57, "multifit") ]
  /\ collect cell_operators notebooks
     = [ ("AttolightSEM_HYP", 9,
          Compare CIsNot (Dot "cl_sem" ["metadata"; "Signal"; "background"])
            (Const "None"));
         ("AttolightSEM_HYP", 27, BinOp OSub (Name "size_x") (Name "crop"));
         ("AttolightSEM_HYP", 27, BinOp OSub (Name "size_y") (Name "crop"));
         ("AttolightSEM_sur_to_hspy", 13, BinOp OSub (Name "cl") (Name "cl_bkg"));
         ("AttolightSEM_sur_to_hspy", 15, Compare CEq (Name "grating") (Int 150));
         ("AttolightSEM_sur_to_hspy", 15, Compare CEq (Name "grating") (Int 600));
         ("AttolightSEM_sur_to_hspy", 15,
          BinOp OMult
            (Dot "cl" ["original_metadata"; "Object_0_Channel_0"; "Parsed";
                       "SITE_IMAGE"; "Field_of_view"])
            (Float "1e6"));
         ("workshop_2025", 34,
          BinOp ODiv (Name "I") (Call (Attr (Name "I") "max") [] []));
         ("workshop_intro_2023", 41,
          BinOp OAdd
            (BinOp OMult (Call (Attr (Name "np") "arange") [Int 9] []) (Int 50))
            (Int 300));
         ("workshop_intro_2023", 41,
          BinOp OMult (Call (Attr (Name "np") "arange") [Int 9] []) (Int 50));
         ("workshop_intro_2023", 54,
          BinOp OAdd (Dot "g1" ["centre"; "value"]) (Float "0.2"));
         ("workshop_intro_2023", 54,
          BinOp OSub (Dot "g1" ["centre"; "value"]) (Float "0.2"));
         ("workshop_intro_2023", 64,
          Compare CGt (Attr (Name "m_intensity") "data") (Name "mask_treshold"));
         ("workshop_intro_2023", 66, BinOp OMult (Name "m_centre") (Name "mask"));
         ("workshop_intro_2023", 90,
          BinOp OMult (Float "0.2")
            (Call (Attr (Name "np") "max") [Attr (Name "S2") "data"] []));
         ("workshop_intro_2023", 91,
          BinOp OSub (Index (Index (Name "peaks") (Str "position")) (Name "i"))
            (Int 3));
         ("workshop_intro_2023", 91,
          BinOp OAdd (Index (Index (Name "peaks") (Str "position")) (Name "i"))
            (Int 3));
         ("workshop_intro_2023", 91,
          Compare CLt (Call (Attr (Name "np") "size") [Name "peaks"] [])
            (Name "ng")) ]
  /\ cell_assigns "cl" (cell_at AttolightSEM_sur_to_hspy 13)
     = [BinOp OSub (Name "cl") (Name "cl_bkg")]
  /\ (forall nb i c,
        In nb notebooks -> nb_cells nb !! i = Some c -> In Loop (cell_flow c) ->
        (nb_name nb, i) = ("workshop_intro_2023", 91%nat))
  /\ collect cell_flow notebooks =
       [ ("AttolightSEM_HYP", 27, Handler);
         ("AttolightSEM_sur_to_hspy", 12, Handler);
         ("AttolightSEM_sur_to_hspy", 15, Branch);
         ("AttolightSEM_sur_to_hspy", 15, Branch);
         ("workshop_intro_2023", 91, Loop);
         ("workshop_intro_2023", 91, Loop);
         ("workshop_intro_2023", 91, Loop);
         ("workshop_intro_2023", 91, Branch);
         ("workshop_intro_2023", 91, Loop) ]
  /\ (let c := cell_at workshop_intro_2023 91 in
      bare_callees c = ["list"; "getPeaks"]
      /\ method_calls c
         = ["deepcopy"; "arange"; "append"; "GaussianHF"; "extend"; "arange";
            "arange"; "size"; "size"; "arange"; "size"; "fit"; "plot"])
  /\ collect other_callees notebooks = []
  /\ (forall nb c f,
        In nb notebooks -> In c (nb_cells nb) -> In f (bare_callees c) ->
        In f ["print"; "int"; "ImportError"; "dir"; "list"; "getPeaks"]).
Proof.
  split; [vm_compute; reflexivity|].
  split; [vm_compute; reflexivity|].
  split; [vm_compute; reflexivity|].
  split; [repeat split; vm_compute; reflexivity|].
  split; [vm_compute; reflexivity|].
  split; [vm_compute; reflexivity|].
  split; [vm_compute; reflexivity|].
  split; [vm_compute; reflexivity|].
  split; [vm_compute; reflexivity|].
  split; [vm_compute; reflexivity|].
  split.
  { intros nb i c Hnb Hi Hloop.
    pose proof (collect_intro cell_flow notebooks nb i c Loop Hnb Hi Hloop) as Hin.
    assert (Hall : forallb
              (fun x => bool_decide
                 (snd x = Loop -> fst x = ("workshop_intro_2023", 91%nat)))
              (collect cell_flow notebooks) = true) by (vm_compute; reflexivity).
    rewrite forallb_forall in Hall. specialize (Hall _ Hin). simpl in Hall.
    apply bool_decide_eq_true_1 in Hall. now apply Hall. }
  split; [vm_compute; reflexivity|].
  split; [split; vm_compute; reflexivity|].
  split; [vm_compute; reflexivity|].
  intros nb c f Hnb Hc Hf.
  apply list_elem_of_In, list_elem_of_lookup in Hc as [i Hi].
  pose proof (collect_intro bare_callees notebooks nb i c f Hnb Hi Hf) as Hin.
  assert (Hall : forallb
            (fun x => bool_decide
               (snd x ∈ ["print"; "int"; "ImportError"; "dir"; "list"; "getPeaks"]))
            (collect bare_callees notebooks) = true) by (vm_compute; reflexivity).
  rewrite forallb_forall in Hall. specialize (Hall _ Hin). simpl in Hall.
  apply bool_decide_eq_true_1 in Hall. now apply list_elem_of_In.
Qed.

Lemma C1_witness :
  In workshop_intro_2023 notebooks
  /\ In (cell_at workshop_intro_2023 91) (nb_cells workshop_intro_2023)
  /\ In "getPeaks" (bare_callees (cell_at workshop_intro_2023 91))
  /\ In "getPeaks" ["print"; "int"; "ImportError"; "dir"; "list"; "getPeaks"].
Proof.
  assert (H1 : In workshop_intro_2023 notebooks)
    by (do 4 right; left; reflexivity).
  assert (H2 : In (cell_at workshop_intro_2023 91) (nb_cells workshop_intro_2023))
    by (apply cell_at_In; vm_compute; reflexivity).
  assert (H3 : In "getPeaks" (bare_callees (cell_at workshop_intro_2023 91)))
    by (vm_compute; tauto).
  split; [exact H1|]. split; [exact H2|]. split; [exact H3|].
  destruct C1_only_getPeaks_is_defined
    as (_ & _ & _ & _ & _ & _ & _ & _ & _ & _ & _ & _ & _ & _ & H).
  exact (H _ _ _ H1 H2 H3).
Defined.

(** *** Control flow (C2) *)

(** C2, as the specification states it, fails: it says that every code
    cell of every notebook is free of loops, conditional branches and
    exception handlers.  The advanced fitting cell has loops and a
    conditional. *)
Lemma C2_counterexample_advanced_fitting :
  ~ (forall nb c, In nb notebooks -> In c (nb_cells nb) -> straight_line c = true).
Proof.
  intros H.
  assert (E : straight_line (cell_at workshop_intro_2023 91) = false)
    by (vm_compute; reflexivity).
  rewrite (H workshop_intro_2023 (cell_at workshop_intro_2023 91)) in E.
  - discriminate E.
  - do 4 right; left; reflexivity.
  - apply cell_at_In. vm_compute; reflexivity.
Qed.

(** C2, amended: control flow occurs in exactly four code cells: a
    try/except in cell 27 of AttolightSEM_HYP and in cell 12 of
    AttolightSEM_sur_to_hspy, an if/elif/else in cell 15 of
    AttolightSEM_sur_to_hspy, and four for loops and one if in cell 91 of
    the 2023 workshop introduction.  Every other code cell of every
    notebook is a straight-line sequence of statements. *)
Theorem C2_control_flow_in_four_cells :
  collect cell_flow notebooks =
    [ ("AttolightSEM_HYP", 27, Handler);
      ("AttolightSEM_sur_to_hspy", 12, Handler);
      ("AttolightSEM_sur_to_hspy", 15, Branch);
      ("AttolightSEM_sur_to_hspy", 15, Branch);
      ("workshop_intro_2023", 91, Loop);
      ("workshop_intro_2023", 91, Loop);
      ("workshop_intro_2023", 91, Loop);
      ("workshop_intro_2023", 91, Branch);
      ("workshop_intro_2023", 91, Loop) ]
  /\ (forall nb i c,
        In nb notebooks -> nb_cells nb !! i = Some c ->
        straight_line c = true
        \/ In (nb_name nb, i)
              [ ("AttolightSEM_HYP", 27); ("AttolightSEM_sur_to_hspy", 12);
                ("AttolightSEM_sur_to_hspy", 15); ("workshop_intro_2023", 91) ]).
Proof.
  assert (E : collect cell_flow notebooks =
    [ ("AttolightSEM_HYP", 27, Handler);
      ("AttolightSEM_sur_to_hspy", 12, Handler);
      ("AttolightSEM_sur_to_hspy", 15, Branch);
      ("AttolightSEM_sur_to_hspy", 15, Branch);
      ("workshop_intro_2023", 91, Loop);
      ("workshop_intro_2023", 91, Loop);
      ("workshop_intro_2023", 91, Loop);
      ("workshop_intro_2023", 91, Branch);
      ("workshop_intro_2023", 91, Loop) ]) by (vm_compute; reflexivity).
  split; [exact E|].
  intros nb i c Hnb Hi. unfold straight_line.
  destruct (cell_flow c) as [|a l] eqn:Ec; [now left|right].
  assert (Hin : In (nb_name nb, i, a) (collect cell_flow notebooks)).
  { eapply collect_intro; eauto. rewrite Ec. now left. }
  rewrite E in Hin. simpl in Hin. simpl.
  repeat (destruct Hin as [Hin|Hin]; [inversion Hin; tauto|]).
  destruct Hin.
Qed.

Lemma C2_witness :
  In GatanSEM_dm notebooks
  /\ nb_cells GatanSEM_dm !! 19%nat = Some (cell_at GatanSEM_dm 19)
  /\ (straight_line (cell_at GatanSEM_dm 19) = true
      \/ In (nb_name GatanSEM_dm, 19%nat)
            [ ("AttolightSEM_HYP", 27%nat); ("AttolightSEM_sur_to_hspy", 12%nat);
              ("AttolightSEM_sur_to_hspy", 15%nat); ("workshop_intro_2023", 91%nat) ]).
Proof.
  assert (H1 : In GatanSEM_dm notebooks) by (do 2 right; left; reflexivity).
  assert (H2 : nb_cells GatanSEM_dm !! 19%nat = Some (cell_at GatanSEM_dm 19))
    by reflexivity.
  split; [exact H1|]. split; [exact H2|].
  exact (proj2 C2_control_flow_in_four_cells _ _ _ H1 H2).
Defined.

(** *** Operation classes exercised (C6) *)

(** C6: every operation class named by the specification (loading,
    plotting, background removal, spike removal, spectral-axis conversion,
    peak fitting, metadata inspection) is exercised by a library call in
    some code cell of some notebook; a vendor file (Gatan .dm4) is given
    literally to a load call; and the metadata tree is also displayed by
    a bare expression. *)
Theorem C6_each_operation_class_is_exercised :
  (forall k : op_class,
     exists nb c, In nb notebooks /\ In c (nb_cells nb) /\ exercises k c = true)
  /\ In ("GatanSEM_dm", 4%nat,
         "demo-files/load_from_GatanFiles/Test-spectrum_ZnO-NWs.dm4")
        (collect loaded_files notebooks)
  /\ (exists nb c,
        In nb notebooks /\ In c (nb_cells nb)
        /\ displays MetadataInspection c = true).
Proof.
  split; [|split].
  - intros k. apply existsb_notebooks. destruct k; vm_compute; reflexivity.
  - vm_compute. tauto.
  - apply existsb_notebooks. vm_compute; reflexivity.
Qed.

(** *** Structures defined by the notebooks (C7) *)

(** C7, as the specification states it, fails: it says that no code cell
    creates a class or a model component of its own.  Cell 26 of the 2025
    workshop notebook builds the component [Decay1Exp] from a formula
    written in the notebook. *)
Lemma C7_counterexample_Decay1Exp :
  ~ (forall nb c,
       In nb notebooks -> In c (nb_cells nb) ->
       cell_classes c = [] /\ custom_components c = []).
Proof.
  intros H.
  assert (E : custom_components (cell_at workshop_2025 26) = ["Decay1Exp"])
    by (vm_compute; reflexivity).
  destruct (H workshop_2025 (cell_at workshop_2025 26)) as [_ H'].
  - do 3 right; left; reflexivity.
  - apply cell_at_In. vm_compute; reflexivity.
  - rewrite H' in E. discriminate E.
Qed.

(** C7, amended: no code cell defines a class, so no signal class or
    other library structure is subclassed or extended; exactly one
    cell, cell 26 of the 2025 workshop notebook, creates a model
    component of its own, [Decay1Exp], through the library's
    [Expression] constructor; every other model component is an
    instance of one of the library's predefined classes [Gaussian],
    [GaussianHF], [Offset] and [SkewNormal]. *)
Theorem C7_no_class_one_custom_component :
  (forall nb c, In nb notebooks -> In c (nb_cells nb) -> cell_classes c = [])
  /\ collect custom_components notebooks = [("workshop_2025", 26, "Decay1Exp")]
  /\ (forall nb c k,
        In nb notebooks -> In c (nb_cells nb) -> In k (component_ctors c) ->
        In k ["Expression"; "Gaussian"; "GaussianHF"; "Offset"; "SkewNormal"])
  /\ (forall nb i c,
        In nb notebooks -> nb_cells nb !! i = Some c ->
        In "Expression" (component_ctors c) ->
        (nb_name nb, i) = ("workshop_2025", 26)).
Proof.
  split; [|split; [|split]].
  - intros nb c. apply collect_nil. vm_compute; reflexivity.
  - vm_compute; reflexivity.
  - intros nb c k Hnb Hc Hk.
    apply list_elem_of_In, list_elem_of_lookup in Hc as [i Hi].
    pose proof (collect_intro component_ctors notebooks nb i c k Hnb Hi Hk) as Hin.
    assert (Hall : forallb
              (fun x => bool_decide
                 (snd x ∈ ["Expression"; "Gaussian"; "GaussianHF"; "Offset";
                           "SkewNormal"]))
              (collect component_ctors notebooks) = true) by (vm_compute; reflexivity).
    rewrite forallb_forall in Hall. specialize (Hall _ Hin). simpl in Hall.
    apply bool_decide_eq_true_1 in Hall. now apply list_elem_of_In.
  - intros nb i c Hnb Hi Hk.
    pose proof (collect_intro component_ctors notebooks nb i c _ Hnb Hi Hk) as Hin.
    assert (Hall : forallb
              (fun x => bool_decide
                 (snd x = "Expression" -> fst x = ("workshop_2025", 26%nat)))
              (collect component_ctors notebooks) = true) by (vm_compute; reflexivity).
    rewrite forallb_forall in Hall. specialize (Hall _ Hin). simpl in Hall.
    apply bool_decide_eq_true_1 in Hall. now apply Hall.
Qed.

Lemma C7_witness :
  In workshop_2025 notebooks
  /\ nb_cells workshop_2025 !! 26%nat = Some (cell_at workshop_2025 26)
  /\ In "Expression" (component_ctors (cell_at workshop_2025 26))
  /\ (nb_name workshop_2025, 26%nat) = ("workshop_2025", 26%nat).
Proof.
  assert (H1 : In workshop_2025 notebooks) by (do 3 right; left; reflexivity).
  assert (H2 : nb_cells workshop_2025 !! 26%nat = Some (cell_at workshop_2025 26))
    by reflexivity.
  assert (H3 : In "Expression" (component_ctors (cell_at workshop_2025 26)))
    by (vm_compute; tauto).
  split; [exact H1|]. split; [exact H2|]. split; [exact H3|].
  exact (proj2 (proj2 (proj2 C7_no_class_one_custom_component)) _ _ _ H1 H2 H3).
Defined.

(** ** Part II, theorems *)

(** *** The navigator cell (C3, C8) *)

Module NavigatorFacts.
Import Navigator.

Ltac run_cell :=
  unfold navigator_cell, try_except, bare_except, try_body, handler,
    call_plot, call_isig, read_SE, assign_SE, record, bind, lift, get,
    modify, ret;
  simpl.

(** The fallback branch: a metadata read raises. *)
Lemma fallback_run (L : library) (s : state L) (e : exn) :
  metadata L cropped_edges_path = Raise e
  \/ (exists crop, metadata L cropped_edges_path = Ok crop
                   /\ metadata L resolution_x_path = Raise e) ->
  navigator_cell L s
  = (plot L (SE s), {| SE := SE s; calls := calls s ++ [Plotted (SE s)] |}).
Proof.
  intros [H | (crop & H1 & H2)]; run_cell.
  - rewrite H. destruct (plot L (SE s)); reflexivity.
  - rewrite H1, H2. destruct (plot L (SE s)); reflexivity.
Qed.

(** The success branch: every call of the try block returns. *)
Lemma success_run (L : library) (s : state L) (crop size : Z) (cropped : Image L) :
  metadata L cropped_edges_path = Ok crop ->
  metadata L resolution_x_path = Ok size ->
  isig L (SE s) (crop, size - crop)%Z (crop, size - crop)%Z = Ok cropped ->
  plot L cropped = Ok tt ->
  navigator_cell L s
  = (Ok tt,
     {| SE := cropped;
        calls := calls s ++ [Sliced (SE s) (crop, size - crop)%Z (crop, size - crop)%Z;
                             Plotted cropped] |}).
Proof.
  intros H1 H2 H3 H4. run_cell. rewrite H1, H2. simpl. rewrite H3. simpl.
  rewrite H4. rewrite <- app_assoc. reflexivity.
Qed.

(** On every path the last library call of the cell is a plot with the
    current value of [SE] as navigator. *)
Lemma plot_always_reached (L : library) (s : state L) :
  exists before,
    calls (snd (navigator_cell L s))
    = calls s ++ before ++ [Plotted (SE (snd (navigator_cell L s)))].
Proof.
  run_cell.
  destruct (metadata L cropped_edges_path) as [crop|e] eqn:H1; simpl.
  2: { exists []. destruct (plot L (SE s)); reflexivity. }
  destruct (metadata L resolution_x_path) as [size|e] eqn:H2; simpl.
  2: { exists []. destruct (plot L (SE s)); reflexivity. }
  destruct (isig L (SE s) (crop, size - crop)%Z (crop, size - crop)%Z)
    as [cropped|e] eqn:H3; simpl.
  2: { exists [Sliced (SE s) (crop, size - crop)%Z (crop, size - crop)%Z].
       destruct (plot L (SE s)); simpl; rewrite <- !app_assoc; reflexivity. }
  destruct (plot L cropped) as [[]|e] eqn:H4; simpl.
  - exists [Sliced (SE s) (crop, size - crop)%Z (crop, size - crop)%Z].
    rewrite <- !app_assoc. reflexivity.
  - exists [Sliced (SE s) (crop, size - crop)%Z (crop, size - crop)%Z;
            Plotted cropped].
    destruct (plot L cropped); simpl; rewrite <- !app_assoc; reflexivity.
Qed.

(** The cell on concrete microscopes: cropped metadata present; and a
    plot that raises inside the try block, after [SE] was reassigned, so
    that the handler plots with the cropped image. *)
Example navigator_cell_cropped_scan :
  navigator_cell cropped_scan (before_cell cropped_scan "SE_Scan")
  = (Ok tt,
     Build_state cropped_scan "SE_Scan[cropped]"
       [ @Sliced cropped_scan "SE_Scan" (5, 59)%Z (5, 59)%Z;
         @Plotted cropped_scan "SE_Scan[cropped]" ]).
Proof. reflexivity. Qed.

Example navigator_cell_picky_plot :
  navigator_cell picky_plot (before_cell picky_plot "SE_Scan")
  = (Raise ValueError,
     Build_state picky_plot "SE_Scan[cropped]"
       [ @Sliced picky_plot "SE_Scan" (5, 59)%Z (5, 59)%Z;
         @Plotted picky_plot "SE_Scan[cropped]";
         @Plotted picky_plot "SE_Scan[cropped]" ]).
Proof. reflexivity. Qed.

(** C3: if reading [Signal.cropped_edges] or the SEM resolution raises
    any exception, the bare [except:] branch runs and plots the signal
    with the [SE] image as it was before the cell, uncropped, as
    navigator, and that is the only library call made; if every call of
    the try block returns, the plot is made with the cropped image; and
    on every path a plot call is reached. *)
Theorem C3_navigator_fallback_plots_uncropped (L : library) (s : state L) :
  (forall e,
     metadata L cropped_edges_path = Raise e
     \/ (exists crop, metadata L cropped_edges_path = Ok crop
                      /\ metadata L resolution_x_path = Raise e) ->
     navigator_cell L s
     = (plot L (SE s), {| SE := SE s; calls := calls s ++ [Plotted (SE s)] |}))
  /\ (forall crop size cropped,
        metadata L cropped_edges_path = Ok crop ->
        metadata L resolution_x_path = Ok size ->
        isig L (SE s) (crop, size - crop)%Z (crop, size - crop)%Z = Ok cropped ->
        plot L cropped = Ok tt ->
        navigator_cell L s
        = (Ok tt,
           {| SE := cropped;
              calls := calls s
                ++ [Sliced (SE s) (crop, size - crop)%Z (crop, size - crop)%Z;
                    Plotted cropped] |}))
  /\ (exists before,
        calls (snd (navigator_cell L s))
        = calls s ++ before ++ [Plotted (SE (snd (navigator_cell L s)))]).
Proof.
  split; [|split].
  - intros e. apply fallback_run.
  - intros crop size cropped. apply success_run.
  - apply plot_always_reached.
Qed.

Lemma C3_witness :
  metadata uncropped_scan cropped_edges_path = Raise AttributeError
  /\ navigator_cell uncropped_scan (before_cell uncropped_scan "SE_Scan")
     = (Ok tt, Build_state uncropped_scan "SE_Scan" [@Plotted uncropped_scan "SE_Scan"]).
Proof.
  split; [reflexivity|].
  apply (proj1 (C3_navigator_fallback_plots_uncropped uncropped_scan
                  (before_cell uncropped_scan "SE_Scan")) AttributeError).
  left. reflexivity.
Defined.

(** The cell on a scan of 64 by 48 pixels cropped by 5: the slice
    [5:59] stops at the lower edge of the image, which is left 54 by 43;
    the map is 54 by 38, so both plots raise. *)
Example navigator_cell_rectangular_scan :
  navigator_cell (scan 5 64 48) (before_cell (scan 5 64 48) (64, 48)%Z)
  = (Raise ValueError,
     Build_state (scan 5 64 48) (54, 43)%Z
       [ @Sliced (scan 5 64 48) (64, 48)%Z (5, 59)%Z (5, 59)%Z;
         @Plotted (scan 5 64 48) (54, 43)%Z;
         @Plotted (scan 5 64 48) (54, 43)%Z ]).
Proof. reflexivity. Qed.




End NavigatorFacts.

(** *** The background-path cell (C10) *)

Module BkgPathFacts.
Import BkgPath.

Ltac run_cell :=
  unfold bkg_path_cell, try_except, except_class, try_body, handler,
    assign_bkg_path, read_bkg_path, print, subscript, bind, lift, get,
    modify, raise, ret in *;
  simpl.

(** The glob matches nothing. *)
Lemma no_match_run (L : library) (root_folder : string) (s : state) :
  glob L (os_path_join L root_folder "*.txt") = Ok [] ->
  bkg_path_cell L root_folder s
  = (Ok tt, {| bkg_path := Some ""; stdout := stdout s ++ [prompt] |}).
Proof. intros H. run_cell. rewrite H. reflexivity. Qed.

(** The glob matches at least one path. *)
Lemma match_run (L : library) (root_folder : string) (s : state) first others :
  glob L (os_path_join L root_folder "*.txt") = Ok (first :: others) ->
  bkg_path_cell L root_folder s
  = (Ok tt, {| bkg_path := Some first; stdout := stdout s |}).
Proof. intros H. run_cell. rewrite H. reflexivity. Qed.

(** Whatever the library does, no IndexError leaves the cell and
    [bkg_path] is bound to a string afterwards. *)
Lemma never_IndexError (L : library) (root_folder : string) (s : state) :
  fst (bkg_path_cell L root_folder s) <> Raise IndexError
  /\ exists v, bkg_path (snd (bkg_path_cell L root_folder s)) = Some v.
Proof.
  run_cell.
  destruct (glob L (os_path_join L root_folder "*.txt")) as [[|first others]|e];
    simpl.
  - split; [discriminate|eauto].
  - split; [discriminate|eauto].
  - destruct (bool_decide (e = IndexError)) eqn:E; simpl.
    + split; [discriminate|eauto].
    + split; [|eauto].
      intros H. inversion H as [He]. subst e.
      rewrite bool_decide_eq_false in E. now apply E.
Qed.

Example bkg_path_cell_one_background :
  bkg_path_cell one_background "demo-files/load_from_AttoLightSEM/" fresh_kernel
  = (Ok tt,
     {| bkg_path := Some "demo-files/load_from_AttoLightSEM/Background.txt";
        stdout := [] |}).
Proof. reflexivity. Qed.

(** C10: if the glob for the txt files of the root folder matches
    nothing, the IndexError of the subscript is caught, the prompt is
    printed and [bkg_path] is the empty string; if it matches, [bkg_path]
    is the first match and nothing is printed; in every case no
    IndexError propagates out of the cell and [bkg_path] is bound to a
    string afterwards. *)
Theorem C10_bkg_path_cell_catches_IndexError
    (L : library) (root_folder : string) (s : state) :
  (glob L (os_path_join L root_folder "*.txt") = Ok [] ->
   bkg_path_cell L root_folder s
   = (Ok tt, {| bkg_path := Some ""; stdout := stdout s ++ [prompt] |}))
  /\ (forall first others,
        glob L (os_path_join L root_folder "*.txt") = Ok (first :: others) ->
        bkg_path_cell L root_folder s
        = (Ok tt, {| bkg_path := Some first; stdout := stdout s |}))
  /\ fst (bkg_path_cell L root_folder s) <> Raise IndexError
  /\ exists v, bkg_path (snd (bkg_path_cell L root_folder s)) = Some v.
Proof.
  split; [apply no_match_run|].
  split; [intros first others; apply match_run|].
  apply never_IndexError.
Qed.

Lemma C10_witness :
  glob empty_folder (os_path_join empty_folder "demo-files/load_from_AttoLightSEM/" "*.txt")
  = Ok []
  /\ bkg_path_cell empty_folder "demo-files/load_from_AttoLightSEM/" fresh_kernel
     = (Ok tt, {| bkg_path := Some ""; stdout := [prompt] |}).
Proof.
  split; [reflexivity|].
  apply (proj1 (C10_bkg_path_cell_catches_IndexError empty_folder
                  "demo-files/load_from_AttoLightSEM/" fresh_kernel)).
  reflexivity.
Defined.

End BkgPathFacts.

(** *** The advanced fitting cell (C9) *)

Module FittingFacts.
Import Fitting.

Lemma bind_ok {S A B} (m : M S A) (k : A -> M S B) s a s' :
  m s = (Ok a, s') -> bind m k s = k a s'.
Proof. intros H. unfold bind. rewrite H. reflexivity. Qed.



Lemma for_each_app {S A} (xs ys : list A) (body : A -> M S unit) s :
  for_each (xs ++ ys) body s
  = bind (for_each xs body) (fun _ => for_each ys body) s.
Proof.
  revert s. induction xs as [|x xs IH]; intros s; simpl.
  - reflexivity.
  - unfold bind. destruct (body x s) as [[[]|e] s1]; [|reflexivity].
    rewrite IH. reflexivity.
Qed.

Section Facts.
Context (L : library).

Local Abbreviation component := (GaussianHF (float L)).

Lemma set_attr_ok i f (g : list component) c :
  g !! i = Some c -> set_attr L i f g = (Ok tt, <[i := f c]> g).
Proof.
  intros H. unfold set_attr, subscript, bind, get, modify, ret. simpl.
  rewrite H. reflexivity.
Qed.

Lemma set_attr_out_of_range i f (g : list component) :
  (length g <= i)%nat -> set_attr L i f g = (Raise IndexError, g).
Proof.
  intros H. apply lookup_ge_None_2 in H.
  unfold set_attr, subscript, bind, get, modify, raise. simpl.
  rewrite H. reflexivity.
Qed.

(** A second assignment to the object at the same index. *)
Lemma set_attr_again i f (g : list component) c :
  (i < length g)%nat ->
  set_attr L i f (<[i := c]> g) = (Ok tt, <[i := f c]> g).
Proof.
  intros H. rewrite (set_attr_ok i f _ c) by now apply list_lookup_insert_eq.
  now rewrite list_insert_insert_eq.
Qed.

Lemma peak_position_ok (peaks : list (peak (float L))) i p (g : list component) :
  peaks !! i = Some p -> peak_position L peaks i g = (Ok (position p), g).
Proof.
  intros H. unfold peak_position, subscript, bind, ret. rewrite H. reflexivity.
Qed.

(** One pass of the loop body. *)
Lemma configure_peak_ok (peaks : list (peak (float L))) i p (g : list component) c :
  peaks !! i = Some p -> g !! i = Some c ->
  configure_peak L peaks i g
  = (Ok tt, <[i := configured L (position p) c]> g).
Proof.
  intros Hp Hg. pose proof (lookup_lt_Some _ _ _ Hg) as Hlt.
  unfold configure_peak.
  rewrite (bind_ok _ _ g tt (<[i := on_centre L (set_value L (position p)) c]> g)).
  2: { rewrite (bind_ok _ _ g _ g (peak_position_ok _ _ _ _ Hp)).
       now apply set_attr_ok. }
  erewrite bind_ok.
  2: { erewrite bind_ok by (apply peak_position_ok; eassumption).
       now apply set_attr_again. }
  erewrite bind_ok.
  2: { erewrite bind_ok by (apply peak_position_ok; eassumption).
       now apply set_attr_again. }
  do 7 (erewrite bind_ok by now apply set_attr_again).
  rewrite set_attr_again by assumption. reflexivity.
Qed.



Lemma getPeaks_run (s : Signal L) (g0 g : list component) table :
  fst (getPeaks L s g0) = Ok table -> getPeaks L s g = (Ok table, g).
Proof.
  unfold getPeaks, subscript, bind, ret, raise.
  destruct (_ !! 0%nat); simpl; intros H; inversion H. reflexivity.
Qed.


(** The first two loops: ten new components, each then assigned the
    multidimensional flag. *)
Lemma append_loop_run :
  for_each (arange 0 10) (fun _ => modify (fun g => g ++ [new_GaussianHF L])) []
  = (Ok tt, replicate 10 (new_GaussianHF L)).
Proof. reflexivity. Qed.

Lemma multidimensional_loop_run :
  for_each (arange 0 10)
    (fun i => set_attr L i (set_active_is_multidimensional L true))
    (replicate 10 (new_GaussianHF L))
  = (Ok tt, replicate 10 (fresh_component L)).
Proof. reflexivity. Qed.



End Facts.

(** The cell on concrete libraries: three peaks leave three components
    active, with centres at the peaks as the fit moved them; eleven
    peaks overflow the list. *)
Example fitting_cell_three_peaks :
  let g := snd (advanced_fitting_cell three_peaks [1; 7; 2]%Z []) in
  map active g
  = [true; true; true; false; false; false; false; false; false; false]
  /\ map (fun c => value (centre c)) (take 3 g) = [581; 613; 656]%Z
  /\ map (fun c => (bmin (centre c), bmax (centre c))) (take 3 g)
     = [(Some 577, Some 583); (Some 609, Some 615); (Some 652, Some 658)]%Z.
Proof. repeat split; reflexivity. Qed.

Example fitting_cell_eleven_peaks :
  fst (advanced_fitting_cell eleven_peaks [1; 7; 2]%Z []) = Raise IndexError.
Proof. reflexivity. Qed.

(** What the peak finder of [ohaver] returns when ten peaks are asked
    for: the ten highest of twelve candidates of different heights, and
    all of thirteen candidates of the same height. *)
Example ten_of_twelve :
  map position (keep_highest 10 graded_candidates)
  = [520; 530; 540; 550; 560; 570; 580; 590; 600; 610]%Z.
Proof. vm_compute. reflexivity. Qed.

Example thirteen_of_thirteen :
  length (keep_highest 10 tied_candidates) = 13%nat.
Proof. vm_compute. reflexivity. Qed.





End FittingFacts.

(** *** The Jacobian transformation (C4) *)

Module JacobianFacts.
Import Reals Lra.
Import Jacobian.
Local Open Scope R_scope.

(** [d/dE (hc/E) = - hc/E^2]. *)
Lemma wavelength_derivative (hc E : R) :
  E <> 0 -> derivable_pt_lim (wavelength hc) E (dlambda_dE hc E).
Proof.
  intros HE.
  replace (dlambda_dE hc E) with ((0 * id E - 1 * fct_cte hc E) / Rsqr (id E)).
  - change (wavelength hc) with (div_fct (fct_cte hc) id).
    apply derivable_pt_lim_div.
    + apply derivable_pt_lim_const.
    + apply derivable_pt_lim_id.
    + exact HE.
  - unfold dlambda_dE, id, fct_cte, Rsqr. field. exact HE.
Qed.

(** The integral of a continuous function is the increase of any of its
    antiderivatives. *)
Lemma integral_by_antiderivative (f G : R -> R) (a b : R)
    (pr : Riemann_integrable f a b) :
  a <= b ->
  (forall x, a <= x <= b -> continuity_pt f x) ->
  antiderivative f G a b ->
  RiemannInt pr = G b - G a.
Proof.
  intros Hab C0 HG.
  rewrite (RiemannInt_P20 Hab (FTC_P1 Hab C0) pr).
  destruct (antiderivative_Ucte f _ G a b (RiemannInt_P29 Hab C0) HG) as [c Hc].
  rewrite (Hc b), (Hc a) by lra. lra.
Qed.

Section Window.
Variables (hc : R) (intensity : R -> R) (E1 E2 : R).
Hypothesis hc_pos : 0 < hc.
Hypothesis window : 0 < E1 <= E2.
Hypothesis intensity_continuous :
  forall l, wavelength hc E2 <= l <= wavelength hc E1 -> continuity_pt intensity l.

(** The energies of the window [E1, E2] are the wavelengths of the
    window [hc/E2, hc/E1]. *)
Lemma wavelength_window (E : R) :
  E1 <= E <= E2 -> wavelength hc E2 <= wavelength hc E <= wavelength hc E1.
Proof.
  intros HE. unfold wavelength, Rdiv. split.
  - apply Rmult_le_compat_l; [lra|]. apply Rinv_le_contravar; lra.
  - apply Rmult_le_compat_l; [lra|]. apply Rinv_le_contravar; lra.
Qed.

Lemma wavelength_order : wavelength hc E2 <= wavelength hc E1.
Proof. destruct (wavelength_window E1); lra. Qed.

Lemma intensity_at_wavelength_continuous (E : R) :
  E1 <= E <= E2 -> continuity_pt (comp intensity (wavelength hc)) E.
Proof.
  intros HE. apply continuity_pt_comp.
  - apply derivable_continuous_pt. exists (dlambda_dE hc E).
    apply wavelength_derivative. lra.
  - apply intensity_continuous, wavelength_window, HE.
Qed.

Lemma jacobian_continuous (E : R) :
  E1 <= E <= E2 -> continuity_pt (jacobian hc) E.
Proof.
  intros HE.
  change (jacobian hc) with (div_fct (fct_cte hc) (fun E => E ^ 2)).
  apply continuity_pt_div.
  - apply continuity_pt_const. intros x y. reflexivity.
  - apply derivable_continuous_pt. apply derivable_pt_pow.
  - apply pow_nonzero. lra.
Qed.

Lemma to_eV_continuous (E : R) :
  E1 <= E <= E2 -> continuity_pt (to_eV hc intensity) E.
Proof.
  intros HE.
  change (to_eV hc intensity)
    with (mult_fct (comp intensity (wavelength hc)) (jacobian hc)).
  apply continuity_pt_mult;
    [apply intensity_at_wavelength_continuous|apply jacobian_continuous]; exact HE.
Qed.

Lemma signed_to_eV_continuous (E : R) :
  E1 <= E <= E2 -> continuity_pt (signed_to_eV hc intensity) E.
Proof.
  intros HE.
  change (signed_to_eV hc intensity)
    with (mult_fct (comp intensity (wavelength hc)) (opp_fct (jacobian hc))).
  apply continuity_pt_mult; [apply intensity_at_wavelength_continuous, HE|].
  apply continuity_pt_opp, jacobian_continuous, HE.
Qed.

(** Both intensities can be integrated over their window. *)
Lemma to_eV_integrable : Riemann_integrable (to_eV hc intensity) E1 E2.
Proof. exact (continuity_implies_RiemannInt (proj2 window) to_eV_continuous). Qed.

Lemma intensity_integrable :
  Riemann_integrable intensity (wavelength hc E2) (wavelength hc E1).
Proof.
  exact (continuity_implies_RiemannInt wavelength_order intensity_continuous).
Qed.

Lemma signed_to_eV_integrable :
  Riemann_integrable (signed_to_eV hc intensity) E1 E2.
Proof.
  exact (continuity_implies_RiemannInt (proj2 window) signed_to_eV_continuous).
Qed.

Lemma intensity_integrable_back :
  Riemann_integrable intensity (wavelength hc E1) (wavelength hc E2).
Proof. exact (RiemannInt_P1 intensity_integrable). Qed.

(** If [F' = intensity] over the wavelengths, then [E |-> - F (hc/E)]
    has the converted intensity as derivative over the energies. *)
Lemma to_eV_antiderivative (F : R -> R) :
  antiderivative intensity F (wavelength hc E2) (wavelength hc E1) ->
  antiderivative (to_eV hc intensity) (fun E => - F (wavelength hc E)) E1 E2.
Proof.
  intros [HF _]. split; [|exact (proj2 window)].
  intros E HE.
  destruct (HF (wavelength hc E) (wavelength_window E HE)) as [[l Hl] Hd].
  simpl in Hd. subst l.
  assert (Hlim : derivable_pt_lim (fun E => - F (wavelength hc E)) E
                   (to_eV hc intensity E)).
  { replace (to_eV hc intensity E)
      with (- (intensity (wavelength hc E) * dlambda_dE hc E))
      by (unfold to_eV, jacobian, dlambda_dE; lra).
    change (fun E => - F (wavelength hc E)) with (opp_fct (comp F (wavelength hc))).
    apply derivable_pt_lim_opp. apply derivable_pt_lim_comp.
    - apply wavelength_derivative. lra.
    - exact Hl. }
  exists (exist _ _ Hlim). reflexivity.
Qed.

Lemma window_integrals
    (pr_E : Riemann_integrable (to_eV hc intensity) E1 E2)
    (pr_lambda : Riemann_integrable intensity (wavelength hc E2) (wavelength hc E1)) :
  RiemannInt pr_E = RiemannInt pr_lambda.
Proof.
  pose proof (RiemannInt_P29 wavelength_order intensity_continuous) as HF.
  rewrite (integral_by_antiderivative _ _ _ _ pr_E (proj2 window)
             to_eV_continuous (to_eV_antiderivative _ HF)).
  rewrite (RiemannInt_P20 wavelength_order
             (FTC_P1 wavelength_order intensity_continuous) pr_lambda).
  lra.
Qed.

(** With the sign of [dlambda/dE] kept, the integral over the energies
    is the integral over the wavelengths taken in the direction in which
    the wavelength runs, from [hc/E1] down to [hc/E2]. *)
Lemma signed_window_integrals
    (pr_signed : Riemann_integrable (signed_to_eV hc intensity) E1 E2)
    (pr_back : Riemann_integrable intensity (wavelength hc E1) (wavelength hc E2)) :
  RiemannInt pr_signed = RiemannInt pr_back.
Proof.
  rewrite (RiemannInt_P8 pr_back intensity_integrable).
  rewrite <- (window_integrals to_eV_integrable intensity_integrable).
  pose (pr0 := RiemannInt_P14 E1 E2 0).
  pose (pr3 := RiemannInt_P10 (-1) pr0 to_eV_integrable).
  rewrite (RiemannInt_P18 pr_signed pr3 (proj2 window)).
  - rewrite (RiemannInt_P13 pr0 to_eV_integrable pr3).
    rewrite (RiemannInt_P15 pr0). lra.
  - intros E _. unfold signed_to_eV, to_eV, jacobian, dlambda_dE, fct_cte. lra.
Qed.
End Window.

(** C4: for the conversion as the notebook's text defines it, with
    [hc > 0]: the converted intensity at [E] is the intensity at the
    wavelength [hc/E] times [hc/E^2]; this factor is the size of
    [dlambda/dE = - hc/E^2], the derivative of [hc/E]; over any window
    [E1, E2] of positive energies the integral of the converted
    intensity equals the integral of the intensity over the
    corresponding window of wavelengths, from [hc/E2] to [hc/E1], for
    every intensity that is continuous there; and with the sign of
    [dlambda/dE] kept, as the text writes it, the integral over the
    energies is the integral over the same wavelengths taken from
    [hc/E1] down to [hc/E2]. *)
Theorem C4_jacobian_preserves_window_integrals
    (hc : R) (intensity : R -> R) (E1 E2 : R)
    (pr_E : Riemann_integrable (to_eV hc intensity) E1 E2)
    (pr_lambda : Riemann_integrable intensity (wavelength hc E2) (wavelength hc E1))
    (pr_signed : Riemann_integrable (signed_to_eV hc intensity) E1 E2)
    (pr_back : Riemann_integrable intensity (wavelength hc E1) (wavelength hc E2)) :
  0 < hc ->
  0 < E1 <= E2 ->
  (forall l, wavelength hc E2 <= l <= wavelength hc E1 -> continuity_pt intensity l) ->
  (forall E, to_eV hc intensity E = intensity (hc / E) * (hc / E ^ 2))
  /\ (forall E, E <> 0 ->
        derivable_pt_lim (fun E => hc / E) E (- (hc / E ^ 2))
        /\ hc / E ^ 2 = Rabs (dlambda_dE hc E))
  /\ RiemannInt pr_E = RiemannInt pr_lambda
  /\ RiemannInt pr_signed = RiemannInt pr_back.
Proof.
  intros Hhc HE HI. split; [reflexivity|]. split; [|split].
  - intros E HE0. split; [apply wavelength_derivative, HE0|].
    unfold dlambda_dE. rewrite Rabs_Ropp. symmetry. apply Rabs_pos_eq.
    apply Rlt_le, Rdiv_lt_0_compat; [exact Hhc|].
    rewrite <- Rsqr_pow2. apply Rlt_0_sqr. exact HE0.
  - apply window_integrals; assumption.
  - apply signed_window_integrals; assumption.
Qed.

(** A constant intensity, as in the notebook's example, over the window
    from 2 to 4 eV, with [hc] taken as 1240 eV nm: both integrals are
    310, the width of the window from 310 to 620 nm. *)
Lemma constant_intensity (l : R) :
  wavelength 1240 4 <= l <= wavelength 1240 2 -> continuity_pt (fun _ => 1) l.
Proof. intros _. apply continuity_pt_const. intros x y. reflexivity. Qed.

Lemma C4_witness :
  0 < 1240
  /\ 0 < 2 <= 4
  /\ exists (pr_E : Riemann_integrable (to_eV 1240 (fun _ => 1)) 2 4)
            (pr_lambda : Riemann_integrable (fun _ => 1)
                           (wavelength 1240 4) (wavelength 1240 2)),
       RiemannInt pr_E = RiemannInt pr_lambda
       /\ RiemannInt pr_lambda = 310.
Proof.
  assert (H1 : 0 < 1240) by lra.
  assert (H2 : 0 < 2 <= 4) by lra.
  split; [exact H1|]. split; [exact H2|].
  exists (to_eV_integrable 1240 (fun _ => 1) 2 4 H1 H2 constant_intensity).
  exists (intensity_integrable 1240 (fun _ => 1) 2 4 H1 H2 constant_intensity).
  split.
  - exact (proj1 (proj2 (proj2 (C4_jacobian_preserves_window_integrals
                           1240 (fun _ => 1) 2 4 _ _
                           (signed_to_eV_integrable 1240 (fun _ => 1) 2 4
                              H1 H2 constant_intensity)
                           (intensity_integrable_back 1240 (fun _ => 1) 2 4
                              H1 H2 constant_intensity)
                           H1 H2 constant_intensity)))).
  - etransitivity;
      [exact (@RiemannInt_P15 (wavelength 1240 4) (wavelength 1240 2) 1 _)|].
    unfold wavelength. lra.
Defined.

End JacobianFacts.

(** ** Part III, theorems *)

(** *** Further behaviour of the navigator cell *)

Module NavigatorEdge.
Import Navigator NavigatorFacts Scenes.

(** X1: when both metadata reads succeed but slicing the [SE] image
    raises, the exception is swallowed: the handler plots with the image
    as it was, and the outcome of the cell is the outcome of that plot. *)
Theorem slicing_failure_falls_back
    (L : library) (s : state L) (crop size : Z) (e : exn) :
  metadata L cropped_edges_path = Ok crop ->
  metadata L resolution_x_path = Ok size ->
  isig L (SE s) (crop, size - crop)%Z (crop, size - crop)%Z = Raise e ->
  navigator_cell L s
  = (plot L (SE s),
     {| SE := SE s;
        calls := calls s
          ++ [Sliced (SE s) (crop, size - crop)%Z (crop, size - crop)%Z;
              Plotted (SE s)] |}).
Proof.
  intros H1 H2 H3. run_cell. rewrite H1, H2. simpl. rewrite H3. simpl.
  destruct (plot L (SE s)); rewrite <- app_assoc; reflexivity.
Qed.

Lemma slicing_failure_falls_back_witness :
  metadata unsliceable cropped_edges_path = Ok 5%Z
  /\ metadata unsliceable resolution_x_path = Ok 64%Z
  /\ isig unsliceable "SE_Scan" (5, 64 - 5)%Z (5, 64 - 5)%Z = Raise IndexError
  /\ navigator_cell unsliceable (before_cell unsliceable "SE_Scan")
     = (Ok tt,
        Build_state unsliceable "SE_Scan"
          [ @Sliced unsliceable "SE_Scan" (5, 64 - 5)%Z (5, 64 - 5)%Z;
            @Plotted unsliceable "SE_Scan" ]).
Proof.
  split; [reflexivity|]. split; [reflexivity|]. split; [reflexivity|].
  exact (slicing_failure_falls_back unsliceable (before_cell unsliceable "SE_Scan")
           5 64 IndexError eq_refl eq_refl eq_refl).
Defined.

(** X2: when the plot inside the try block raises, [SE] has already been
    reassigned, so the handler plots a second time with the cropped
    image, not with the image as loaded, and [SE] stays cropped. *)
Theorem plot_failure_replots_cropped
    (L : library) (s : state L) (crop size : Z) (cropped : Image L) (e : exn) :
  metadata L cropped_edges_path = Ok crop ->
  metadata L resolution_x_path = Ok size ->
  isig L (SE s) (crop, size - crop)%Z (crop, size - crop)%Z = Ok cropped ->
  plot L cropped = Raise e ->
  navigator_cell L s
  = (Raise e,
     {| SE := cropped;
        calls := calls s
          ++ [Sliced (SE s) (crop, size - crop)%Z (crop, size - crop)%Z;
              Plotted cropped; Plotted cropped] |}).
Proof.
  intros H1 H2 H3 H4. run_cell. rewrite H1, H2. simpl. rewrite H3. simpl.
  rewrite H4. simpl. rewrite <- !app_assoc. reflexivity.
Qed.

Lemma plot_failure_replots_cropped_witness :
  metadata picky_plot cropped_edges_path = Ok 5%Z
  /\ metadata picky_plot resolution_x_path = Ok 64%Z
  /\ isig picky_plot "SE_Scan" (5, 64 - 5)%Z (5, 64 - 5)%Z = Ok "SE_Scan[cropped]"
  /\ plot picky_plot "SE_Scan[cropped]" = Raise ValueError
  /\ navigator_cell picky_plot (before_cell picky_plot "SE_Scan")
     = (Raise ValueError,
        Build_state picky_plot "SE_Scan[cropped]"
          [ @Sliced picky_plot "SE_Scan" (5, 64 - 5)%Z (5, 64 - 5)%Z;
            @Plotted picky_plot "SE_Scan[cropped]";
            @Plotted picky_plot "SE_Scan[cropped]" ]).
Proof.
  split; [reflexivity|]. split; [reflexivity|]. split; [reflexivity|].
  split; [reflexivity|].
  exact (plot_failure_replots_cropped picky_plot (before_cell picky_plot "SE_Scan")
           5 64 "SE_Scan[cropped]" ValueError eq_refl eq_refl eq_refl eq_refl).
Defined.

(** X3: whatever the library does, no exception of a metadata read or of
    the slicing leaves the cell: the outcome of the cell is the outcome
    of plotting with the final value of [SE]; and the cell makes at most
    one slice and one or two plot calls. *)
Theorem outcome_is_that_of_the_plot (L : library) (s : state L) :
  let r := navigator_cell L s in
  fst r = plot L (SE (snd r))
  /\ exists new,
       calls (snd r) = calls s ++ new
       /\ (length (filter (fun ev => negb (is_plot ev)) new) <= 1)%nat
       /\ (1 <= length (filter is_plot new) <= 2)%nat.
Proof.
  run_cell.
  destruct (metadata L cropped_edges_path) as [crop|e] eqn:H1; simpl.
  2: { destruct (plot L (SE s)) eqn:Hp; simpl; rewrite ?Hp;
       (split; [reflexivity|]); exists [Plotted (SE s)]; simpl; auto. }
  destruct (metadata L resolution_x_path) as [size|e] eqn:H2; simpl.
  2: { destruct (plot L (SE s)) eqn:Hp; simpl; rewrite ?Hp;
       (split; [reflexivity|]); exists [Plotted (SE s)]; simpl; auto. }
  destruct (isig L (SE s) (crop, size - crop)%Z (crop, size - crop)%Z)
    as [cropped|e] eqn:H3; simpl.
  2: { destruct (plot L (SE s)) eqn:Hp; simpl; rewrite ?Hp;
       (split; [reflexivity|]);
       exists [Sliced (SE s) (crop, size - crop)%Z (crop, size - crop)%Z;
               Plotted (SE s)];
       rewrite <- app_assoc; simpl; auto. }
  destruct (plot L cropped) as [[]|e] eqn:H4; simpl; rewrite ?H4; simpl.
  - split; [reflexivity|].
    exists [Sliced (SE s) (crop, size - crop)%Z (crop, size - crop)%Z;
            Plotted cropped].
    rewrite <- app_assoc. simpl. auto.
  - split; [reflexivity|].
    exists [Sliced (SE s) (crop, size - crop)%Z (crop, size - crop)%Z;
            Plotted cropped; Plotted cropped].
    rewrite <- !app_assoc. simpl. auto.
Qed.

(** X4: the cell is not idempotent: run a second time after a run that
    succeeded, it slices the image that the first run had already
    cropped, with the same bounds, and binds [SE] to the result; this
    second run ends as the plot with the twice-cropped image ends, and
    when that plot raises the handler has made it twice. *)
Theorem second_run_crops_again
    (L : library) (s : state L) (crop size : Z) (once twice : Image L) :
  metadata L cropped_edges_path = Ok crop ->
  metadata L resolution_x_path = Ok size ->
  isig L (SE s) (crop, size - crop)%Z (crop, size - crop)%Z = Ok once ->
  plot L once = Ok tt ->
  isig L once (crop, size - crop)%Z (crop, size - crop)%Z = Ok twice ->
  (navigator_cell L >> navigator_cell L) s
  = (plot L twice,
     {| SE := twice;
        calls := calls s
          ++ [Sliced (SE s) (crop, size - crop)%Z (crop, size - crop)%Z;
              Plotted once;
              Sliced once (crop, size - crop)%Z (crop, size - crop)%Z;
              Plotted twice]
          ++ match plot L twice with
             | Ok _ => []
             | Raise _ => [Plotted twice]
             end |}).
Proof.
  intros H1 H2 H3 H4 H5. unfold bind at 1.
  rewrite (success_run L s crop size once H1 H2 H3 H4).
  run_cell. rewrite H1, H2. simpl. rewrite H5. simpl.
  destruct (plot L twice) as [[]|e]; simpl;
    rewrite <- !app_assoc; reflexivity.
Qed.

(** A scan of 64 by 64 pixels cropped by 5: the first run leaves the
    image 54 by 54, the shape of the map; the second run leaves it 49 by
    49, and its plots raise. *)
Lemma second_run_crops_again_witness :
  metadata (scan 5 64 64) cropped_edges_path = Ok 5%Z
  /\ metadata (scan 5 64 64) resolution_x_path = Ok 64%Z
  /\ (navigator_cell (scan 5 64 64) >> navigator_cell (scan 5 64 64))
       (before_cell (scan 5 64 64) (64, 64)%Z)
     = (Raise ValueError,
        Build_state (scan 5 64 64) (49, 49)%Z
          [ @Sliced (scan 5 64 64) (64, 64)%Z (5, 64 - 5)%Z (5, 64 - 5)%Z;
            @Plotted (scan 5 64 64) (54, 54)%Z;
            @Sliced (scan 5 64 64) (54, 54)%Z (5, 64 - 5)%Z (5, 64 - 5)%Z;
            @Plotted (scan 5 64 64) (49, 49)%Z;
            @Plotted (scan 5 64 64) (49, 49)%Z ]).
Proof.
  split; [reflexivity|]. split; [reflexivity|].
  exact (second_run_crops_again (scan 5 64 64)
           (before_cell (scan 5 64 64) (64, 64)%Z)
           5 64 (54, 54)%Z (49, 49)%Z
           eq_refl eq_refl eq_refl eq_refl eq_refl).
Defined.

End NavigatorEdge.

(** *** Further behaviour of the background-path cell *)

Module BkgPathEdge.
Import BkgPath BkgPathFacts Scenes.

(** X5: an exception of the glob other than IndexError is not caught: it
    leaves the cell, nothing is printed, and [bkg_path] is left holding
    the glob pattern, not the path of a file. *)
Theorem other_exception_propagates
    (L : library) (root_folder : string) (s : state) (e : exn) :
  glob L (os_path_join L root_folder "*.txt") = Raise e ->
  e <> IndexError ->
  bkg_path_cell L root_folder s
  = (Raise e,
     {| bkg_path := Some (os_path_join L root_folder "*.txt");
        stdout := stdout s |}).
Proof.
  intros H He. run_cell. rewrite H. simpl.
  rewrite bool_decide_eq_false_2 by assumption. reflexivity.
Qed.

Lemma other_exception_propagates_witness :
  glob unreadable_folder (os_path_join unreadable_folder "demo-files" "*.txt")
  = Raise (OtherError "PermissionError")
  /\ OtherError "PermissionError" <> IndexError
  /\ bkg_path_cell unreadable_folder "demo-files" fresh_kernel
     = (Raise (OtherError "PermissionError"),
        {| bkg_path := Some "demo-files/*.txt"; stdout := [] |}).
Proof.
  split; [reflexivity|]. split; [discriminate|].
  exact (other_exception_propagates unreadable_folder "demo-files" fresh_kernel
           (OtherError "PermissionError") eq_refl ltac:(discriminate)).
Defined.

(** X6: the cell can be run again: a second run ends as the first did
    and binds [bkg_path] to the same value, whatever the library does
    (as long as it answers the same); what [bkg_path] held before the
    first run does not matter. *)
Theorem rerun_gives_the_same_path
    (L : library) (root_folder : string) (s : state) (previous : option string) :
  let first := bkg_path_cell L root_folder s in
  let second := bkg_path_cell L root_folder (snd first) in
  fst second = fst first
  /\ bkg_path (snd second) = bkg_path (snd first)
  /\ bkg_path (snd first)
     = bkg_path (snd (bkg_path_cell L root_folder
                        {| bkg_path := previous; stdout := stdout s |})).
Proof.
  run_cell.
  destruct (glob L (os_path_join L root_folder "*.txt")) as [[|p ps]|e] eqn:H;
    simpl; rewrite ?H; simpl; auto.
  destruct (bool_decide (e = IndexError)) eqn:E; simpl; rewrite ?H; simpl;
    rewrite ?E; auto.
Qed.

End BkgPathEdge.

(** *** The grating cells *)

Module GratingFacts.
Import Grating.

Ltac run_cell :=
  unfold calibrations_cell, correction_cell, choose_correction_factor,
    call_correct_grating_shift, read, set_calibration_factor, set_grating,
    set_correction_factor_grating, set_fov, set_grating_calibrations,
    bind, lift, get, modify, raise, ret;
  simpl.

(** X7: for a grating of 150 or 600 lines and a readable field of view,
    the two cells call [correct_grating_shift] once, with three
    positional arguments in the order of the dictionary: the calibration
    factor 131072, the correction factor of that grating, and the field
    of view times 1e6; what the variables held before does not matter,
    and the outcome is that of the call. *)
Theorem supported_grating_arguments
    (L : library) (s : state L) (density : Z) (view : float L) :
  groove_density L = Ok density ->
  density = 150%Z \/ density = 600%Z ->
  field_of_view L = Ok view ->
  let args : list (Z + float L) :=
    [ inl 131072%Z;
      inr (literal L (if (density =? 150)%Z then "2.73E-04"
                      else "6.693659836087227e-05"));
      inr (fmul L view (literal L "1e6")) ] in
  let r := (calibrations_cell L >> correction_cell L) s in
  fst r = correct_grating_shift L args
  /\ corrections (snd r) = corrections s ++ [args]
  /\ grating_calibrations (snd r)
     = Some (zip ["cal_factor"; "corr_factor_grating"; "field_of_view_um"] args).
Proof.
  intros Hd [-> | ->] Hv; run_cell; rewrite Hd; simpl; rewrite Hv; simpl;
    destruct (correct_grating_shift L _); auto.
Qed.

Lemma supported_grating_arguments_witness :
  groove_density (spectrometer 600) = Ok 600%Z
  /\ (600 = 150 \/ 600 = 600)%Z
  /\ field_of_view (spectrometer 600) = Ok "1e-4"
  /\ corrections (snd ((calibrations_cell (spectrometer 600)
                          >> correction_cell (spectrometer 600))
                         (fresh_kernel (spectrometer 600))))
     = [[inl 131072%Z; inr "6.693659836087227e-05"; inr "1e-4*1e6"]].
Proof.
  split; [reflexivity|]. split; [right; reflexivity|]. split; [reflexivity|].
  exact (proj1 (proj2
    (supported_grating_arguments (spectrometer 600) (fresh_kernel (spectrometer 600))
       600 "1e-4" eq_refl (or_intror eq_refl) eq_refl))).
Defined.

(** X8: any other grating makes the first cell raise ImportError after
    binding only [calibration_factor] and [grating]; the dictionary is
    left as it was, so that the correction cell then raises NameError in
    a kernel where it was unbound, and otherwise applies the
    calibrations of an earlier run. *)
Theorem unsupported_grating_raises
    (L : library) (s : state L) (density : Z) :
  groove_density L = Ok density ->
  density <> 150%Z -> density <> 600%Z ->
  let after :=
    {| calibration_factor := Some 131072%Z; grating := Some density;
       correction_factor_grating := correction_factor_grating s; fov := fov s;
       grating_calibrations := grating_calibrations s;
       corrections := corrections s |} in
  calibrations_cell L s = (Raise ImportError, after)
  /\ (grating_calibrations s = None ->
      correction_cell L after = (Raise NameError, after))
  /\ (forall stale,
        grating_calibrations s = Some stale ->
        corrections (snd (correction_cell L after))
        = corrections s ++ [map snd stale]).
Proof.
  intros Hd H150 H600. apply Z.eqb_neq in H150, H600.
  split; [|split].
  - run_cell. rewrite Hd. simpl. rewrite H150. simpl. rewrite H600. reflexivity.
  - intros Hnone. run_cell. rewrite Hnone. reflexivity.
  - intros stale Hstale. run_cell. rewrite Hstale. simpl.
    destruct (correct_grating_shift L (map snd stale)); reflexivity.
Qed.

Lemma unsupported_grating_raises_witness :
  groove_density (spectrometer 1200) = Ok 1200%Z
  /\ 1200%Z <> 150%Z /\ 1200%Z <> 600%Z
  /\ calibrations_cell (spectrometer 1200) (fresh_kernel (spectrometer 1200))
     = (Raise ImportError,
        {| calibration_factor := Some 131072%Z; grating := Some 1200%Z;
           correction_factor_grating := None; fov := None;
           grating_calibrations := None; corrections := [] |}).
Proof.
  split; [reflexivity|]. split; [discriminate|]. split; [discriminate|].
  exact (proj1
    (unsupported_grating_raises (spectrometer 1200) (fresh_kernel (spectrometer 1200))
       1200 eq_refl ltac:(discriminate) ltac:(discriminate))).
Defined.

(** X9: the first cell binds the dictionary all or nothing: if it ends
    normally the dictionary has exactly the three keys [cal_factor],
    [corr_factor_grating] and [field_of_view_um], in this order, with
    131072 under the first; if it raises (a metadata read fails, or the
    grating is not supported) the dictionary is the one it found; the
    cell itself never calls [correct_grating_shift]. *)
Theorem calibrations_all_or_nothing (L : library) (s : state L) :
  let r := calibrations_cell L s in
  corrections (snd r) = corrections s
  /\ match fst r with
     | Ok _ =>
         exists factor view,
           grating_calibrations (snd r)
           = Some [ ("cal_factor", inl 131072%Z);
                    ("corr_factor_grating", inr factor);
                    ("field_of_view_um", inr view) ]
     | Raise _ => grating_calibrations (snd r) = grating_calibrations s
     end.
Proof.
  run_cell.
  destruct (groove_density L) as [density|e]; simpl; [|auto].
  destruct (density =? 150)%Z; simpl.
  - destruct (field_of_view L) as [view|e]; simpl; eauto.
  - destruct (density =? 600)%Z; simpl; [|auto].
    destruct (field_of_view L) as [view|e]; simpl; eauto.
Qed.

End GratingFacts.

(** *** What the advanced fitting cell leaves in [g] *)

Module FittingEdge.
Import Fitting FittingFacts.

Section Facts.
Context (L : library).

Local Abbreviation component := (GaussianHF (float L)).

(** The loop over the peaks, with the components it leaves. *)
Lemma configure_loop_exact (peaks : list (peak (float L))) k :
  forall a (g : list component),
    (a + k <= length g)%nat -> (a + k <= length peaks)%nat ->
    exists g',
      for_each (seq a k) (configure_peak L peaks) g = (Ok tt, g')
      /\ length g' = length g
      /\ (forall j, (j < a \/ a + k <= j)%nat -> g' !! j = g !! j)
      /\ (forall j p c, (a <= j < a + k)%nat ->
            peaks !! j = Some p -> g !! j = Some c ->
            g' !! j = Some (configured L (position p) c)).
Proof.
  induction k as [|k IH]; intros a g Hg Hp; simpl.
  - exists g. repeat split; auto. intros; lia.
  - destruct (lookup_lt_is_Some_2 peaks a) as [p Hpa]; [lia|].
    destruct (lookup_lt_is_Some_2 g a) as [c Hga]; [lia|].
    rewrite (bind_ok _ _ _ _ _ (configure_peak_ok L _ _ _ _ _ Hpa Hga)).
    destruct (IH (S a) (<[a := configured L (position p) c]> g))
      as (g' & Hrun & Hlen & Hout & Hin).
    { rewrite length_insert. lia. }
    { lia. }
    exists g'. split; [exact Hrun|]. split; [now rewrite Hlen, length_insert|].
    split.
    + intros j Hj. rewrite Hout by lia. apply list_lookup_insert_ne. lia.
    + intros j p' c' Hj Hp' Hc'. destruct (decide (j = a)) as [->|Hne].
      * rewrite Hout by lia. rewrite list_lookup_insert_eq by lia.
        congruence.
      * apply Hin; [lia|assumption|].
        rewrite list_lookup_insert_ne by lia. assumption.
Qed.

(** The loop that switches components off, with the components it
    leaves. *)
Lemma deactivate_loop_exact k :
  forall a (g : list component),
    (a + k <= length g)%nat ->
    exists g',
      for_each (seq a k) (fun i => set_attr L i (set_active L false)) g = (Ok tt, g')
      /\ length g' = length g
      /\ (forall j, (j < a \/ a + k <= j)%nat -> g' !! j = g !! j)
      /\ (forall j c, (a <= j < a + k)%nat -> g !! j = Some c ->
            g' !! j = Some (set_active L false c)).
Proof.
  induction k as [|k IH]; intros a g Hg; simpl.
  - exists g. repeat split; auto. intros; lia.
  - destruct (lookup_lt_is_Some_2 g a) as [c Hga]; [lia|].
    rewrite (bind_ok _ _ _ _ _ (set_attr_ok L _ _ _ _ Hga)).
    destruct (IH (S a) (<[a := set_active L false c]> g))
      as (g' & Hrun & Hlen & Hout & Hin).
    { rewrite length_insert. lia. }
    exists g'. split; [exact Hrun|]. split; [now rewrite Hlen, length_insert|].
    split.
    + intros j Hj. rewrite Hout by lia. apply list_lookup_insert_ne. lia.
    + intros j c' Hj Hc'. destruct (decide (j = a)) as [->|Hne].
      * rewrite Hout by lia. rewrite list_lookup_insert_eq by lia. congruence.
      * apply Hin; [lia|]. rewrite list_lookup_insert_ne by lia. assumption.
Qed.

End Facts.

(** The list the cell leaves in [g], before the fit. *)
Lemma configure_components_values
    (L : library) (cl3 : Signal L) (g0 : list (GaussianHF (float L)))
    (table : list (peak (float L))) :
  (length table <= 10)%nat ->
  fst (getPeaks L (inav_indices L (deepcopy L cl3) cl3) g0) = Ok table ->
  snd (configure_components L cl3 g0)
  = map (fun p => configured L (position p) (fresh_component L)) table
    ++ replicate (10 - length table) (set_active L false (fresh_component L)).
Proof.
  intros Hbound Hpeaks.
  unfold configure_components.
  rewrite (bind_ok (modify (fun _ => [])) _ g0 tt [] eq_refl).
  rewrite (bind_ok _ _ _ _ _ (append_loop_run L)).
  rewrite (bind_ok _ _ _ _ _ (multidimensional_loop_run L)).
  rewrite (bind_ok _ _ _ _ _ (getPeaks_run L _ _ _ _ Hpeaks)).
  destruct (configure_loop_exact L table (length table) 0
              (replicate 10 (fresh_component L)))
    as (g1 & Hrun1 & Hlen1 & Hout1 & Hin1).
  { rewrite length_replicate. lia. }
  { lia. }
  rewrite length_replicate in Hlen1.
  unfold arange at 1. rewrite Nat.sub_0_r.
  rewrite (bind_ok _ _ _ _ _ Hrun1).
  assert (Hfinal : exists g2,
    (if (length table <? 10)%nat
     then for_each (arange (length table) 10)
            (fun i => set_attr L i (set_active L false))
     else ret tt) g1 = (Ok tt, g2)
    /\ length g2 = 10%nat
    /\ (forall j, (j < length table)%nat -> g2 !! j = g1 !! j)
    /\ (forall j c, (length table <= j < 10)%nat -> g1 !! j = Some c ->
          g2 !! j = Some (set_active L false c))).
  { destruct (length table <? 10)%nat eqn:Hlt.
    - apply Nat.ltb_lt in Hlt.
      destruct (deactivate_loop_exact L (10 - length table) (length table) g1)
        as (g2 & Hrun2 & Hlen2 & Hout2 & Hin2); [lia|].
      exists g2. split; [exact Hrun2|]. split; [lia|]. split.
      + intros j Hj. apply Hout2. lia.
      + intros j c Hj Hc. apply Hin2; [lia|assumption].
    - apply Nat.ltb_ge in Hlt. exists g1. split; [reflexivity|].
      split; [assumption|]. split; [reflexivity|]. intros j c Hj. lia. }
  destruct Hfinal as (g2 & Hrun2 & Hlen2 & Hlow & Hhigh).
  rewrite (bind_ok _ _ _ _ _ Hrun2). simpl.
  apply list_eq. intros j.
  destruct (decide (j < length table)%nat) as [Hj|Hj].
  - rewrite lookup_app_l by now rewrite length_map.
    destruct (lookup_lt_is_Some_2 table j Hj) as [p Hp].
    rewrite Hlow by assumption.
    rewrite (Hin1 j p (fresh_component L)); [|lia|assumption|].
    + change (map ?f table) with (f <$> table).
      rewrite list_lookup_fmap, Hp. reflexivity.
    + apply lookup_replicate_2. lia.
  - rewrite lookup_app_r by (rewrite length_map; lia). rewrite length_map.
    destruct (decide (j < 10)%nat) as [Hj10|Hj10].
    + rewrite (Hhigh j (fresh_component L)); [|lia|].
      * rewrite lookup_replicate_2 by lia. reflexivity.
      * rewrite Hout1 by lia. apply lookup_replicate_2. lia.
    + rewrite (lookup_ge_None_2 g2) by lia.
      symmetry. apply lookup_ge_None_2. rewrite length_replicate. lia.
Qed.

(** A component as it stands when the peak finder is called: as the
    library created it, with the multidimensional flag switched on only
    when the model has at least two navigation positions. *)
Lemma fresh_component_fields (L : library) :
  let new := new_GaussianHF L in
  fresh_component L
  = {| centre := centre new; fwhm := fwhm new; height := height new;
       active := active new;
       active_is_multidimensional :=
         active_is_multidimensional new || (2 <=? navigation_size L)%Z |}.
Proof.
  cbv zeta. unfold fresh_component, set_active_is_multidimensional.
  destruct (new_GaussianHF L) as [c w h a [|]]; cbn.
  - reflexivity.
  - destruct (Z.ltb_spec (navigation_size L) 2) as [Hlt|Hge]; cbn.
    + destruct (Z.leb_spec 2 (navigation_size L)); [lia|reflexivity].
    + destruct (Z.leb_spec 2 (navigation_size L)); [reflexivity|lia].
Qed.

(** X10: when the peak finder returns a table of at most ten rows, the
    cell leaves in [g], before the fit: one component per peak, in the
    order of the table, with centre at the peak position bounded to
    three below and three above it, width 5 bounded to 1..10, height 20
    bounded below by 1, every bounded flag set and [active] as the
    library created it; followed by components as the library created
    them, switched off, up to ten in all.  The multidimensional flag of
    all ten is as the library created it when the model has fewer than
    two navigation positions (a single spectrum, the notebook's case),
    and is switched on otherwise. *)
Theorem configured_components
    (L : library) (cl3 : Signal L) (g0 : list (GaussianHF (float L)))
    (table : list (peak (float L))) :
  (length table <= 10)%nat ->
  fst (getPeaks L (inav_indices L (deepcopy L cl3) cl3) g0) = Ok table ->
  let new := new_GaussianHF L in
  let flag :=
    if (navigation_size L <? 2)%Z then active_is_multidimensional new else true in
  snd (configure_components L cl3 g0)
  = map (fun p =>
           {| centre := {| value := position p;
                           bmin := Some (fsub L (position p) (of_int L 3));
                           bmax := Some (fadd L (position p) (of_int L 3));
                           bounded := true |};
              fwhm := {| value := of_int L 5;
                         bmin := Some (of_int L 1);
                         bmax := Some (of_int L 10);
                         bounded := true |};
              height := {| value := of_int L 20;
                           bmin := Some (of_int L 1);
                           bmax := bmax (height new);
                           bounded := true |};
              active := active new;
              active_is_multidimensional := flag |}) table
    ++ replicate (10 - length table)
         {| centre := centre new; fwhm := fwhm new; height := height new;
            active := false; active_is_multidimensional := flag |}.
Proof.
  intros Hbound Hpeaks new flag.
  rewrite (configure_components_values L cl3 g0 table Hbound Hpeaks).
  rewrite (fresh_component_fields L). cbv zeta. fold new.
  assert (Hflag : active_is_multidimensional new || (2 <=? navigation_size L)%Z
                  = flag).
  { unfold flag.
    destruct (Z.ltb_spec (navigation_size L) 2), (Z.leb_spec 2 (navigation_size L));
      try lia; destruct (active_is_multidimensional new); reflexivity. }
  rewrite Hflag. f_equal.
Qed.

Lemma configured_components_witness :
  (3 <= 10)%nat
  /\ fst (getPeaks three_peaks
            (inav_indices three_peaks (deepcopy three_peaks [1; 7; 2]%Z) [1; 7; 2]%Z) [])
     = Ok [peak_at 580; peak_at 612; peak_at 655]
  /\ map (fun c => (value (centre c), bmin (centre c), bmax (centre c), active c,
                    active_is_multidimensional c))
         (snd (configure_components three_peaks [1; 7; 2]%Z []))
     = [ (580, Some 577, Some 583, true, false);
         (612, Some 609, Some 615, true, false);
         (655, Some 652, Some 658, true, false);
         (0, None, None, false, false); (0, None, None, false, false);
         (0, None, None, false, false); (0, None, None, false, false);
         (0, None, None, false, false); (0, None, None, false, false);
         (0, None, None, false, false) ]%Z.
Proof.
  assert (H1 : (length [peak_at 580; peak_at 612; peak_at 655] <= 10)%nat)
    by (simpl; lia).
  assert (H3 : fst (getPeaks three_peaks
                      (inav_indices three_peaks (deepcopy three_peaks [1; 7; 2]%Z)
                         [1; 7; 2]%Z) [])
               = Ok [peak_at 580; peak_at 612; peak_at 655]) by reflexivity.
  split; [lia|]. split; [exact H3|].
  rewrite (configured_components three_peaks [1; 7; 2]%Z [] _ H1 H3).
  reflexivity.
Defined.

(** X11: when the peak finder returns more than ten peaks, the cell
    raises IndexError at [g[10]] and never reaches the fit; by then the
    ten components have been configured for the first ten peaks of the
    table, and none has been switched off. *)
Theorem overflow_leaves_ten_configured
    (L : library) (cl3 : Signal L) (g0 : list (GaussianHF (float L)))
    (table : list (peak (float L))) :
  fst (getPeaks L (inav_indices L (deepcopy L cl3) cl3) g0) = Ok table ->
  (10 < length table)%nat ->
  advanced_fitting_cell L cl3 g0
  = (Raise IndexError,
     map (fun p => configured L (position p) (fresh_component L)) (take 10 table)).
Proof.
  intros Hpeaks Hlong.
  unfold advanced_fitting_cell, configure_components.
  unfold bind at 1.
  rewrite (bind_ok (modify (fun _ => [])) _ g0 tt [] eq_refl).
  rewrite (bind_ok _ _ _ _ _ (append_loop_run L)).
  rewrite (bind_ok _ _ _ _ _ (multidimensional_loop_run L)).
  rewrite (bind_ok _ _ _ _ _ (getPeaks_run L _ _ _ _ Hpeaks)).
  destruct (configure_loop_exact L table 10 0 (replicate 10 (fresh_component L)))
    as (g1 & Hrun1 & Hlen1 & Hout1 & Hin1).
  { rewrite length_replicate. lia. }
  { lia. }
  rewrite length_replicate in Hlen1.
  unfold arange at 1. rewrite Nat.sub_0_r.
  replace (length table) with (10 + S (length table - 11))%nat at 1 by lia.
  rewrite seq_app. unfold bind at 1. rewrite for_each_app.
  rewrite (bind_ok _ _ _ _ _ Hrun1). simpl.
  destruct (lookup_lt_is_Some_2 table 10) as [p Hp]; [lia|].
  unfold configure_peak. unfold bind at 1 2 3.
  rewrite (peak_position_ok L _ _ _ _ Hp).
  rewrite (set_attr_out_of_range L) by lia.
  f_equal. apply list_eq. intros j.
  change (map ?f (take 10 table)) with (f <$> take 10 table).
  rewrite list_lookup_fmap.
  destruct (decide (j < 10)%nat) as [Hj|Hj].
  - destruct (lookup_lt_is_Some_2 table j) as [q Hq]; [lia|].
    rewrite lookup_take_lt by assumption. rewrite Hq. simpl.
    apply (Hin1 j q (fresh_component L)); [lia|assumption|].
    apply lookup_replicate_2. lia.
  - rewrite lookup_take_ge by lia. simpl. apply lookup_ge_None_2. lia.
Qed.

Lemma overflow_leaves_ten_configured_witness :
  fst (getPeaks eleven_peaks
         (inav_indices eleven_peaks (deepcopy eleven_peaks [1; 7; 2]%Z) [1; 7; 2]%Z) [])
  = Ok (map (fun i => peak_at (500 + 10 * Z.of_nat i)%Z) (seq 0 11))
  /\ (10 < 11)%nat
  /\ fst (advanced_fitting_cell eleven_peaks [1; 7; 2]%Z []) = Raise IndexError
  /\ map (fun c => (value (centre c), active c))
         (snd (advanced_fitting_cell eleven_peaks [1; 7; 2]%Z []))
     = [ (500, true); (510, true); (520, true); (530, true); (540, true);
         (550, true); (560, true); (570, true); (580, true); (590, true) ]%Z.
Proof.
  split; [reflexivity|]. split; [lia|].
  rewrite (overflow_leaves_ten_configured eleven_peaks [1; 7; 2]%Z [] _
             eq_refl ltac:(simpl; lia)).
  split; reflexivity.
Defined.



End FittingEdge.

(** *** The advanced fitting cell on shared objects *)

Module FittingHeapFacts.
Import Fitting FittingFacts.
Import FittingHeap.

Section Facts.
Context (L : library).

Local Abbreviation component := (GaussianHF (float L)).

Lemma simulates_ret {A} older model (a : A) :
  simulates (L := L) older model (ret a) (ret a).
Proof. intros objects. reflexivity. Qed.

Lemma simulates_lift {A} older model (r : outcome A) :
  simulates (L := L) older model (lift r) (lift r).
Proof. intros objects. reflexivity. Qed.

Lemma simulates_bind {A B} older model
    (mv : M (list component) A) (mh : M (state L) A)
    (kv : A -> M (list component) B) (kh : A -> M (state L) B) :
  simulates older model mv mh ->
  (forall a, simulates older model (kv a) (kh a)) ->
  simulates older model (bind mv kv) (bind mh kh).
Proof.
  intros Hm Hk objects. unfold bind. rewrite Hm.
  destruct (mv objects) as [[a|e] objects']; simpl; [apply Hk|reflexivity].
Qed.

Lemma simulates_for_each {A} older model (xs : list A)
    (bv : A -> M (list component) unit) (bh : A -> M (state L) unit) :
  (forall x, simulates older model (bv x) (bh x)) ->
  simulates older model (for_each xs bv) (for_each xs bh).
Proof.
  intros Hb. induction xs as [|x xs IH]; simpl.
  - apply simulates_ret.
  - apply simulates_bind; [apply Hb|intros _; exact IH].
Qed.

Lemma simulates_subscript {A} older model (l : list A) i :
  simulates (L := L) older model (subscript l i) (subscript l i).
Proof. intros objects. unfold subscript. destruct (l !! i); reflexivity. Qed.

(** An assignment through [g[i]] changes the [i]-th object of [g] and
    no other object of the store. *)
Lemma simulates_set_attr older model i (f : component -> component) :
  simulates older model (Fitting.set_attr L i f) (set_attr L i f).
Proof.
  intros objects.
  unfold set_attr, Fitting.set_attr, deref, subscript, bind, get, modify, ret, raise.
  simpl.
  destruct (objects !! i) as [c|] eqn:Hi.
  - pose proof (lookup_lt_Some _ _ _ Hi) as Hlt.
    rewrite lookup_seq_lt by assumption. simpl.
    rewrite lookup_app_r by lia.
    replace (length older + i - length older)%nat with i by lia.
    rewrite Hi. simpl. unfold embed. simpl.
    rewrite length_insert. f_equal. f_equal.
    rewrite insert_app_r_alt by lia.
    replace (length older + i - length older)%nat with i by lia. reflexivity.
  - apply lookup_ge_None_1 in Hi.
    rewrite lookup_seq_ge by assumption. reflexivity.
Qed.

(** Creating a component and appending it to [g]. *)
Lemma simulates_append older model :
  simulates older model
    (modify (fun objects => objects ++ [new_GaussianHF L]))
    (let* a := new_component L in g_append L a).
Proof.
  intros objects. unfold new_component, g_append, bind, modify, embed. simpl.
  f_equal. rewrite <- app_assoc. f_equal.
  rewrite !length_app. simpl. rewrite Nat.add_1_r, seq_S. reflexivity.
Qed.

Lemma simulates_getPeaks older model (S2 : Signal L) :
  simulates older model (Fitting.getPeaks L S2) (getPeaks L S2).
Proof.
  intros objects. unfold getPeaks, Fitting.getPeaks, lift, subscript, bind, ret, raise.
  destruct (_ !! 0%nat); reflexivity.
Qed.

Lemma simulates_configure_peak older model peaks i :
  simulates older model (Fitting.configure_peak L peaks i) (configure_peak L peaks i).
Proof.
  unfold configure_peak, Fitting.configure_peak, peak_position, Fitting.peak_position.
  repeat first
    [ apply simulates_set_attr
    | apply simulates_subscript
    | apply simulates_ret
    | apply simulates_bind; [|intros ?] ].
Qed.

(** Assignments through [g] keep the number of objects. *)
Lemma keeps_length_ret {A} (a : A) : keeps_length (L := L) (ret a).
Proof. intros objects. reflexivity. Qed.

Lemma keeps_length_bind {A B}
    (mv : M (list component) A) (kv : A -> M (list component) B) :
  keeps_length mv -> (forall a, keeps_length (kv a)) -> keeps_length (bind mv kv).
Proof.
  intros Hm Hk objects. unfold bind. specialize (Hm objects).
  destruct (mv objects) as [[a|e] objects']; cbn [snd] in *.
  - rewrite Hk. exact Hm.
  - exact Hm.
Qed.

Lemma keeps_length_for_each {A} (xs : list A) (bv : A -> M (list component) unit) :
  (forall x, keeps_length (bv x)) -> keeps_length (for_each xs bv).
Proof.
  intros Hb. induction xs as [|x xs IH]; simpl.
  - apply keeps_length_ret.
  - apply keeps_length_bind; [apply Hb|intros _; exact IH].
Qed.

Lemma keeps_length_subscript {A} (l : list A) i :
  keeps_length (L := L) (subscript l i).
Proof. intros objects. unfold subscript. destruct (l !! i); reflexivity. Qed.

Lemma keeps_length_set_attr i (f : component -> component) :
  keeps_length (Fitting.set_attr L i f).
Proof.
  intros objects.
  unfold Fitting.set_attr, subscript, bind, get, modify, ret, raise. simpl.
  destruct (objects !! i); simpl; [apply length_insert|reflexivity].
Qed.

Lemma keeps_length_getPeaks (S2 : Signal L) :
  keeps_length (Fitting.getPeaks L S2).
Proof.
  intros objects. unfold Fitting.getPeaks, subscript, bind, ret, raise.
  destruct (_ !! 0%nat); reflexivity.
Qed.

Lemma keeps_length_configure_peak peaks i :
  keeps_length (Fitting.configure_peak L peaks i).
Proof.
  unfold Fitting.configure_peak, Fitting.peak_position.
  repeat first
    [ apply keeps_length_set_attr
    | apply keeps_length_subscript
    | apply keeps_length_ret
    | apply keeps_length_bind; [|intros ?] ].
Qed.

(** The cell on values after its first loop, and the same on the store
    after [m.extend(g)]. *)
Lemma tail_simulates older model (cl3 : Signal L) :
  simulates older model
    (for_each (arange 0 10)
       (fun i => Fitting.set_attr L i (set_active_is_multidimensional L true)) >>
     let* peaks := Fitting.getPeaks L (inav_indices L (deepcopy L cl3) cl3) in
     for_each (arange 0 (length peaks)) (Fitting.configure_peak L peaks) >>
     (if (length peaks <? 10)%nat
      then for_each (arange (length peaks) 10)
             (fun i => Fitting.set_attr L i (set_active L false))
      else ret tt) >>
     ret peaks)
    (for_each (arange 0 10)
       (fun i => set_attr L i (set_active_is_multidimensional L true)) >>
     let* peaks := getPeaks L (inav_indices L (deepcopy L cl3) cl3) in
     for_each (arange 0 (length peaks)) (configure_peak L peaks) >>
     (if (length peaks <? 10)%nat
      then for_each (arange (length peaks) 10)
             (fun i => set_attr L i (set_active L false))
      else ret tt) >>
     ret peaks).
Proof.
  apply simulates_bind;
    [apply simulates_for_each; intros i; apply simulates_set_attr|intros _].
  apply simulates_bind; [apply simulates_getPeaks|intros peaks].
  apply simulates_bind;
    [apply simulates_for_each; intros i; apply simulates_configure_peak|intros _].
  apply simulates_bind; [|intros _; apply simulates_ret].
  destruct (length peaks <? 10)%nat; [|apply simulates_ret].
  apply simulates_for_each; intros i; apply simulates_set_attr.
Qed.

Lemma tail_keeps_length (cl3 : Signal L) :
  keeps_length
    (for_each (arange 0 10)
       (fun i => Fitting.set_attr L i (set_active_is_multidimensional L true)) >>
     let* peaks := Fitting.getPeaks L (inav_indices L (deepcopy L cl3) cl3) in
     for_each (arange 0 (length peaks)) (Fitting.configure_peak L peaks) >>
     (if (length peaks <? 10)%nat
      then for_each (arange (length peaks) 10)
             (fun i => Fitting.set_attr L i (set_active L false))
      else ret tt) >>
     ret peaks).
Proof.
  apply keeps_length_bind;
    [apply keeps_length_for_each; intros i; apply keeps_length_set_attr|intros _].
  apply keeps_length_bind; [apply keeps_length_getPeaks|intros peaks].
  apply keeps_length_bind;
    [apply keeps_length_for_each; intros i; apply keeps_length_configure_peak
    |intros _].
  apply keeps_length_bind; [|intros _; apply keeps_length_ret].
  destruct (length peaks <? 10)%nat; [|apply keeps_length_ret].
  apply keeps_length_for_each; intros i; apply keeps_length_set_attr.
Qed.

(** The first statements on the store: [g] is emptied, ten new objects
    are created and appended to it, and the model takes their addresses. *)
Lemma g_reset_run (s : state L) :
  g_reset L s = (Ok tt, embed (heap s) (m s) []).
Proof. unfold g_reset, modify, embed. simpl. rewrite app_nil_r. reflexivity. Qed.

Lemma append_loop_on_store older model :
  for_each (arange 0 10) (fun _ => let* a := new_component L in g_append L a)
    (embed older model [])
  = (Ok tt, embed older model (replicate 10 (new_GaussianHF L))).
Proof.
  pose proof (simulates_for_each older model (arange 0 10)
                (fun _ => modify (fun o => o ++ [new_GaussianHF L]))
                (fun _ => bind (new_component L) (fun a => g_append L a))
                (fun _ => simulates_append older model) []) as H.
  rewrite (append_loop_run L) in H. exact H.
Qed.

Lemma m_extend_run older model (objects : list component) :
  m_extend L (embed older model objects)
  = (Ok tt, embed older (model ++ seq (length older) (length objects)) objects).
Proof. reflexivity. Qed.

(** The cell on values after its first loop. *)
Lemma cell_on_values (cl3 : Signal L) (g0 : list component) :
  Fitting.configure_components L cl3 g0
  = (for_each (arange 0 10)
       (fun i => Fitting.set_attr L i (set_active_is_multidimensional L true)) >>
     let* peaks := Fitting.getPeaks L (inav_indices L (deepcopy L cl3) cl3) in
     for_each (arange 0 (length peaks)) (Fitting.configure_peak L peaks) >>
     (if (length peaks <? 10)%nat
      then for_each (arange (length peaks) 10)
             (fun i => Fitting.set_attr L i (set_active L false))
      else ret tt) >>
     ret peaks) (replicate 10 (new_GaussianHF L)).
Proof.
  unfold Fitting.configure_components.
  rewrite (bind_ok (modify (fun _ => [])) _ g0 tt [] eq_refl).
  rewrite (bind_ok _ _ _ _ _ (append_loop_run L)). reflexivity.
Qed.

(** The cell on the store after [m.extend(g)]. *)
Lemma cell_on_store (cl3 : Signal L) (s : state L) :
  configure_components L cl3 s
  = (for_each (arange 0 10)
       (fun i => set_attr L i (set_active_is_multidimensional L true)) >>
     let* peaks := getPeaks L (inav_indices L (deepcopy L cl3) cl3) in
     for_each (arange 0 (length peaks)) (configure_peak L peaks) >>
     (if (length peaks <? 10)%nat
      then for_each (arange (length peaks) 10)
             (fun i => set_attr L i (set_active L false))
      else ret tt) >>
     ret peaks)
      (embed (heap s) (m s ++ seq (length (heap s)) 10)
         (replicate 10 (new_GaussianHF L))).
Proof.
  unfold configure_components.
  rewrite (bind_ok _ _ _ _ _ (g_reset_run s)).
  rewrite (bind_ok _ _ _ _ _ (append_loop_on_store (heap s) (m s))).
  rewrite (bind_ok _ _ _ _ _ (m_extend_run (heap s) (m s) _)).
  rewrite length_replicate. reflexivity.
Qed.

(** What a simulated computation leaves on the store. *)
Lemma simulated_run {A} older model
    (on_values : M (list component) A) (on_store : M (state L) A) objects :
  simulates older model on_values on_store ->
  keeps_length on_values ->
  on_store (embed older model objects)
  = (fst (on_values objects),
     {| heap := older ++ snd (on_values objects);
        g := seq (length older) (length objects);
        m := model |}).
Proof.
  intros Hsim Hlen. rewrite Hsim. unfold embed. rewrite Hlen. reflexivity.
Qed.

(** Reading the store at the addresses of the objects of [g]. *)
Lemma read_through_addresses (older objects : list component) :
  map (fun a => (older ++ objects) !! a) (seq (length older) (length objects))
  = map Some objects.
Proof.
  apply list_eq. intros i.
  change (map ?f ?l) with (f <$> l). rewrite !list_lookup_fmap.
  destruct (decide (i < length objects)%nat) as [Hi|Hi].
  - rewrite lookup_seq_lt by assumption. simpl.
    rewrite lookup_app_r by lia.
    replace (length older + i - length older)%nat with i by lia.
    destruct (lookup_lt_is_Some_2 objects i Hi) as [c Hc]. rewrite Hc.
    reflexivity.
  - rewrite lookup_seq_ge by lia. rewrite (lookup_ge_None_2 objects) by lia.
    reflexivity.
Qed.

End Facts.

(** The cell on the store against the cell on values. *)
Lemma shared_objects_run
    (L : library) (cl3 : Signal L) (s : state L)
    (g0 : list (GaussianHF (float L))) :
  let on_values := Fitting.configure_components L cl3 g0 in
  let r := configure_components L cl3 s in
  fst r = fst on_values
  /\ heap (snd r) = heap s ++ snd on_values
  /\ length (snd on_values) = 10%nat
  /\ g (snd r) = seq (length (heap s)) 10
  /\ m (snd r) = m s ++ g (snd r).
Proof.
  cbv zeta.
  rewrite (cell_on_values L cl3 g0), (cell_on_store L cl3 s).
  rewrite (simulated_run L (heap s) _ _ _ (replicate 10 (new_GaussianHF L))
             (tail_simulates L (heap s) _ cl3) (tail_keeps_length L cl3)).
  pose proof (tail_keeps_length L cl3 (replicate 10 (new_GaussianHF L))) as Hten.
  rewrite length_replicate in Hten.
  cbn [fst snd heap g m].
  split; [reflexivity|]. split; [reflexivity|]. split; [exact Hten|].
  split; reflexivity.
Qed.

(** X13: on the shared store the cell, up to the fit, has the outcome it
    has on component values, and for any store and model it starts from:
    the objects that were in the store before are all left unchanged; ten
    new objects are added, which end as the values of Part II; [g] holds
    the addresses of these ten, in order; and the model holds, after what
    it held before, the same ten addresses, so that the components it
    gained, read through the store, are the ten objects with every
    assignment made through [g] after [m.extend(g)]. *)
Theorem cell_on_shared_objects
    (L : library) (cl3 : Signal L) (s : state L)
    (g0 : list (GaussianHF (float L))) :
  let on_values := Fitting.configure_components L cl3 g0 in
  let r := configure_components L cl3 s in
  fst r = fst on_values
  /\ heap (snd r) = heap s ++ snd on_values
  /\ length (snd on_values) = 10%nat
  /\ g (snd r) = seq (length (heap s)) 10
  /\ m (snd r) = m s ++ g (snd r)
  /\ drop (length (m s)) (model_components (snd r)) = map Some (snd on_values).
Proof.
  cbv zeta.
  destruct (shared_objects_run L cl3 s g0) as (Hout & Hheap & Hlen & Hg & Hm).
  cbv zeta in *.
  split; [exact Hout|]. split; [exact Hheap|]. split; [exact Hlen|].
  split; [exact Hg|]. split; [exact Hm|].
  unfold model_components. rewrite Hm, Hg, Hheap, map_app.
  rewrite drop_app_length' by now rewrite length_map.
  rewrite <- Hlen at 1. apply read_through_addresses.
Qed.

(** The fit on the store: it changes objects in place and neither
    creates an object nor changes what [g] and [m] hold. *)
Lemma store_all_length {L : library} (addrs : list nat)
    (values h : list (GaussianHF (float L))) :
  length (store_all L addrs values h) = length h.
Proof.
  unfold store_all. revert h. induction (zip addrs values) as [|av l IH];
    intros h; simpl; [reflexivity|].
  rewrite IH. apply length_insert.
Qed.

Lemma deref_run {L : library} (a : nat) (s : state L) :
  deref L a s
  = (match heap s !! a with
     | Some c => Ok c
     | None => Raise (OtherError "dangling reference")
     end, s).
Proof.
  unfold deref, bind, get, ret, raise. destruct (heap s !! a); reflexivity.
Qed.

Lemma deref_all_state {L : library} (addrs : list nat) (s : state L) :
  snd (deref_all L addrs s) = s.
Proof.
  induction addrs as [|a rest IH]; simpl; [reflexivity|].
  unfold bind at 1. rewrite deref_run.
  destruct (heap s !! a) as [c|]; [|reflexivity].
  unfold bind, ret.
  destruct (deref_all L rest s) as [[cs|e] s'] eqn:E; simpl in *; congruence.
Qed.

Lemma deref_all_ok {L : library} (addrs : list nat) (s : state L) :
  Forall (fun a => (a < length (heap s))%nat) addrs ->
  exists cs,
    deref_all L addrs s = (Ok cs, s)
    /\ map Some cs = map (fun a => heap s !! a) addrs.
Proof.
  induction 1 as [|a rest Ha _ IH]; simpl.
  - exists []. split; reflexivity.
  - destruct IH as (cs & Hrun & Hcs).
    destruct (lookup_lt_is_Some_2 (heap s) a Ha) as [c Hc].
    exists (c :: cs). unfold bind at 1. rewrite deref_run, Hc.
    unfold bind, ret. rewrite Hrun. simpl. rewrite Hcs. split; reflexivity.
Qed.

Lemma call_fit_ok {L : library} (s : state L) (handed : list (GaussianHF (float L))) :
  deref_all L (m s) s = (Ok handed, s) ->
  call_fit L s
  = (fst (fit L handed),
     {| heap := store_all L (m s) (snd (fit L handed)) (heap s);
        g := g s; m := m s |}).
Proof.
  intros H. unfold call_fit, bind, get, modify, lift. simpl. rewrite H.
  reflexivity.
Qed.

Lemma call_fit_shape {L : library} (s : state L) :
  let s' := snd (call_fit L s) in
  length (heap s') = length (heap s) /\ g s' = g s /\ m s' = m s.
Proof.
  cbv zeta. pose proof (deref_all_state (m s) s) as Hs.
  destruct (deref_all L (m s) s) as [[cs|e] s0] eqn:E; simpl in Hs; subst s0.
  - rewrite (call_fit_ok s cs E). simpl. rewrite store_all_length. auto.
  - unfold call_fit, bind, get. simpl. rewrite E. auto.
Qed.

(** The state the whole cell ends in is the state its fit ends in. *)
Lemma cell_after_fit {L : library} (cl3 : Signal L) (s : state L) table :
  fst (configure_components L cl3 s) = Ok table ->
  snd (advanced_fitting_cell L cl3 s)
  = snd (call_fit L (snd (configure_components L cl3 s))).
Proof.
  intros H. unfold advanced_fitting_cell, bind at 1.
  destruct (configure_components L cl3 s) as [[t|e] s1]; simpl in H;
    [|discriminate H].
  cbn [snd]. unfold bind, lift, ret.
  destruct (call_fit L s1) as [[[]|e] s2]; [|reflexivity].
  destruct (plot L) as [[]|e]; reflexivity.
Qed.

Lemma cell_without_fit {L : library} (cl3 : Signal L) (s : state L) e :
  fst (configure_components L cl3 s) = Raise e ->
  snd (advanced_fitting_cell L cl3 s) = snd (configure_components L cl3 s).
Proof.
  intros H. unfold advanced_fitting_cell, bind at 1.
  destruct (configure_components L cl3 s) as [[t|e'] s1]; simpl in H;
    [discriminate H|reflexivity].
Qed.

(** Every run of the whole cell, whatever it raises, creates ten objects,
    makes [g] the list of their addresses and appends these to the
    model. *)
Lemma cell_run_shape {L : library} (cl3 : Signal L) (s : state L) :
  let s' := snd (advanced_fitting_cell L cl3 s) in
  length (heap s') = (length (heap s) + 10)%nat
  /\ g s' = seq (length (heap s)) 10
  /\ m s' = m s ++ seq (length (heap s)) 10.
Proof.
  cbv zeta.
  destruct (shared_objects_run L cl3 s []) as (_ & Hheap & Hlen & Hg & Hm).
  cbv zeta in *. rewrite Hg in Hm.
  assert (Hsetup : length (heap (snd (configure_components L cl3 s)))
                   = (length (heap s) + 10)%nat)
    by (rewrite Hheap, length_app, Hlen; reflexivity).
  destruct (fst (configure_components L cl3 s)) as [table|e] eqn:Hout.
  - rewrite (cell_after_fit cl3 s table Hout).
    destruct (call_fit_shape (snd (configure_components L cl3 s)))
      as (Hh & Hg' & Hm').
    rewrite Hh, Hg', Hm'. auto.
  - rewrite (cell_without_fit cl3 s e Hout). auto.
Qed.

(** X14: the cell is not idempotent on the model.  Every run of the
    whole cell, whatever it raises, creates ten objects and appends their
    addresses to the model, so that after two runs the model holds twenty
    new components and [g] refers to the second ten only.  When the
    second run reaches [m.fit], the fit is handed every component of the
    model: those it held after the first run, the ten of the first run
    among them, as the first run left them, followed by the ten new ones
    as the second run configured them; the store the second run ends
    with is what this fit makes of them. *)
Theorem second_run_adds_ten_more
    (L : library) (cl3 cl3' : Signal L) (s : state L)
    (g0 : list (GaussianHF (float L))) :
  Forall (fun a => (a < length (heap s))%nat) (m s) ->
  let once := snd (advanced_fitting_cell L cl3 s) in
  let twice := snd (advanced_fitting_cell L cl3' once) in
  length (heap twice) = (length (heap s) + 20)%nat
  /\ m once = m s ++ seq (length (heap s)) 10
  /\ m twice = m s ++ seq (length (heap s)) 20
  /\ g twice = seq (length (heap s) + 10) 10
  /\ forall table,
       fst (configure_components L cl3' once) = Ok table ->
       let before_fit := snd (configure_components L cl3' once) in
       exists handed,
         map Some handed
         = model_components once
           ++ map Some (snd (Fitting.configure_components L cl3' g0))
         /\ heap twice
            = store_all L (m twice) (snd (fit L handed)) (heap before_fit).
Proof.
  intros Hwf. cbv zeta.
  destruct (cell_run_shape cl3 s) as (Hh1 & Hg1 & Hm1).
  destruct (cell_run_shape cl3' (snd (advanced_fitting_cell L cl3 s)))
    as (Hh2 & Hg2 & Hm2).
  cbv zeta in *.
  set (once := snd (advanced_fitting_cell L cl3 s)) in *.
  set (twice := snd (advanced_fitting_cell L cl3' once)) in *.
  assert (Hm : m twice = m s ++ seq (length (heap s)) 20).
  { rewrite Hm2, Hm1, Hh1, <- app_assoc. f_equal.
    change 20%nat with (10 + 10)%nat. now rewrite seq_app. }
  split; [lia|]. split; [exact Hm1|]. split; [exact Hm|].
  split; [now rewrite Hg2, Hh1|].
  intros table Hout.
  destruct (shared_objects_run L cl3' once g0)
    as (_ & Hheap & Hlen & Hg & Hmb).
  cbv zeta in *. rewrite Hg in Hmb.
  set (before_fit := snd (configure_components L cl3' once)) in *.
  set (values := snd (Fitting.configure_components L cl3' g0)) in *.
  assert (Hwf1 : Forall (fun a => (a < length (heap once))%nat) (m once)).
  { rewrite Hm1, Hh1. apply Forall_app. split.
    - eapply Forall_impl; [exact Hwf|]. intros a Ha. cbv beta in Ha. lia.
    - apply Forall_forall. intros a Ha. apply elem_of_seq in Ha. lia. }
  assert (Hwfb : Forall (fun a => (a < length (heap before_fit))%nat) (m before_fit)).
  { rewrite Hmb, Hheap, length_app, Hlen. apply Forall_app. split.
    - eapply Forall_impl; [exact Hwf1|]. intros a Ha. cbv beta in Ha. lia.
    - apply Forall_forall. intros a Ha. apply elem_of_seq in Ha. lia. }
  destruct (deref_all_ok (m before_fit) before_fit Hwfb) as (handed & Hrun & Hhanded).
  exists handed. split.
  - rewrite Hhanded, Hmb, map_app, Hheap. unfold model_components. f_equal.
    + apply map_ext_in. intros a Ha.
      apply lookup_app_l.
      rewrite Forall_forall in Hwf1. apply Hwf1, list_elem_of_In, Ha.
    + rewrite <- Hlen. apply read_through_addresses.
  - unfold twice at 1. rewrite (cell_after_fit cl3' once table Hout).
    fold before_fit. rewrite (call_fit_ok before_fit handed Hrun). cbn [snd heap].
    rewrite Hmb, Hm2. reflexivity.
Qed.

(** Two runs with the library of [three_peaks], whose fit moves every
    centre by one: the three active components of the first run have
    been fitted twice, those of the second run once. *)
Lemma second_run_adds_ten_more_witness :
  Forall (fun a => (a < length (heap (no_components three_peaks)))%nat)
    (m (no_components three_peaks))
  /\ (let once := snd (advanced_fitting_cell three_peaks [1; 7; 2]%Z
                         (no_components three_peaks)) in
      let twice := snd (advanced_fitting_cell three_peaks [1; 7; 2]%Z once) in
      length (heap twice) = 20%nat
      /\ m once = seq 0 10
      /\ m twice = seq 0 20
      /\ g twice = seq 10 10
      /\ map (fun c => value (centre c)) (take 3 (heap twice)) = [582; 614; 657]%Z
      /\ map (fun c => value (centre c)) (take 3 (drop 10 (heap twice)))
         = [581; 613; 656]%Z).
Proof.
  assert (Hwf : Forall (fun a => (a < length (heap (no_components three_peaks)))%nat)
                  (m (no_components three_peaks))) by constructor.
  split; [exact Hwf|].
  destruct (second_run_adds_ten_more three_peaks [1; 7; 2]%Z [1; 7; 2]%Z
              (no_components three_peaks) [] Hwf) as (H1 & H2 & H3 & H4 & _).
  cbv zeta in *.
  split; [exact H1|]. split; [exact H2|]. split; [exact H3|]. split; [exact H4|].
  split; vm_compute; reflexivity.
Defined.

End FittingHeapFacts.

(** *** Names bound before they are read *)

Module ScopeFacts.
Import Syntax Scope.

(** X15: in each of the six notebooks, run from a fresh kernel with the
    cells in file order, every name that a statement reads is bound on
    every path that reaches the statement: by an earlier assignment,
    import or def, as a loop variable or parameter, or as a builtin.
    The cells do depend on each other: without the cell that defines
    [getPeaks] the advanced fitting cell reads an unbound name, and
    without the background-path or the calibrations cell of
    AttolightSEM_sur_to_hspy the cell after it does. *)
Theorem names_are_bound_before_use :
  (forall nb, In nb notebooks -> unbound_names nb = [])
  /\ unbound_names (without_cell 90 workshop_intro_2023) = ["getPeaks"]
  /\ unbound_names (without_cell 12 AttolightSEM_sur_to_hspy) = ["bkg_path"]
  /\ unbound_names (without_cell 15 AttolightSEM_sur_to_hspy)
     = ["grating_calibrations"].
Proof.
  split.
  - assert (H : forallb (fun nb => bool_decide (unbound_names nb = [])) notebooks
                = true) by (vm_compute; reflexivity).
    rewrite forallb_forall in H. intros nb Hnb.
    exact (bool_decide_eq_true_1 _ (H nb Hnb)).
  - repeat split; vm_compute; reflexivity.
Qed.

(** X16: the notebooks import seven modules and no other: [lumispy],
    [hyperspy.api], [numpy], [matplotlib.pyplot], [os], [glob] and
    [warnings]; every notebook imports [lumispy], and four of the six
    (all but AttolightSEM_HYP and the 2023 workshop introduction) never
    read the name [lum] it is bound to. *)
Theorem imported_modules :
  (forall nb x,
     In nb notebooks -> In x (notebook_imports nb) ->
     In x ["lumispy"; "hyperspy.api"; "numpy"; "matplotlib.pyplot"; "os"; "glob";
           "warnings"])
  /\ (forall nb, In nb notebooks -> In "lumispy" (notebook_imports nb))
  /\ map nb_name (filter (fun nb => bool_decide ("lum" ∈ notebook_reads nb)) notebooks)
     = ["AttolightSEM_HYP"; "workshop_intro_2023"].
Proof.
  split; [|split].
  - intros nb x Hnb Hx.
    assert (H : forallb (fun nb => forallb (fun x => bool_decide
                  (x ∈ ["lumispy"; "hyperspy.api"; "numpy"; "matplotlib.pyplot";
                        "os"; "glob"; "warnings"])) (notebook_imports nb))
                  notebooks = true) by (vm_compute; reflexivity).
    rewrite forallb_forall in H. specialize (H nb Hnb).
    rewrite forallb_forall in H. specialize (H x Hx).
    apply bool_decide_eq_true_1 in H. now apply list_elem_of_In.
  - intros nb Hnb.
    assert (H : forallb (fun nb => bool_decide ("lumispy" ∈ notebook_imports nb))
                  notebooks = true) by (vm_compute; reflexivity).
    rewrite forallb_forall in H. specialize (H nb Hnb).
    apply bool_decide_eq_true_1 in H. now apply list_elem_of_In.
  - vm_compute; reflexivity.
Qed.

Lemma imported_modules_witness :
  In GatanSEM_dm notebooks
  /\ In "hyperspy.api" (notebook_imports GatanSEM_dm)
  /\ In "hyperspy.api"
       ["lumispy"; "hyperspy.api"; "numpy"; "matplotlib.pyplot"; "os"; "glob";
        "warnings"].
Proof.
  assert (H1 : In GatanSEM_dm notebooks) by (do 2 right; left; reflexivity).
  assert (H2 : In "hyperspy.api" (notebook_imports GatanSEM_dm))
    by (vm_compute; tauto).
  split; [exact H1|]. split; [exact H2|].
  exact (proj1 imported_modules _ _ H1 H2).
Defined.

End ScopeFacts.
